(** * PolyDoc: document extraction and AI orchestration, verified against its specification

    Shallow embedding of
      - [src/core/document_processor.py] (class [DocumentProcessor]) and
      - [src/models/ai_models.py]        (class [AIModelManager]).

    Conventions of the embedding.
      - A Python [str] is the list of its Unicode code points ([Py.str]).
      - Python [float] values (confidences, scores, shares) are modelled by
        the rationals they denote ([Q]); comparisons are the exact ones.
        For the language classifier the quotient [count / total] is
        compared with [0.3]: the correctly rounded binary64 quotient exceeds
        the binary64 literal [0.3] exactly when the rational quotient exceeds
        3/10, for every text shorter than 10^15 characters.
      - Exceptions are values of type [exn]; code that may raise returns
        [exn + A].  Calls to the inference primitives are recorded in a
        trace, so that the number and the arguments of the calls can be
        stated.
      - Logging and the wall-clock field [processing_time] have no influence
        on any other value and are left out. *)

From Stdlib Require Import ZArith QArith List String Ascii Bool Lia Arith Sorted.
From Stdlib Require Import DecimalString Permutation.
Import ListNotations.

Local Open Scope Z_scope.

(* ================================================================== *)
(** ** Python strings *)
(* ================================================================== *)

Module Py.

Definition char := Z.
Definition str := list char.

Definition ord (a : ascii) : char := Z.of_N (N_of_ascii a).

(** A string literal of the source. *)
Definition lit (s : string) : str := map ord (list_ascii_of_string s).

Definition len {A : Type} (s : list A) : Z := Z.of_nat (List.length s).

Definition between (lo hi c : char) : bool := (lo <=? c) && (c <=? hi).

Fixpoint str_eqb (a b : str) : bool :=
  match a, b with
  | [], [] => true
  | x :: a', y :: b' => (x =? y) && str_eqb a' b'
  | _, _ => false
  end.

(** [bool(s)]: a string is true when it is not empty. *)
Definition truthy {A : Type} (s : list A) : bool :=
  match s with [] => false | _ => true end.

(** [str.isspace] on one character (CPython's [_PyUnicode_IsWhitespace]). *)
Definition isspace (c : char) : bool :=
  between 9 13 c || between 28 32 c || (c =? 133) || (c =? 160)
  || (c =? 5760) || between 8192 8202 c || (c =? 8232) || (c =? 8233)
  || (c =? 8239) || (c =? 8287) || (c =? 12288).

Fixpoint lstrip (s : str) : str :=
  match s with
  | [] => []
  | c :: s' => if isspace c then lstrip s' else s
  end.

Definition rstrip (s : str) : str := rev (lstrip (rev s)).

(** [s.strip()] *)
Definition strip (s : str) : str := rstrip (lstrip s).

(** [s[i:j]] for [0 <= i <= j]. *)
Definition slice {A : Type} (s : list A) (i j : nat) : list A :=
  firstn (j - i) (skipn i s).

(** [range(0, stop, step)] for a positive [step]. *)
Definition range_step (stop step : nat) : list nat :=
  map (fun k => (k * step)%nat) (seq 0 ((stop + step - 1) / step)).

(** [c.isascii()] *)
Definition isascii (c : char) : bool := between 0 127 c.

(** [c.isalpha()], on the ASCII range, the only place where the source
    evaluates it (it stands behind [c.isascii() and ...]). *)
Definition isalpha (c : char) : bool := between 65 90 c || between 97 122 c.

(** [c.isupper()] / [c.islower()] on cased ASCII letters. *)
Definition lower_char (c : char) : char :=
  if between 65 90 c then c + 32 else c.

(** [s.lower()].  Only ASCII letters are folded.  Of the characters outside
    ASCII, Python maps none to a string of ASCII letters only, except
    U+212A to [k], a letter no supported suffix contains; membership of a
    lowered suffix in the supported formats is therefore the same. *)
Definition lower (s : str) : str := map lower_char s.

(** [sep.join(l)] *)
Fixpoint join (sep : str) (l : list str) : str :=
  match l with
  | [] => []
  | [x] => x
  | x :: l' => x ++ sep ++ join sep l'
  end.

(** [s.startswith(p)] *)
Fixpoint startswith (s p : str) : bool :=
  match p, s with
  | [], _ => true
  | x :: p', y :: s' => (x =? y) && startswith s' p'
  | _ :: _, [] => false
  end.

Definition cons_head (c : char) (l : list str) : list str :=
  match l with
  | [] => [[c]]
  | h :: t => (c :: h) :: t
  end.

(** [s.split(sep)] for a separator of one character. *)
Fixpoint split1 (a : char) (s : str) : list str :=
  match s with
  | [] => [[]]
  | c :: s' => if c =? a then [] :: split1 a s' else cons_head c (split1 a s')
  end.

(** [s.split(sep)] for a separator of the two characters [a], [b]:
    the leftmost occurrence is cut out and the scan goes on behind it. *)
Fixpoint split2 (a b : char) (s : str) : list str :=
  match s with
  | [] => [[]]
  | c :: s' =>
      match s' with
      | d :: s'' =>
          if (c =? a) && (d =? b) then [] :: split2 a b s''
          else cons_head c (split2 a b s')
      | [] => [[c]]
      end
  end.

(** [s.rfind(c)]: the last index of [c], or -1. *)
Fixpoint rfind_from (c : char) (s : str) (pos found : Z) : Z :=
  match s with
  | [] => found
  | x :: s' => rfind_from c s' (pos + 1) (if x =? c then pos else found)
  end.

Definition rfind (c : char) (s : str) : Z := rfind_from c s 0 (-1).

(** The string that holds one line feed. *)
Definition newline : str := [10].

(** [x in l] for a collection of strings. *)
Definition str_in (x : str) (l : list str) : bool := existsb (str_eqb x) l.

(** [sum(1 for c in text if p(c))] *)
Fixpoint count_if (p : char -> bool) (text : str) : Z :=
  match text with
  | [] => 0
  | c :: text' => (if p c then 1 else 0) + count_if p text'
  end.

End Py.

Import Py.

(* ================================================================== *)
(** ** Numbers standing for Python floats *)
(* ================================================================== *)

(** [x > y] on floats. *)
Definition Qgtb (x y : Q) : bool := negb (Qle_bool x y).

(** [x < y] on floats. *)
Definition Qltb (x y : Q) : bool := negb (Qle_bool y x).

(** [a / b] (true division of two integers). *)
Definition true_div (a b : Z) : Q := (inject_Z a / inject_Z b)%Q.

(* ================================================================== *)
(** ** Exceptions *)
(* ================================================================== *)

(** The exceptions the two classes raise themselves, and [LibError] for
    whatever a third-party library (PyPDF2, python-docx, python-pptx,
    EasyOCR, transformers, scikit-learn) raises.  Every exception carries
    its message, which is what [str(e)] returns. *)
Inductive exn : Type :=
| FileNotFoundError (msg : str)
| ValueError (msg : str)
| TypeError (msg : str)
| Exception (msg : str)
| LibError (msg : str).

Definition exn_str (e : exn) : str :=
  match e with
  | FileNotFoundError m | ValueError m | TypeError m | Exception m
  | LibError m => m
  end.

(** Fallible code without other effects. *)
Definition result (A : Type) : Type := (exn + A)%type.

Definition ok {A : Type} (a : A) : result A := inr a.
Definition raise {A : Type} (e : exn) : result A := inl e.

Definition rbind {A B : Type} (m : result A) (k : A -> result B) : result B :=
  match m with
  | inl e => inl e
  | inr a => k a
  end.

Declare Scope result_scope.
Delimit Scope result_scope with result.
Notation "x <- m ;; k" := (rbind m (fun x => k))
  (at level 61, m at next level, right associativity) : result_scope.

(** What a call into a format library gives: a value, or the message of
    the exception the library raised.  Such an exception reaches the caller
    as a [LibError]; it is kept apart from the exceptions [process_document]
    raises itself. *)
Definition lib (A : Type) : Type := (str + A)%type.

Definition call_lib {A : Type} (r : lib A) : result A :=
  match r with
  | inl msg => raise (LibError msg)
  | inr a => ok a
  end.

(** A [for] loop whose body may raise and returns what it appends
    (the body's exception leaves the loop). *)
Fixpoint for_append {A B : Type} (body : A -> result (list B)) (l : list A)
  : result (list B) :=
  match l with
  | [] => ok []
  | a :: l' =>
      (bs <- body a ;;
       rest <- for_append body l' ;;
       ok (bs ++ rest))%result
  end.

(** [enumerate(l, start)] *)
Fixpoint enumerate {A : Type} (start : Z) (l : list A) : list (Z * A) :=
  match l with
  | [] => []
  | a :: l' => (start, a) :: enumerate (start + 1) l'
  end.

(* ================================================================== *)
(** ** [DocumentProcessor] *)
(* ================================================================== *)

Module DocumentProcessor.

Record DocumentElement : Type := mkElement {
  text : str;
  page_number : Z;
  element_type : str;
  bbox : Q * Q * Q * Q;
  confidence : Q;
  language : option str;
  font_info : option (list (str * str))
}.

Record ProcessedDocument : Type := mkDocument {
  filename : str;
  total_pages : Z;
  elements : list DocumentElement;
  summary : option str;
  metadata : list (str * (str + Z))
}.

(** *** The language classifier *)

Definition is_latin (c : char) : bool := isascii c && isalpha c.
Definition is_arabic (c : char) : bool := between 1536 1791 c.     (* U+0600..U+06FF *)
Definition is_hindi (c : char) : bool := between 2304 2431 c.      (* U+0900..U+097F *)
Definition is_chinese (c : char) : bool := between 19968 40959 c.  (* U+4E00..U+9FFF *)

Definition _detect_language (text : str) : str :=
  if negb (truthy text) then lit "unknown" else
  let latin_chars := count_if is_latin text in
  let arabic_chars := count_if is_arabic text in
  let hindi_chars := count_if is_hindi text in
  let chinese_chars := count_if is_chinese text in
  let total_chars := latin_chars + arabic_chars + hindi_chars + chinese_chars in
  if total_chars =? 0 then lit "unknown"
  else if Qgtb (true_div arabic_chars total_chars) (3 # 10) then lit "ar"
  else if Qgtb (true_div hindi_chars total_chars) (3 # 10) then lit "hi"
  else if Qgtb (true_div chinese_chars total_chars) (3 # 10) then lit "zh"
  else lit "en".

(** The classifier as the specification words it: count the characters of
    the four ranges, answer "unknown" on a zero total, otherwise compare the
    shares with 0.3 in the order Arabic, Devanagari, CJK. *)
Definition share (n total : Z) : Q := (inject_Z n / inject_Z total)%Q.

Definition classify (text : str) : str :=
  let latin := count_if (fun c => between 65 90 c || between 97 122 c) text in
  let arabic := count_if (between 1536 1791) text in
  let devanagari := count_if (between 2304 2431) text in
  let cjk := count_if (between 19968 40959) text in
  let total := latin + arabic + devanagari + cjk in
  if total =? 0 then lit "unknown"
  else if Qgtb (share arabic total) (3 # 10) then lit "ar"
  else if Qgtb (share devanagari total) (3 # 10) then lit "hi"
  else if Qgtb (share cjk total) (3 # 10) then lit "zh"
  else lit "en".

(** *** [pathlib.Path] (POSIX flavour) *)

Definition slash : char := 47.
Definition dot : char := 46.

(** The components of a path: empty components and [.] are dropped. *)
Definition path_parts (p : str) : list str :=
  filter (fun x => truthy x && negb (str_eqb x (lit "."))) (split1 slash p).

Definition path_root (p : str) : str :=
  if startswith p (lit "///") then lit "/"
  else if startswith p (lit "//") then lit "//"
  else if startswith p (lit "/") then lit "/"
  else [].

(** [Path(p).name] *)
Definition path_name (p : str) : str := last (path_parts p) [].

(** [Path(p).suffix] *)
Definition path_suffix (p : str) : str :=
  let name := path_name p in
  let i := rfind dot name in
  if (0 <? i) && (i <? len name - 1) then skipn (Z.to_nat i) name else [].

(** [str(Path(p))] *)
Definition path_str (p : str) : str :=
  if negb (truthy (path_root p)) && negb (truthy (path_parts p)) then lit "."
  else path_root p ++ join (lit "/") (path_parts p).

(** *** What the format libraries deliver *)

(** A PDF page: [page.extract_text()] returns the text or raises. *)
Record PdfPage : Type := { extract_text : lib str }.

(** A DOCX paragraph ([paragraph.text] may raise) and a table, given by the
    text of the cells of its rows. *)
Record DocxParagraph : Type := { para_text : lib str; style_name : str }.
Record DocxTable : Type := { rows : list (list str) }.
Record Docx : Type := { paragraphs : list DocxParagraph; tables : list DocxTable }.

(** A PPTX shape: [shape_text] is [ok None] when the shape has no attribute
    [text], [ok (Some t)] when it has, and an error when reading it raises. *)
Record Shape : Type := {
  shape_text : lib (option str);
  left : Z; top : Z; width : Z; height : Z
}.
Record Slide : Type := { shapes : list Shape }.

(** One EasyOCR detection: the corners of the region (EasyOCR gives four,
    never none: the first one and the others), the text and the engine's
    confidence. *)
Record OcrResult : Type := {
  first_corner : Q * Q;
  other_corners : list (Q * Q);
  ocr_text : str;
  ocr_confidence : Q
}.

(** The file system and the libraries, as [process_document] sees them;
    files are named by [str(Path(file_path))]. *)
Record Env : Type := {
  path_exists : str -> bool;                     (* Path.exists() *)
  st_size : str -> Z;                            (* Path.stat().st_size *)
  PdfReader : str -> lib (list PdfPage);         (* open, PyPDF2.PdfReader, .pages *)
  DocxDocument : str -> lib Docx;
  Presentation : str -> lib (list Slide);
  imread : str -> bool;                          (* cv2.imread(...) is not None *)
  readtext : str -> lib (list OcrResult);        (* self.ocr_reader.readtext *)
  layout_model : option (str -> lib unit);       (* self.layout_model.detect *)
  isupper : str -> bool                          (* str.isupper, Unicode case tables *)
}.

Definition supported_formats : list str :=
  [lit ".pdf"; lit ".docx"; lit ".pptx"; lit ".png"; lit ".jpg"; lit ".jpeg";
   lit ".tiff"; lit ".bmp"].

Definition Qz (z : Z) : Q := inject_Z z.

(** *** The extractors *)

Definition pdf_paragraph (page_num : Z) (ip : Z * str) : DocumentElement :=
  let (i, paragraph) := ip in
  {| text := paragraph;
     page_number := page_num;
     element_type := lit "paragraph";
     bbox := (Qz 0, Qz (i * 50), Qz 500, Qz ((i + 1) * 50));
     confidence := 9 # 10;
     language := Some (_detect_language paragraph);
     font_info := None |}.

Definition pdf_page (np : Z * PdfPage) : result (list DocumentElement) :=
  let (page_num, page) := np in
  (text_content <- call_lib (extract_text page) ;;
   if truthy (strip text_content) then
     let paragraphs :=
       map strip
         (filter (fun p => truthy (strip p)) (split2 10 10 text_content)) in
     ok (map (pdf_paragraph page_num) (enumerate 0 paragraphs))
   else ok [])%result.

Definition _process_pdf (env : Env) (file_path : str) : result ProcessedDocument :=
  (pages <- call_lib (PdfReader env (path_str file_path)) ;;
   let total_pages := len pages in
   elements <- for_append pdf_page (enumerate 1 pages) ;;
   ok {| filename := path_name file_path;
         total_pages := total_pages;
         elements := elements;
         summary := None;
         metadata := [(lit "file_type", inl (lit "pdf"));
                      (lit "size", inr (st_size env (path_str file_path)))] |})%result.

Definition docx_paragraph (ip : Z * DocxParagraph) : result (list DocumentElement) :=
  let (para_idx, paragraph) := ip in
  (t <- call_lib (para_text paragraph) ;;
   if truthy (strip t) then
     let element_type :=
       if startswith (style_name paragraph) (lit "Heading")
       then lit "heading" else lit "paragraph" in
     ok [ {| text := t;
             page_number := 1;
             element_type := element_type;
             bbox := (Qz 0, Qz (para_idx * 30), Qz 500, Qz ((para_idx + 1) * 30));
             confidence := 1;
             language := Some (_detect_language t);
             font_info := Some [(lit "style", style_name paragraph)] |} ]
   else ok [])%result.

Definition docx_table (it : Z * DocxTable) : list DocumentElement :=
  let (table_idx, table) := it in
  let table_text := map (join (lit " | ")) (rows table) in
  if truthy table_text then
    [ {| text := join newline table_text;
         page_number := 1;
         element_type := lit "table";
         bbox := (Qz 0, Qz (1000 + table_idx * 100), Qz 500,
                  Qz (1000 + (table_idx + 1) * 100));
         confidence := 1;
         language := Some (_detect_language (join (lit " ") table_text));
         font_info := None |} ]
  else [].

Definition _process_docx (env : Env) (file_path : str) : result ProcessedDocument :=
  (doc <- call_lib (DocxDocument env (path_str file_path)) ;;
   paras <- for_append docx_paragraph (enumerate 0 (paragraphs doc)) ;;
   let elements := paras ++ flat_map docx_table (enumerate 0 (tables doc)) in
   ok {| filename := path_name file_path;
         total_pages := 1;
         elements := elements;
         summary := None;
         metadata := [(lit "file_type", inl (lit "docx"));
                      (lit "size", inr (st_size env (path_str file_path)))] |})%result.

Definition pptx_shape (env : Env) (slide_num : Z) (shape : Shape)
  : result (list DocumentElement) :=
  (t <- call_lib (shape_text shape) ;;
   match t with
   | Some t =>
       if truthy (strip t) then
         let element_type :=
           if isupper env t || (len t <? 50)
           then lit "heading" else lit "paragraph" in
         ok [ {| text := t;
                 page_number := slide_num;
                 element_type := element_type;
                 bbox := (Qz (left shape), Qz (top shape),
                          Qz (left shape + width shape),
                          Qz (top shape + height shape));
                 confidence := 1;
                 language := Some (_detect_language t);
                 font_info := None |} ]
       else ok []
   | None => ok []
   end)%result.

Definition pptx_slide (env : Env) (ns : Z * Slide) : result (list DocumentElement) :=
  let (slide_num, slide) := ns in
  for_append (pptx_shape env slide_num) (shapes slide).

Definition _process_pptx (env : Env) (file_path : str) : result ProcessedDocument :=
  (slides <- call_lib (Presentation env (path_str file_path)) ;;
   elements <- for_append (pptx_slide env) (enumerate 1 slides) ;;
   ok {| filename := path_name file_path;
         total_pages := len slides;
         elements := elements;
         summary := None;
         metadata := [(lit "file_type", inl (lit "pptx"));
                      (lit "size", inr (st_size env (path_str file_path)))] |})%result.

(** [min(l)] and [max(l)] of a list that starts with [x]. *)
Definition Qmin_list (x : Q) (l : list Q) : Q :=
  fold_left (fun m y => if Qltb y m then y else m) l x.
Definition Qmax_list (x : Q) (l : list Q) : Q :=
  fold_left (fun m y => if Qgtb y m then y else m) l x.

Definition ocr_element (r : OcrResult) : list DocumentElement :=
  let confidence := ocr_confidence r in
  let text := ocr_text r in
  if Qgtb confidence (1 # 2) && truthy (strip text) then
    let x := fst (first_corner r) in
    let y := snd (first_corner r) in
    let x_coords := map fst (other_corners r) in
    let y_coords := map snd (other_corners r) in
    let bbox := (Qmin_list x x_coords, Qmin_list y y_coords,
                 Qmax_list x x_coords, Qmax_list y y_coords) in
    let element_type :=
      if Qltb confidence (8 # 10) then lit "handwriting" else lit "text" in
    [ {| text := text;
         page_number := 1;
         element_type := element_type;
         bbox := bbox;
         confidence := confidence;
         language := Some (_detect_language text);
         font_info := None |} ]
  else [].

Definition _process_image (env : Env) (file_path : str) : result ProcessedDocument :=
  if negb (imread env (path_str file_path)) then
    raise (ValueError (lit "Could not load image: " ++ path_str file_path))
  else
    (ocr_results <- call_lib (readtext env (path_str file_path)) ;;
     let elements := flat_map ocr_element ocr_results in
     (* the layout pass: its result is not used and its failure is caught *)
     let _ := match layout_model env with
              | Some detect => match detect (path_str file_path) with
                               | inl _ => tt
                               | inr _ => tt
                               end
              | None => tt
              end in
     ok {| filename := path_name file_path;
           total_pages := 1;
           elements := elements;
           summary := None;
           metadata := [(lit "file_type", inl (lit "image"));
                        (lit "size", inr (st_size env (path_str file_path)))] |})%result.

(** *** [process_document]

    The [try ... except Exception] around the body logs and re-raises, and
    so changes no outcome. *)
Definition process_document (env : Env) (file_path : str) : result ProcessedDocument :=
  if negb (path_exists env (path_str file_path)) then
    raise (FileNotFoundError (lit "File not found: " ++ path_str file_path))
  else
    let suffix := path_suffix file_path in
    if negb (str_in (lower suffix) supported_formats) then
      raise (ValueError (lit "Unsupported format: " ++ suffix))
    else if str_eqb (lower suffix) (lit ".pdf") then _process_pdf env file_path
    else if str_eqb (lower suffix) (lit ".docx") then _process_docx env file_path
    else if str_eqb (lower suffix) (lit ".pptx") then _process_pptx env file_path
    else _process_image env file_path.

End DocumentProcessor.

(* ================================================================== *)
(** ** [AIModelManager] *)
(* ================================================================== *)

Module AIModels.

(** Values stored in the dictionaries the methods return. *)
Inductive value : Type :=
| VStr (s : str)
| VBool (b : bool)
| VInt (z : Z)
| VFloat (q : Q).

Record ModelResponse : Type := mkResponse {
  content : str;
  confidence : Q;
  metadata : list (str * value)
}.

(** The fields a response populates. *)
Definition shape (r : ModelResponse) : list str := map fst (metadata r).

(** *** The inference primitives *)

(** The summarization pipeline, called with a text, [max_length] and
    [min_length] ([do_sample] is always [False]); it returns the list of
    the [summary_text] fields of its results. *)
Definition Summarizer : Type := str -> Z -> Z -> result (list str).

Record QAResult : Type := { answer : str; score : Q }.
(** The question-answering pipeline, called with question and context. *)
Definition QAModel : Type := str -> str -> result QAResult.

Record Label : Type := { label : str; label_score : Q }.
Definition Classifier : Type := str -> result (list Label).

Definition Embedder : Type := list str -> result (list (list Q)).

(** What [extract_key_phrases] takes from scikit-learn and numpy: the
    import of scikit-learn, done inside the method, which may raise;
    [TfidfVectorizer(...).fit_transform] with the feature names (the rows
    of the matrix are the sentences); and [np.argsort]. *)
Record Libs : Type := {
  import_sklearn : result unit;
  fit_transform : list str -> result (list str * list (list Q));
  argsort : list Q -> list nat
}.

(** *** Effects: a trace of the calls made to the primitives *)

Inductive call : Type :=
| CallSummarizer (text : str) (max_length min_length : Z)
| CallQA (question context : str)
| CallClassifier (text : str)
| CallVectorizer (sentences : list str).

Definition M (A : Type) : Type := (result A * list call)%type.

Definition ret {A : Type} (a : A) : M A := (inr a, []).
Definition throw {A : Type} (e : exn) : M A := (inl e, []).

Definition bind {A B : Type} (m : M A) (k : A -> M B) : M B :=
  match m with
  | (inl e, t) => (inl e, t)
  | (inr a, t) => let (r, t') := k a in (r, t ++ t')
  end.

(** [try: m  except Exception as e: handler(e)] *)
Definition try_except {A : Type} (m : M A) (handler : exn -> M A) : M A :=
  match m with
  | (inl e, t) => let (r, t') := handler e in (r, t ++ t')
  | (inr a, t) => (inr a, t)
  end.

(** Code that may raise and calls no primitive. *)
Definition lift {A : Type} (r : result A) : M A := (r, []).

(** One call of a primitive, recorded. *)
Definition invoke {A : Type} (c : call) (r : result A) : M A := (r, [c]).

Definition outcome {A : Type} (m : M A) : result A := fst m.
Definition trace {A : Type} (m : M A) : list call := snd m.

Declare Scope eff_scope.
Delimit Scope eff_scope with eff.
Notation "x <- m ;; k" := (bind m (fun x => k))
  (at level 61, m at next level, right associativity) : eff_scope.

(** [l[0]] *)
Definition item0 {A : Type} (l : list A) : M A :=
  match l with
  | [] => throw (LibError (lit "list index out of range"))
  | a :: _ => ret a
  end.

(** [for x in l: out.append(body(x))] *)
Fixpoint for_each {A B : Type} (body : A -> M B) (l : list A) : M (list B) :=
  match l with
  | [] => ret []
  | a :: l' =>
      (b <- body a ;;
       bs <- for_each body l' ;;
       ret (b :: bs))%eff
  end.

(** *** The manager and its construction *)

Record AIModelManager : Type := {
  embedding_model : option Embedder;
  summarizer : option Summarizer;
  qa_model : option QAModel;
  classifier : option Classifier;
  lang_detector : option (str -> result (list Label));
  models_loaded : list (str * bool)
}.

(** What loading each model gives: the model, or the exception raised. *)
Record Loaders : Type := {
  load_embedding : result Embedder;
  load_summarizer : result Summarizer;
  load_qa : result QAModel;
  load_classifier : result Classifier
}.

(** [d[k] = v] *)
Fixpoint dict_set {V : Type} (d : list (str * V)) (k : str) (v : V) : list (str * V) :=
  match d with
  | [] => [(k, v)]
  | (k', v') :: d' =>
      if str_eqb k' k then (k', v) :: d' else (k', v') :: dict_set d' k v
  end.

(** [d[k]], with [dflt] for a missing key. *)
Fixpoint dict_get {V : Type} (d : list (str * V)) (k : str) (dflt : V) : V :=
  match d with
  | [] => dflt
  | (k', v') :: d' => if str_eqb k' k then v' else dict_get d' k dflt
  end.

(** The body of one [try: self.x = load(); self.models_loaded[k] = True
    except: self.x = None]. *)
Definition try_load {A : Type} (l : result A) (key : string)
  (loaded : list (str * bool)) : option A * list (str * bool) :=
  match l with
  | inr m => (Some m, dict_set loaded (lit key) true)
  | inl _ => (None, loaded)
  end.

Definition _load_models (l : Loaders) : result AIModelManager :=
  let loaded0 := [(lit "embedding", false); (lit "summarizer", false);
                  (lit "qa", false); (lit "classifier", false);
                  (lit "lang_detector", false)] in
  let (embedding_model, loaded1) := try_load (load_embedding l) "embedding" loaded0 in
  let (summarizer, loaded2) := try_load (load_summarizer l) "summarizer" loaded1 in
  let (qa_model, loaded3) := try_load (load_qa l) "qa" loaded2 in
  let (classifier, loaded4) := try_load (load_classifier l) "classifier" loaded3 in
  (* the language detector is switched off: never loaded *)
  let loaded5 := dict_set loaded4 (lit "lang_detector") false in
  if negb (dict_get loaded5 (lit "embedding") false) then
    raise (Exception (lit "Essential embedding model could not be loaded"))
  else
    ok {| embedding_model := embedding_model;
          summarizer := summarizer;
          qa_model := qa_model;
          classifier := classifier;
          lang_detector := None;
          models_loaded := loaded5 |}.

(** *** [summarize_text] *)

Definition call_summarizer (f : Summarizer) (text : str) (max_length min_length : Z)
  : M str :=
  (result <- invoke (CallSummarizer text max_length min_length)
                    (f text max_length min_length) ;;
   item0 result)%eff.

(** [[text[i:i+size] for i in range(0, len(text), size)]] *)
Definition chunks_of {A : Type} (text : list A) (size step : nat) : list (list A) :=
  map (fun i => slice text i (i + size)) (range_step (List.length text) step).

Definition summarize_text (self : AIModelManager) (text : str)
  (max_length min_length : Z) (language : str) : M ModelResponse :=
  match summarizer self with
  | None =>
      ret {| content := lit "Summary unavailable (model not loaded). Text preview: "
                        ++ slice text 0 200 ++ lit "...";
             confidence := 0;
             metadata := [(lit "fallback", VBool true);
                          (lit "language", VStr language)] |}
  | Some summarizer =>
      try_except
        (let max_chunk_size := 1000%nat in
         summary <-
           (if len text >? Z.of_nat max_chunk_size then
              let chunks := chunks_of text max_chunk_size max_chunk_size in
              summaries <-
                for_each (fun chunk =>
                            call_summarizer summarizer chunk
                              (max_length / len chunks) (min_length / len chunks))
                         chunks ;;
              let combined_summary := join (lit " ") summaries in
              if len combined_summary >? max_length * 2 then
                call_summarizer summarizer combined_summary max_length min_length
              else ret combined_summary
            else call_summarizer summarizer text max_length min_length) ;;
         ret {| content := summary;
                confidence := 8 # 10;
                metadata := [(lit "language", VStr language);
                             (lit "original_length", VInt (len text))] |})%eff
        (fun e =>
           ret {| content := lit "Error generating summary: " ++ exn_str e;
                  confidence := 0;
                  metadata := [(lit "error", VStr (exn_str e))] |})
  end.

(** *** [answer_question] *)

Definition call_qa (f : QAModel) (question context : str) : M QAResult :=
  invoke (CallQA question context) (f question context).

(** The loop over the windows; the state is [(best_answer, best_score)]. *)
Fixpoint qa_loop (f : QAModel) (question : str) (chunks : list str)
  (best : option QAResult * Q) : M (option QAResult * Q) :=
  match chunks with
  | [] => ret best
  | chunk :: chunks' =>
      (result <- call_qa f question chunk ;;
       if Qgtb (score result) (snd best)
       then qa_loop f question chunks' (Some result, score result)
       else qa_loop f question chunks' best)%eff
  end.

Definition answer_question (self : AIModelManager) (question context language : str)
  : M ModelResponse :=
  match qa_model self with
  | None =>
      ret {| content :=
               lit "Question answering unavailable (model not loaded). Based on the context, here's relevant text: "
               ++ slice context 0 300 ++ lit "...";
             confidence := 0;
             metadata := [(lit "fallback", VBool true);
                          (lit "question", VStr question);
                          (lit "language", VStr language)] |}
  | Some qa_model =>
      try_except
        (let max_context_length := 2000%nat in
         ac <-
           (if len context >? Z.of_nat max_context_length then
              let stride := (max_context_length / 2)%nat in
              let chunks := chunks_of context max_context_length stride in
              best <- qa_loop qa_model question chunks (None, 0%Q) ;;
              let (best_answer, best_score) := best in
              ret (match best_answer with
                   | Some r => (answer r, best_score)
                   | None => (lit "No answer found", 0%Q)
                   end)
            else
              result <- call_qa qa_model question context ;;
              ret (answer result, score result)) ;;
         ret {| content := fst ac;
                confidence := snd ac;
                metadata := [(lit "question", VStr question);
                             (lit "language", VStr language)] |})%eff
        (fun e =>
           ret {| content := lit "Error answering question: " ++ exn_str e;
                  confidence := 0;
                  metadata := [(lit "error", VStr (exn_str e));
                               (lit "question", VStr question)] |})
  end.

(** *** [analyze_sentiment] *)

Definition call_classifier (f : option Classifier) (text : str) : M (list Label) :=
  match f with
  | None => throw (TypeError (lit "'NoneType' object is not callable"))
  | Some f => invoke (CallClassifier text) (f text)
  end.

Definition analyze_sentiment (self : AIModelManager) (text : str)
  : M (list (str * value)) :=
  try_except
    (result <- call_classifier (classifier self) (slice text 0 500) ;;
     r0 <- item0 result ;;
     ret [(lit "sentiment", VStr (label r0));
          (lit "confidence", VFloat (label_score r0));
          (lit "analysis", VStr (lit "multilingual_sentiment"))])%eff
    (fun e =>
       ret [(lit "sentiment", VStr (lit "neutral"));
            (lit "confidence", VFloat 0);
            (lit "analysis", VStr (lit "error"));
            (lit "error", VStr (exn_str e))]).

(** *** [extract_key_phrases] *)

Definition is_terminal (c : char) : bool := (c =? 46) || (c =? 33) || (c =? 63).

(** [re.split(r'[.!?]+', s)]; [in_sep] tells that the character before
    belonged to a separator. *)
Fixpoint re_split (s : str) (in_sep : bool) : list str :=
  match s with
  | [] => [[]]
  | c :: s' =>
      if is_terminal c then
        if in_sep then re_split s' true else [] :: re_split s' true
      else cons_head c (re_split s' false)
  end.

(** [l[-k:]] *)
Definition slice_last {A : Type} (k : Z) (l : list A) : list A :=
  let n := len l in
  let start := if (- k) <? 0 then Z.max (n - k) 0 else Z.min (- k) n in
  skipn (Z.to_nat start) l.

Definition Qsum (l : list Q) : Q := fold_left Qplus l 0%Q.

(** [np.mean(matrix, axis=0)] for a matrix with [m] columns. *)
Definition mean_axis0 (m : nat) (matrix : list (list Q)) : list Q :=
  map (fun j => (Qsum (map (fun row => nth j row 0%Q) matrix)
                 / inject_Z (len matrix))%Q)
      (seq 0 m).

(** [[feature_names[i] for i in top_indices if mean_scores[i] > 0]] *)
Fixpoint pick (feature_names : list str) (mean_scores : list Q)
  (top_indices : list nat) : M (list str) :=
  match top_indices with
  | [] => ret []
  | i :: rest =>
      match nth_error mean_scores i with
      | None => throw (LibError (lit "index out of bounds"))
      | Some sc =>
          if Qgtb sc 0 then
            match nth_error feature_names i with
            | None => throw (LibError (lit "index out of bounds"))
            | Some name => (names <- pick feature_names mean_scores rest ;;
                            ret (name :: names))%eff
            end
          else pick feature_names mean_scores rest
      end
  end.

Definition sentences_of (text : str) : list str :=
  map strip (filter (fun s => truthy (strip s)) (re_split text false)).

Definition extract_key_phrases (libs : Libs) (text : str) (top_k : Z)
  : M (list str) :=
  try_except
    (_ <- lift (import_sklearn libs) ;;
     let sentences := sentences_of text in
     if len sentences <? 2 then
       ret (if truthy text then [slice text 0 50] else [])
     else
       fm <- invoke (CallVectorizer sentences) (fit_transform libs sentences) ;;
       let (feature_names, tfidf_matrix) := fm in
       let mean_scores := mean_axis0 (List.length feature_names) tfidf_matrix in
       let top_indices := rev (slice_last top_k (argsort libs mean_scores)) in
       pick feature_names mean_scores top_indices)%eff
    (fun e => ret []).

End AIModels.

(* ================================================================== *)
(** ** [DocumentProcessor]: time estimate and statistics *)
(* ================================================================== *)

Module Stats.

Import AIModels.

(** [int(x)] of a float: the fraction is cut off. *)
Definition Qtrunc (q : Q) : Z := Z.quot (Qnum q) (Z.pos (Qden q)).

(** [round(x, 1)] and [round(x, 2)] on floats. *)
Record Rounding : Type := { round1 : Q -> Q; round2 : Q -> Q }.

Record Estimate : Type := {
  estimated_seconds : Z;
  estimated_minutes : Q;
  file_size_mb : Q;
  complexity : str
}.

(** Seconds per megabyte. *)
Definition time_estimates : list (str * Z) :=
  [(lit ".pdf", 3); (lit ".docx", 1); (lit ".pptx", 2); (lit ".png", 8);
   (lit ".jpg", 8); (lit ".jpeg", 8); (lit ".tiff", 10); (lit ".bmp", 12)].

(** [estimate_processing_time]; [stat_size] is what
    [Path(file_path).stat().st_size] gives, the size in bytes or the
    exception of a file that cannot be examined.  The size in megabytes and
    its product with the base time are exact in binary64 for every size
    below 2^49 bytes (the product of the size and the base time, at most
    12, stays below 2^53), so that for such files the seconds are computed
    without rounding.  For larger files the source rounds the product, and
    its seconds can be one more than those computed here. *)
Definition estimate_processing_time (rounding : Rounding) (stat_size : lib Z)
  (file_path : str) : Estimate :=
  match stat_size with
  | inr st_size =>
      let file_size_mb := true_div st_size (1024 * 1024) in
      let file_ext := lower (DocumentProcessor.path_suffix file_path) in
      let base_time := dict_get time_estimates file_ext 8 in
      let estimated_seconds :=
        Z.max 5 (Qtrunc (file_size_mb * inject_Z base_time)) in
      {| estimated_seconds := estimated_seconds;
         estimated_minutes := round1 rounding (true_div estimated_seconds 60);
         file_size_mb := round2 rounding file_size_mb;
         complexity := if estimated_seconds >? 60 then lit "High"
                       else if estimated_seconds >? 20 then lit "Medium"
                       else lit "Low" |}
  | inl _ =>
      {| estimated_seconds := 30;
         estimated_minutes := 1 # 2;
         file_size_mb := 0;
         complexity := lit "Unknown" |}
  end.

Record DocumentStats : Type := {
  total_elements : Z;
  total_pages : Z;
  element_types : list (str * Z);
  languages : list (str * Z);
  avg_confidence : Q;
  total_text_length : Z
}.

(** [d[k] = d.get(k, 0) + 1] *)
Definition dict_incr (d : list (str * Z)) (k : str) : list (str * Z) :=
  dict_set d k (dict_get d k 0 + 1).

(** The body of the loop of [get_document_stats]. *)
Definition stats_step (stats : DocumentStats)
  (element : DocumentProcessor.DocumentElement) : DocumentStats :=
  {| total_elements := total_elements stats;
     total_pages := total_pages stats;
     element_types :=
       dict_incr (element_types stats) (DocumentProcessor.element_type element);
     languages :=
       match DocumentProcessor.language element with
       | Some l => if truthy l then dict_incr (languages stats) l
                   else languages stats
       | None => languages stats
       end;
     avg_confidence :=
       (avg_confidence stats + DocumentProcessor.confidence element)%Q;
     total_text_length :=
       total_text_length stats + len (DocumentProcessor.text element) |}.

(** The dictionary before the loop. *)
Definition initial_stats (document : DocumentProcessor.ProcessedDocument)
  : DocumentStats :=
  {| total_elements := len (DocumentProcessor.elements document);
     total_pages := DocumentProcessor.total_pages document;
     element_types := [];
     languages := [];
     avg_confidence := 0;
     total_text_length := 0 |}.

Definition get_document_stats (document : DocumentProcessor.ProcessedDocument)
  : DocumentStats :=
  let stats :=
    fold_left stats_step (DocumentProcessor.elements document)
              (initial_stats document) in
  if truthy (DocumentProcessor.elements document) then
    {| total_elements := total_elements stats;
       total_pages := total_pages stats;
       element_types := element_types stats;
       languages := languages stats;
       avg_confidence :=
         (avg_confidence stats
          / inject_Z (len (DocumentProcessor.elements document)))%Q;
       total_text_length := total_text_length stats |}
  else stats.

End Stats.

(* ================================================================== *)
(** ** [AIModelManager.detect_language] and [DocumentAnalyzer] *)
(* ================================================================== *)

Module Analyzer.

Import AIModels.

(** [s.lower()] on ASCII, on the capital letters of Latin-1, on U+0178 and
    on the Cyrillic capitals; every other character is left as it is.  By
    the Unicode tables, the lower form of none of those other characters
    holds a character of the classes tested by [detect_language]. *)
Definition lower_char_u (c : char) : char :=
  if between 65 90 c then c + 32
  else if between 192 222 c && negb (c =? 215) then c + 32
  else if c =? 376 then 255
  else if between 1040 1071 c then c + 32
  else if between 1024 1039 c then c + 80
  else c.

Definition lower_u (s : str) : str := map lower_char_u s.

(** [re.search(r'[...]', s)] for a class of characters. *)
Definition re_search (class : char -> bool) (s : str) : bool := existsb class s.

(** The four classes of the source: the small Cyrillic letters U+0430 to
    U+044F with U+0451; the characters U+4E2D, U+6587, U+6C49, U+8BED; the
    seven accented letters of the Spanish class; the eighteen of the French
    class. *)
Definition class_ru (c : char) : bool := between 1072 1103 c || (c =? 1105).
Definition class_zh (c : char) : bool :=
  (c =? 20013) || (c =? 25991) || (c =? 27721) || (c =? 35821).
Definition class_es (c : char) : bool :=
  (c =? 241) || (c =? 225) || (c =? 233) || (c =? 237) || (c =? 243)
  || (c =? 250) || (c =? 252).
Definition class_fr (c : char) : bool :=
  (c =? 224) || (c =? 225) || (c =? 226) || (c =? 228) || (c =? 231)
  || (c =? 232) || (c =? 233) || (c =? 234) || (c =? 235) || (c =? 239)
  || (c =? 238) || (c =? 244) || (c =? 246) || (c =? 249) || (c =? 250)
  || (c =? 251) || (c =? 252) || (c =? 255).

(** [detect_language]; any exception is caught and answered by "en".  The
    labels of a detection model are taken to be in the range [lower_u]
    covers. *)
Definition detect_language (self : AIModelManager) (text : str) : str :=
  let body : result str :=
    if negb (truthy (strip text)) then ok (lit "unknown")
    else
      match lang_detector self with
      | None =>
          ok (if re_search class_ru (lower_u text) then lit "ru"
              else if re_search class_zh text then lit "zh"
              else if re_search class_es (lower_u text) then lit "es"
              else if re_search class_fr (lower_u text) then lit "fr"
              else lit "en")
      | Some detector =>
          let sample_text := slice text 0 500 in
          (result <- detector sample_text ;;
           match result with
           | r0 :: _ => ok (lower_u (label r0))
           | [] => ok (lit "unknown")
           end)%result
      end in
  match body with
  | inr l => l
  | inl _ => lit "en"
  end.

(** [generate_embeddings]: the exception of the model is logged and raised
    again; without a model the call on [None] raises. *)
Definition generate_embeddings (self : AIModelManager) (texts : list str)
  : result (list (list Q)) :=
  match embedding_model self with
  | Some encode => encode texts
  | None => raise (LibError (lit "'NoneType' object has no attribute 'encode'"))
  end.

(** [s.split()]: the words between runs of whitespace; [cur] is the word
    being read, reversed. *)
Fixpoint split_ws_from (s : str) (cur : str) : list str :=
  match s with
  | [] => if truthy cur then [rev cur] else []
  | c :: s' =>
      if isspace c then
        if truthy cur then rev cur :: split_ws_from s' [] else split_ws_from s' []
      else split_ws_from s' (c :: cur)
  end.

Definition split_ws (s : str) : list str := split_ws_from s [].

(** [str(n)] for an integer. *)
Definition str_of_Z (n : Z) : str := lit (NilZero.string_of_int (Z.to_int n)).

(** *** [analyze_document_structure] *)

Record Analysis : Type := {
  total_elements : Z;
  element_types : list (str * Z);
  languages_detected : list (str * Z);
  key_topics : list str;
  sentiment_analysis : list (str * value);
  readability_score : Q;
  structure_quality : str
}.

(** The state of the loop over the elements: the two counters and
    [all_text]. *)
Definition scan_state : Type := (list (str * Z) * list (str * Z) * list str)%type.

Definition scan_step (self : AIModelManager) (st : scan_state)
  (element : DocumentProcessor.DocumentElement) : scan_state :=
  let '(types, langs, all_text) := st in
  let types := Stats.dict_incr types (DocumentProcessor.element_type element) in
  if truthy (strip (DocumentProcessor.text element)) then
    let lang := detect_language self (DocumentProcessor.text element) in
    (types, Stats.dict_incr langs lang,
     all_text ++ [DocumentProcessor.text element])
  else (types, langs, all_text).

Definition Qmax (x y : Q) : Q := if Qgtb y x then y else x.
Definition Qmin (x y : Q) : Q := if Qltb y x then y else x.

(** The score computed from the mean number of words of the pieces
    between full stops. *)
Definition readability (combined_text : str) : Q :=
  let sentences := split1 46 combined_text in
  if truthy sentences then
    let avg_sentence_length :=
      true_div (fold_left Z.add (map (fun s => len (split_ws s)) sentences) 0)
               (len sentences) in
    Qmax 0 (Qmin 100 (100 - (avg_sentence_length - 10) * 2))%Q
  else 0%Q.

(** The analysis, or the dictionary [{'error': str(e)}]. *)
Definition analyze_document_structure (self : AIModelManager) (libs : Libs)
  (elements : list DocumentProcessor.DocumentElement)
  : M (Analysis + str) :=
  try_except
    (let '(types, langs, all_text) :=
       fold_left (scan_step self) elements ([], [], []) in
     if truthy all_text then
       let combined_text := join (lit " ") all_text in
       (topics <- extract_key_phrases libs combined_text 10 ;;
        sentiment <- analyze_sentiment self combined_text ;;
        ret (inl {| total_elements := len elements;
                    element_types := types;
                    languages_detected := langs;
                    key_topics := topics;
                    sentiment_analysis := sentiment;
                    readability_score := readability combined_text;
                    structure_quality := lit "good" |}))%eff
     else
       ret (inl {| total_elements := len elements;
                   element_types := types;
                   languages_detected := langs;
                   key_topics := [];
                   sentiment_analysis := [];
                   readability_score := 0;
                   structure_quality := lit "good" |}))
    (fun e => ret (inr (exn_str e))).

(** *** [generate_document_summary] *)

(** [page_info[k].append(t)], with the key created when it is missing. *)
Fixpoint page_append (d : list (Z * list str)) (k : Z) (t : str)
  : list (Z * list str) :=
  match d with
  | [] => [(k, [t])]
  | (k', ts) :: d' =>
      if k' =? k then (k', ts ++ [t]) :: d' else (k', ts) :: page_append d' k t
  end.

(** [page_info[k]] *)
Fixpoint page_get (d : list (Z * list str)) (k : Z) : list str :=
  match d with
  | [] => []
  | (k', ts) :: d' => if k' =? k then ts else page_get d' k
  end.

Fixpoint insert_key (k : Z) (l : list Z) : list Z :=
  match l with
  | [] => [k]
  | x :: l' => if k <=? x then k :: l else x :: insert_key k l'
  end.

(** [sorted(keys)] *)
Definition sorted (keys : list Z) : list Z := fold_right insert_key [] keys.

Definition collect_step (st : list str * list (Z * list str))
  (element : DocumentProcessor.DocumentElement) : list str * list (Z * list str) :=
  let (all_text, page_info) := st in
  if truthy (strip (DocumentProcessor.text element)) then
    (all_text ++ [DocumentProcessor.text element],
     page_append page_info (DocumentProcessor.page_number element)
                 (DocumentProcessor.text element))
  else st.

(** [length_configs.get(summary_length, length_configs['medium'])], as
    [(max_length, min_length)]. *)
Definition length_config (summary_length : str) : Z * Z :=
  if str_eqb summary_length (lit "short") then (100, 30)
  else if str_eqb summary_length (lit "medium") then (200, 50)
  else if str_eqb summary_length (lit "long") then (400, 100)
  else (200, 50).

Definition page_line (page_info : list (Z * list str)) (page_num : Z) : str :=
  let content_preview :=
    slice (join (lit " ") (page_get page_info page_num)) 0 100 ++ lit "..." in
  lit "Page " ++ str_of_Z page_num ++ lit ": " ++ content_preview ++ newline.

Definition generate_document_summary (self : AIModelManager)
  (elements : list DocumentProcessor.DocumentElement) (summary_length : str)
  : M str :=
  try_except
    (let (all_text, page_info) := fold_left collect_step elements ([], []) in
     if negb (truthy all_text) then
       ret (lit "No text content found in document.")
     else
       let combined_text := join (lit " ") all_text in
       let (max_length, min_length) := length_config summary_length in
       (summary_response <-
          summarize_text self combined_text max_length min_length (lit "en") ;;
        let summary_with_pages :=
          content summary_response ++ newline ++ newline
          ++ lit "Document contains " ++ str_of_Z (len page_info)
          ++ lit " page(s) with content distributed across:" ++ newline in
        ret (summary_with_pages
             ++ List.concat (map (page_line page_info)
                                 (sorted (map fst page_info)))))%eff)
    (fun e => ret (lit "Error generating summary: " ++ exn_str e)).

End Analyzer.

(* ================================================================== *)
(** ** Concrete file systems, used to run the code *)
(* ================================================================== *)

Module Fixtures.

Import DocumentProcessor.

(** What a file holds, as the libraries read it. *)
Inductive File : Type :=
| PdfFile (pages : list PdfPage)
| DocxFile (doc : Docx)
| PptxFile (slides : list Slide)
| ImageFile (regions : list OcrResult)
| PlainFile.

Fixpoint lookup (fs : list (str * File)) (p : str) : option File :=
  match fs with
  | [] => None
  | (q, f) :: fs' => if str_eqb q p then Some f else lookup fs' p
  end.

Definition ascii_isupper (s : str) : bool :=
  existsb (between 65 90) s && negb (existsb (between 97 122) s).

(** The environment in which exactly the files of [fs] exist. *)
Definition env_of (fs : list (str * File)) : Env :=
  {| path_exists := fun p => match lookup fs p with Some _ => true | None => false end;
     st_size := fun _ => 0;
     PdfReader := fun p => match lookup fs p with
                           | Some (PdfFile pages) => inr pages
                           | _ => inl (lit "not a PDF file")
                           end;
     DocxDocument := fun p => match lookup fs p with
                              | Some (DocxFile d) => inr d
                              | _ => inl (lit "not a DOCX file")
                              end;
     Presentation := fun p => match lookup fs p with
                              | Some (PptxFile sl) => inr sl
                              | _ => inl (lit "not a PPTX file")
                              end;
     imread := fun p => match lookup fs p with
                        | Some (ImageFile _) => true
                        | _ => false
                        end;
     readtext := fun p => match lookup fs p with
                          | Some (ImageFile r) => inr r
                          | _ => inl (lit "not an image")
                          end;
     layout_model := None;
     isupper := ascii_isupper |}.

(** A text file. *)
Definition fs_notes : list (str * File) := [(lit "notes.txt", PlainFile)].

(** A PDF of two pages: the first cannot be decoded, the second reads
    "hello". *)
Definition fs_broken_page : list (str * File) :=
  [(lit "report.pdf",
    PdfFile [ {| extract_text := inl (lit "cannot decode page") |};
              {| extract_text := inr (lit "hello") |} ])].

(** A PDF of one page that reads "hello". *)
Definition fs_hello_pdf : list (str * File) :=
  [(lit "hello.pdf", PdfFile [ {| extract_text := inr (lit "hello") |} ])].

(** A DOCX without paragraphs and with one table of one empty cell. *)
Definition fs_empty_cell : list (str * File) :=
  [(lit "memo.docx",
    DocxFile {| paragraphs := []; tables := [ {| rows := [[ [] ]] |} ] |})].

(** A DOCX with one heading, one paragraph and a table of two rows and two
    columns. *)
Definition fs_table : list (str * File) :=
  [(lit "Table.DOCX",
    DocxFile {| paragraphs := [ {| para_text := inr (lit "Title");
                                   style_name := lit "Heading 1" |};
                                {| para_text := inr (lit "   ");
                                   style_name := lit "Normal" |};
                                {| para_text := inr (lit "Body");
                                   style_name := lit "Normal" |} ];
                tables := [ {| rows := [[lit "A"; lit "B"]; [lit "C"; lit "D"]] |} ] |})].

(** An image with three regions, read with confidence 0.9, 0.6 and 0.4. *)
Definition region (t : string) (c : Q) : OcrResult :=
  {| first_corner := (0, 0)%Q;
     other_corners := [(10, 0); (10, 5); (0, 5)]%Q;
     ocr_text := lit t;
     ocr_confidence := c |}.

Definition fs_scan : list (str * File) :=
  [(lit "scan.png",
    ImageFile [region "Hi" (9 # 10); region "yo" (6 # 10); region "zz" (4 # 10)])].

(** The document [process_document] returns for a file, or an empty
    document when it raises. *)
Definition document_of (fs : list (str * File)) (file_path : string)
  : ProcessedDocument :=
  match process_document (env_of fs) (lit file_path) with
  | inr doc => doc
  | inl _ => {| filename := []; total_pages := 0; elements := [];
                summary := None; metadata := [] |}
  end.

(** [round(x, n)] is not computed by the fixtures. *)
Definition no_rounding : Stats.Rounding :=
  {| Stats.round1 := fun x => x; Stats.round2 := fun x => x |}.

(** Inference primitives that compute, to run the orchestrator. *)

(** Loaders of which only the summarizer fails. *)
Definition loaders_without_summarizer : AIModels.Loaders :=
  {| AIModels.load_embedding := inr (fun texts => ok (map (fun _ => []) texts));
     AIModels.load_summarizer := inl (LibError (lit "out of memory"));
     AIModels.load_qa :=
       inr (fun _ context =>
              ok {| AIModels.answer := firstn 1 context; AIModels.score := 1 |});
     AIModels.load_classifier := inl (LibError (lit "out of memory")) |}.


Import AIModels.

(** A summarizer that keeps the first three characters. *)
Definition head_summarizer : Summarizer :=
  fun text _ _ => ok [firstn 3 text].

(** A question-answering model that answers with the first character of
    the context and scores the share of the letter [b] in the window size. *)
Definition b_counter : QAModel :=
  fun _ context =>
    ok {| answer := firstn 1 context;
          score := count_if (Z.eqb 98) context # 2000 |}.

(** A sentiment classifier that looks at the first character. *)
Definition first_char_classifier : Classifier :=
  fun text => ok [ {| label := firstn 1 text; label_score := 1 # 2 |} ].

Definition manager : AIModelManager :=
  {| embedding_model := Some (fun texts => ok (map (fun _ => []) texts));
     summarizer := Some head_summarizer;
     qa_model := Some b_counter;
     classifier := Some first_char_classifier;
     lang_detector := None;
     models_loaded := [(lit "embedding", true); (lit "summarizer", true);
                       (lit "qa", true); (lit "classifier", true);
                       (lit "lang_detector", false)] |}.

(** A manager without summarizer and without question answering. *)
Definition bare_manager : AIModelManager :=
  {| embedding_model := Some (fun texts => ok (map (fun _ => []) texts));
     summarizer := None;
     qa_model := None;
     classifier := None;
     lang_detector := None;
     models_loaded := [(lit "embedding", true); (lit "summarizer", false);
                       (lit "qa", false); (lit "classifier", false);
                       (lit "lang_detector", false)] |}.

(** 1001 times the letter [a]. *)
Definition long_text : str := repeat 97 1001.

(** 2000 times [a], then 500 times [b]. *)
Definition long_context : str := repeat 97 2000 ++ repeat 98 500.

(** Three features with the rows of two sentences, and an [argsort]
    (insertion of the indices by ascending score). *)
Fixpoint insert_index (scores : list Q) (i : nat) (sorted : list nat) : list nat :=
  match sorted with
  | [] => [i]
  | j :: rest =>
      if Qle_bool (nth i scores 0%Q) (nth j scores 0%Q) then i :: sorted
      else j :: insert_index scores i rest
  end.

Definition insertion_argsort (scores : list Q) : list nat :=
  fold_right (insert_index scores) [] (seq 0 (List.length scores)).

Definition small_libs : Libs :=
  {| import_sklearn := ok tt;
     fit_transform := fun _ =>
       inr ([lit "cat"; lit "dog"; lit "the"],
            [[1 # 2; 0; 0]; [1 # 2; 1 # 4; 0]]%Q);
     argsort := insertion_argsort |}.

End Fixtures.

(* ================================================================== *)
(** ** Notions used to state the properties *)
(* ================================================================== *)

Module Notions.

Import AIModels.

(** A result that, when it is an exception, is one a library raised. *)
Definition only_lib {A : Type} (r : result A) : Prop :=
  match r with
  | inl (LibError _) => True
  | inl _ => False
  | inr _ => True
  end.

(** A string that does not start with whitespace. *)
Definition starts_clean (s : str) : Prop :=
  match s with
  | [] => True
  | c :: _ => isspace c = false
  end.

(** The response of [summarize_text] when inference succeeded. *)
Definition summary_response (language text summary : str) : ModelResponse :=
  {| content := summary;
     confidence := 8 # 10;
     metadata := [(lit "language", VStr language);
                  (lit "original_length", VInt (len text))] |}.

(** The calls [summarize_text] makes for the chunks of a long text: one per
    chunk, each with the target lengths divided by the number of chunks. *)
Definition chunk_calls (text : str) (max_length min_length : Z) : list call :=
  let chunks := chunks_of text 1000 1000 in
  map (fun chunk => CallSummarizer chunk (max_length / len chunks)
                                   (min_length / len chunks))
      chunks.

(** The response of [answer_question] when inference took place. *)
Definition answer_response (question language content : str) (confidence : Q)
  : ModelResponse :=
  {| content := content;
     confidence := confidence;
     metadata := [(lit "question", VStr question);
                  (lit "language", VStr language)] |}.

(** The update of [(best_answer, best_score)] by one result. *)
Definition keep_best (best : option QAResult * Q) (r : QAResult)
  : option QAResult * Q :=
  if Qgtb (score r) (snd best) then (Some r, score r) else best.

(** The characters the language classifier counts. *)
Definition counted (c : char) : bool :=
  DocumentProcessor.is_latin c || DocumentProcessor.is_arabic c
  || DocumentProcessor.is_hindi c || DocumentProcessor.is_chinese c.

(** The codes the language classifier answers. *)
Definition language_codes : list str :=
  [lit "unknown"; lit "ar"; lit "hi"; lit "zh"; lit "en"].

(** The sum of the counters of a dictionary. *)
Definition dict_total (d : list (str * Z)) : Z :=
  fold_right (fun kv acc => snd kv + acc) 0 d.

(** The number of members of a list that pass a test. *)
Definition count_where {A : Type} (p : A -> bool) (l : list A) : Z :=
  len (filter p l).

(** The elements of a kind, and the elements tagged with a language. *)
Definition has_kind (k : str) (e : DocumentProcessor.DocumentElement) : bool :=
  str_eqb (DocumentProcessor.element_type e) k.
Definition has_language (k : str) (e : DocumentProcessor.DocumentElement) : bool :=
  match DocumentProcessor.language e with
  | Some l => str_eqb l k
  | None => false
  end.

(** Characters of a text as written (before lowering): the Cyrillic
    letters of the Russian alphabet, capital or small; the accented letters
    of the Spanish class, capital or small; those of the French class. *)
Definition is_cyrillic (c : char) : bool :=
  between 1040 1103 c || (c =? 1025) || (c =? 1105).
Definition is_spanish_accent (c : char) : bool :=
  existsb (Z.eqb c) [193; 201; 205; 209; 211; 218; 220;
                     225; 233; 237; 241; 243; 250; 252].
Definition is_french_accent (c : char) : bool :=
  existsb (Z.eqb c) [192; 193; 194; 196; 199; 200; 201; 202; 203; 206; 207;
                     212; 214; 217; 218; 219; 220;
                     224; 225; 226; 228; 231; 232; 233; 234; 235; 238; 239;
                     244; 246; 249; 250; 251; 252; 255; 376].

(** The flag of a model in [models_loaded]. *)
Definition loaded_flag (self : AIModelManager) (key : string) : bool :=
  dict_get (models_loaded self) (lit key) false.

Definition present {A : Type} (m : option A) : bool :=
  match m with Some _ => true | None => false end.

(** The dictionary [analyze_sentiment] returns when inference failed. *)
Definition sentiment_error (msg : str) : list (str * value) :=
  [(lit "sentiment", VStr (lit "neutral"));
   (lit "confidence", VFloat 0);
   (lit "analysis", VStr (lit "error"));
   (lit "error", VStr msg)].

(** A sentence as the vectorizer gets it: not blank, without blanks at its
    ends, without terminal punctuation. *)
Definition plain (s : str) : Prop :=
  truthy s = true /\ strip s = s
  /\ forallb (fun c => negb (is_terminal c)) s = true.

(** An element whose text is not blank, and the texts of such elements:
    all of them, and those of one page. *)
Definition nonblank (e : DocumentProcessor.DocumentElement) : bool :=
  truthy (strip (DocumentProcessor.text e)).

Definition texts_of (elements : list DocumentProcessor.DocumentElement) : list str :=
  map DocumentProcessor.text (filter nonblank elements).

Definition page_texts (elements : list DocumentProcessor.DocumentElement) (p : Z)
  : list str :=
  map DocumentProcessor.text
      (filter (fun e => nonblank e && (DocumentProcessor.page_number e =? p))
              elements).

(** The line of the document summary for a page: the first 100 characters
    of the texts of the page, joined by blanks. *)
Definition page_preview (elements : list DocumentProcessor.DocumentElement) (p : Z)
  : str :=
  lit "Page " ++ Analyzer.str_of_Z p ++ lit ": "
  ++ firstn 100 (join (lit " ") (page_texts elements p)) ++ lit "..." ++ newline.

(** The mean score of the feature with index [i]. *)
Definition score_at (scores : list Q) (i : nat) : Q := nth i scores 0%Q.

(** The order of two features by ascending, and by descending, score. *)
Definition ascending (scores : list Q) (i j : nat) : Prop :=
  (score_at scores i <= score_at scores j)%Q.
Definition descending (scores : list Q) (i j : nat) : Prop :=
  (score_at scores j <= score_at scores i)%Q.

End Notions.

Import Notions.

(* ================================================================== *)
(** ** Properties of [DocumentProcessor] *)
(* ================================================================== *)

Module ProcessorProofs.

Import DocumentProcessor.

(** Splits every integer comparison of the goal in two cases and closes the
    arithmetic ones. *)
Ltac split_ranges :=
  repeat match goal with
         | |- context [(?a <=? ?b)] => destruct (Z.leb_spec a b); try lia
         | |- context [(?a =? ?b)] => destruct (Z.eqb_spec a b); try lia
         end;
  simpl; try reflexivity; try discriminate; try lia.

Lemma count_if_ext (p q : char -> bool) (text : str) :
  (forall c, p c = q c) -> count_if p text = count_if q text.
Proof.
  intros Hpq. induction text as [|c text IH]; simpl.
  - reflexivity.
  - now rewrite Hpq, IH.
Qed.

Lemma count_if_nonneg (p : char -> bool) (text : str) : 0 <= count_if p text.
Proof.
  induction text as [|c text IH]; simpl; [lia|].
  destruct (p c); lia.
Qed.

Lemma count_if_none (p : char -> bool) (text : str) :
  forallb (fun c => negb (p c)) text = true -> count_if p text = 0.
Proof.
  induction text as [|c text IH]; simpl; [reflexivity|].
  intros H. apply andb_prop in H as [Hc Ht].
  destruct (p c); [discriminate|]. now rewrite IH.
Qed.

Lemma is_latin_letters (c : char) :
  is_latin c = between 65 90 c || between 97 122 c.
Proof. unfold is_latin, isascii, isalpha, between. split_ranges. Qed.

Lemma isspace_uncounted (c : char) :
  isspace c = true ->
  is_latin c = false /\ is_arabic c = false /\ is_hindi c = false
  /\ is_chinese c = false.
Proof.
  unfold isspace, is_latin, is_arabic, is_hindi, is_chinese, isascii, isalpha,
    between.
  intros H. repeat split; revert H; split_ranges.
Qed.

Lemma whitespace_counts (p : char -> bool) (text : str) :
  (forall c, isspace c = true -> p c = false) ->
  forallb isspace text = true -> count_if p text = 0.
Proof.
  intros Hp Hs. apply count_if_none.
  rewrite forallb_forall in *. intros c Hc.
  rewrite (Hp c (Hs c Hc)). reflexivity.
Qed.

(** The share of a count in a positive total exceeds 0.3 exactly when ten
    times the count exceeds three times the total. *)
Lemma share_gt_03 (n total : Z) :
  0 < total -> Qgtb (share n total) (3 # 10) = (3 * total <? 10 * n).
Proof.
  intros Ht. unfold Qgtb, share.
  destruct (Z.ltb_spec (3 * total) (10 * n)) as [Hlt|Hge].
  - apply negb_true_iff. destruct (Qle_bool _ _) eqn:E; [|reflexivity].
    exfalso. apply Qle_bool_iff in E.
    apply (Qmult_le_compat_r _ _ (inject_Z total)) in E;
      [|unfold Qle; simpl; lia].
    unfold Qdiv in E. rewrite <- Qmult_assoc in E.
    rewrite (Qmult_comm (/ inject_Z total)) in E.
    rewrite Qmult_inv_r in E by (unfold Qeq; simpl; lia).
    unfold Qle in E. cbn -[Z.mul] in E. lia.
  - apply negb_false_iff. apply Qle_bool_iff.
    apply Qle_shift_div_r; [unfold Qlt; simpl; lia|].
    unfold Qle. cbn -[Z.mul]. lia.
Qed.

(** *** The code on small inputs *)

Example detect_english : _detect_language (lit "Hello, world") = lit "en".
Proof. reflexivity. Qed.

Example detect_hindi : _detect_language [2351; 2361; 32; 2319; 2325] = lit "hi".
Proof. reflexivity. Qed.

Example detect_digits : _detect_language (lit "12345") = lit "unknown".
Proof. reflexivity. Qed.

(** Three Arabic letters among ten counted: the share is 0.3, not above. *)
Example detect_share_at_threshold :
  _detect_language (lit "abcdefg" ++ [1575; 1576; 1578]) = lit "en".
Proof. reflexivity. Qed.

(** Three Arabic letters among nine counted: Arabic wins over the Latin
    majority. *)
Example detect_share_above_threshold :
  _detect_language (lit "abcdef" ++ [1575; 1576; 1578]) = lit "ar".
Proof. reflexivity. Qed.

(** Arabic is tried before Devanagari. *)
Example detect_priority :
  _detect_language [1575; 1576; 2351; 2361; 2319] = lit "ar".
Proof. reflexivity. Qed.

Example suffix_upper : path_suffix (lit "dir/Report.PDF") = lit ".PDF".
Proof. reflexivity. Qed.

Example suffix_last_only : path_suffix (lit "a/b.tar.gz") = lit ".gz".
Proof. reflexivity. Qed.

Example suffix_hidden_file : path_suffix (lit ".bashrc") = [].
Proof. reflexivity. Qed.

Example suffix_trailing_dot : path_suffix (lit "file.") = [].
Proof. reflexivity. Qed.

Example path_str_normal : path_str (lit "a//b/./c.pdf") = lit "a/b/c.pdf".
Proof. reflexivity. Qed.

Example strip_both_sides : strip (lit "  a b  ") = lit "a b".
Proof. reflexivity. Qed.

Example split_blank_lines :
  split2 10 10 (lit "ab" ++ [10; 10; 10] ++ lit "cd") = [lit "ab"; 10 :: lit "cd"].
Proof. reflexivity. Qed.

(** The table of a DOCX becomes one element, after the paragraphs; the
    blank paragraph gives none; the suffix is matched in lower case. *)
Example docx_with_table :
  option_map (fun d => map (fun e => (element_type e, text e)) (elements d))
    (match process_document (Fixtures.env_of Fixtures.fs_table) (lit "Table.DOCX") with
     | inr d => Some d
     | inl _ => None
     end)
  = Some [(lit "heading", lit "Title");
          (lit "paragraph", lit "Body");
          (lit "table", lit "A | B" ++ newline ++ lit "C | D")].
Proof. vm_compute. reflexivity. Qed.

(** Of three regions the one read with confidence 0.4 is dropped, the one
    with 0.6 counts as handwriting. *)
Example image_regions :
  option_map (fun d => map (fun e => (element_type e, text e, confidence e, bbox e))
                           (elements d))
    (match process_document (Fixtures.env_of Fixtures.fs_scan) (lit "scan.png") with
     | inr d => Some d
     | inl _ => None
     end)
  = Some [(lit "text", lit "Hi", 9 # 10, (0, 0, 10, 5)%Q);
          (lit "handwriting", lit "yo", 6 # 10, (0, 0, 10, 5)%Q)].
Proof. vm_compute. reflexivity. Qed.

(** The classifier with the shares compared in integers. *)
Lemma detect_language_counts (text : str) :
  let arabic := count_if is_arabic text in
  let hindi := count_if is_hindi text in
  let chinese := count_if is_chinese text in
  let total := count_if is_latin text + arabic + hindi + chinese in
  _detect_language text =
    if total =? 0 then lit "unknown"
    else if 3 * total <? 10 * arabic then lit "ar"
    else if 3 * total <? 10 * hindi then lit "hi"
    else if 3 * total <? 10 * chinese then lit "zh"
    else lit "en".
Proof.
  intros arabic hindi chinese total.
  destruct text as [|c text]; [reflexivity|].
  unfold _detect_language. cbn [truthy negb].
  fold arabic hindi chinese. fold total.
  destruct (Z.eqb_spec total 0) as [|Hne]; [reflexivity|].
  assert (Hpos : 0 < total).
  { pose proof (count_if_nonneg is_latin (c :: text)).
    pose proof (count_if_nonneg is_arabic (c :: text)).
    pose proof (count_if_nonneg is_hindi (c :: text)).
    pose proof (count_if_nonneg is_chinese (c :: text)).
    unfold total, arabic, hindi, chinese in *. lia. }
  unfold true_div. fold (share arabic total) (share hindi total)
    (share chinese total).
  now rewrite !share_gt_03 by assumption.
Qed.



(** *** Loops that may raise *)

Section ForAppend.

Context {A B : Type} (body : A -> result (list B)).

Lemma for_append_fails (l : list A) (a : A) (e : exn) :
  In a l -> body a = inl e ->
  exists a' e', In a' l /\ body a' = inl e' /\ for_append body l = inl e'.
Proof.
  induction l as [|x l IH]; intros Hin Ha; [contradiction|].
  simpl. destruct (body x) as [ex|bs] eqn:Hx.
  - exists x, ex. simpl. auto.
  - destruct Hin as [->|Hin]; [congruence|].
    destruct (IH Hin Ha) as (a' & e' & Hin' & Ha' & Hf).
    exists a', e'. simpl. rewrite Hf. auto.
Qed.

Lemma for_append_succeeds (l : list A) :
  (forall a, In a l -> exists bs, body a = inr bs) ->
  exists els, for_append body l = inr els.
Proof.
  induction l as [|x l IH]; intros H; simpl.
  - now exists [].
  - destruct (H x (or_introl eq_refl)) as [bs ->].
    destruct IH as [els ->]; [intros a Ha; apply H; now right|].
    simpl. now eexists.
Qed.

Lemma for_append_Forall (P : B -> Prop) (l : list A) (els : list B) :
  (forall a bs, In a l -> body a = inr bs -> Forall P bs) ->
  for_append body l = inr els -> Forall P els.
Proof.
  revert els. induction l as [|x l IH]; intros els Hb; simpl.
  - intros [= <-]. constructor.
  - destruct (body x) as [ex|bs] eqn:Hx; simpl; [discriminate|].
    destruct (for_append body l) as [e|rest]; simpl; [discriminate|].
    intros [= <-]. apply Forall_app. split.
    + apply (Hb x); [now left | exact Hx].
    + apply IH; [|reflexivity]. intros a bs' Ha. apply Hb. now right.
Qed.

Lemma for_append_error (l : list A) (e : exn) :
  for_append body l = inl e -> exists a, In a l /\ body a = inl e.
Proof.
  induction l as [|x l IH]; simpl; [discriminate|].
  destruct (body x) as [ex|bs] eqn:Hx; simpl.
  - intros [= <-]. exists x. auto.
  - destruct (for_append body l) as [e'|rest]; simpl; [|discriminate].
    intros [= <-]. destruct (IH eq_refl) as (a & Ha & Hb). exists a. auto.
Qed.

(** The exception that leaves the loop is the one of the first member on
    which the body raises. *)
Lemma for_append_first (l : list A) (a : A) (e : exn) :
  In a l -> body a = inl e ->
  exists before a' after e',
    l = before ++ a' :: after
    /\ (forall x, In x before -> exists bs, body x = inr bs)
    /\ body a' = inl e'
    /\ for_append body l = inl e'.
Proof.
  induction l as [|x l IH]; intros Hin Ha; [contradiction|].
  destruct (body x) as [ex|bs] eqn:Hx.
  - exists [], x, l, ex. simpl. rewrite Hx. repeat split; auto.
    intros y [].
  - destruct Hin as [->|Hin]; [congruence|].
    destruct (IH Hin Ha) as (before & a' & after & e' & -> & Hbefore & Ha' & Hf).
    exists (x :: before), a', after, e'. simpl. rewrite Hx, Hf.
    repeat split; auto.
    intros y [<-|Hy]; [now exists bs | now apply Hbefore].
Qed.

Lemma for_append_all_ok (l : list A) (els : list B) :
  for_append body l = inr els -> forall a, In a l -> exists bs, body a = inr bs.
Proof.
  revert els. induction l as [|x l IH]; intros els H a Hin; [contradiction|].
  simpl in H. destruct (body x) as [ex|bs] eqn:Hx; simpl in H; [discriminate|].
  destruct (for_append body l) as [e'|rest]; simpl in H; [discriminate|].
  destruct Hin as [<-|Hin]; [now exists bs | now apply (IH rest)].
Qed.

End ForAppend.

Lemma in_enumerate {A : Type} (l : list A) (a : A) (k : Z) :
  In a l -> exists n, In (n, a) (enumerate k l).
Proof.
  revert k. induction l as [|x l IH]; intros k Hin; [contradiction|].
  destruct Hin as [->|Hin].
  - exists k. now left.
  - destruct (IH (k + 1) Hin) as [n Hn]. exists n. now right.
Qed.

Lemma enumerate_in {A : Type} (l : list A) (a : A) (k n : Z) :
  In (n, a) (enumerate k l) -> In a l.
Proof.
  revert k. induction l as [|x l IH]; intros k Hin; [contradiction|].
  destruct Hin as [[= _ ->]|Hin]; [now left | right; eauto].
Qed.

Lemma map_snd_enumerate {A : Type} (l : list A) (k : Z) :
  map snd (enumerate k l) = l.
Proof.
  revert k. induction l as [|x l IH]; intros k; simpl; [reflexivity|].
  now rewrite IH.
Qed.

(** A split of an enumerated list is a split of the list. *)
Lemma enumerate_split {A : Type} (l : list A) (k n : Z) (a : A)
  (before after : list (Z * A)) :
  enumerate k l = before ++ (n, a) :: after ->
  l = map snd before ++ a :: map snd after
  /\ (forall x, In x (map snd before) -> exists m, In (m, x) before).
Proof.
  intros H. split.
  - rewrite <- (map_snd_enumerate l k), H, map_app. reflexivity.
  - intros x Hx. apply in_map_iff in Hx as ([m y] & <- & Hin). now exists m.
Qed.

Lemma str_eqb_eq (a b : str) : str_eqb a b = true -> a = b.
Proof.
  revert b. induction a as [|x a IH]; intros [|y b]; simpl; try discriminate.
  - reflexivity.
  - intros H. apply andb_prop in H as [Hx Hab].
    apply Z.eqb_eq in Hx. subst. f_equal. now apply IH.
Qed.

Lemma str_eqb_refl (a : str) : str_eqb a a = true.
Proof. induction a as [|x a IH]; simpl; [reflexivity|]. now rewrite Z.eqb_refl. Qed.

(** *** The dispatch on the suffix *)

Section Dispatch.

Variables (env : Env) (file_path : str).
Hypothesis Hexists : path_exists env (path_str file_path) = true.

Lemma dispatch_pdf :
  lower (path_suffix file_path) = lit ".pdf" ->
  process_document env file_path = _process_pdf env file_path.
Proof. intros H. unfold process_document. rewrite Hexists, H. reflexivity. Qed.

Lemma dispatch_docx :
  lower (path_suffix file_path) = lit ".docx" ->
  process_document env file_path = _process_docx env file_path.
Proof. intros H. unfold process_document. rewrite Hexists, H. reflexivity. Qed.

Lemma dispatch_pptx :
  lower (path_suffix file_path) = lit ".pptx" ->
  process_document env file_path = _process_pptx env file_path.
Proof. intros H. unfold process_document. rewrite Hexists, H. reflexivity. Qed.

(** Any other suffix that passes the check is handled as an image. *)
Lemma dispatch_other (doc : ProcessedDocument) :
  process_document env file_path = inr doc ->
  lower (path_suffix file_path) <> lit ".pdf" ->
  lower (path_suffix file_path) <> lit ".docx" ->
  lower (path_suffix file_path) <> lit ".pptx" ->
  _process_image env file_path = inr doc.
Proof.
  unfold process_document. rewrite Hexists. cbn [negb].
  destruct (str_in _ supported_formats); cbn [negb]; [|discriminate].
  intros H Hpdf Hdocx Hpptx.
  destruct (str_eqb _ (lit ".pdf")) eqn:E1; [apply str_eqb_eq in E1; contradiction|].
  destruct (str_eqb _ (lit ".docx")) eqn:E2; [apply str_eqb_eq in E2; contradiction|].
  destruct (str_eqb _ (lit ".pptx")) eqn:E3; [apply str_eqb_eq in E3; contradiction|].
  exact H.
Qed.

End Dispatch.

Lemma returned_exists (env : Env) (file_path : str) (doc : ProcessedDocument) :
  process_document env file_path = inr doc ->
  path_exists env (path_str file_path) = true.
Proof.
  unfold process_document.
  destruct (path_exists env (path_str file_path)); [reflexivity | discriminate].
Qed.

(** *** Which exceptions leave [process_document] *)

Lemma only_lib_call {A : Type} (r : lib A) : only_lib (call_lib r).
Proof. destruct r; exact I. Qed.

Lemma only_lib_bind {A B : Type} (m : result A) (k : A -> result B) :
  only_lib m -> (forall a, only_lib (k a)) -> only_lib (rbind m k).
Proof.
  intros Hm Hk. destruct m as [e|a]; simpl; [exact Hm | apply Hk].
Qed.

Lemma only_lib_for_append {A B : Type} (body : A -> result (list B)) (l : list A) :
  (forall a, only_lib (body a)) -> only_lib (for_append body l).
Proof.
  intros Hb. induction l as [|a l IH]; simpl; [exact I|].
  apply only_lib_bind; [apply Hb|]. intros bs.
  apply only_lib_bind; [exact IH|]. intros rest. exact I.
Qed.

Lemma only_lib_pdf_page (np : Z * PdfPage) : only_lib (pdf_page np).
Proof.
  destruct np as [n page]. unfold pdf_page.
  apply only_lib_bind; [apply only_lib_call|].
  intros t. destruct (truthy (strip t)); exact I.
Qed.

Lemma only_lib_pdf (env : Env) (p : str) : only_lib (_process_pdf env p).
Proof.
  unfold _process_pdf. apply only_lib_bind; [apply only_lib_call|]. intros pages.
  apply only_lib_bind; [|intros; exact I].
  apply only_lib_for_append, only_lib_pdf_page.
Qed.

Lemma only_lib_docx_paragraph (ip : Z * DocxParagraph) : only_lib (docx_paragraph ip).
Proof.
  destruct ip as [i para]. unfold docx_paragraph.
  apply only_lib_bind; [apply only_lib_call|].
  intros t. destruct (truthy (strip t)); exact I.
Qed.

Lemma only_lib_docx (env : Env) (p : str) : only_lib (_process_docx env p).
Proof.
  unfold _process_docx. apply only_lib_bind; [apply only_lib_call|]. intros doc.
  apply only_lib_bind; [|intros; exact I].
  apply only_lib_for_append, only_lib_docx_paragraph.
Qed.

Lemma only_lib_pptx_shape (env : Env) (n : Z) (sh : Shape) :
  only_lib (pptx_shape env n sh).
Proof.
  unfold pptx_shape. apply only_lib_bind; [apply only_lib_call|].
  intros [t|]; [|exact I]. destruct (truthy (strip t)); exact I.
Qed.

Lemma only_lib_pptx (env : Env) (p : str) : only_lib (_process_pptx env p).
Proof.
  unfold _process_pptx. apply only_lib_bind; [apply only_lib_call|]. intros slides.
  apply only_lib_bind; [|intros; exact I].
  apply only_lib_for_append. intros [n slide]. unfold pptx_slide.
  apply only_lib_for_append, only_lib_pptx_shape.
Qed.

Lemma image_failures (env : Env) (p : str) :
  _process_image env p
    = inl (ValueError (lit "Could not load image: " ++ path_str p))
  \/ only_lib (_process_image env p).
Proof.
  unfold _process_image. destruct (imread env (path_str p)); simpl.
  - right. apply only_lib_bind; [apply only_lib_call|]. intros r. exact I.
  - left. reflexivity.
Qed.

(** Past the two checks, what is raised is a library's exception or the
    image loader's [ValueError]. *)
Lemma extractor_failures (env : Env) (p : str) :
  path_exists env (path_str p) = true ->
  str_in (lower (path_suffix p)) supported_formats = true ->
  process_document env p
    = inl (ValueError (lit "Could not load image: " ++ path_str p))
  \/ only_lib (process_document env p).
Proof.
  intros Hex Hin. unfold process_document. rewrite Hex, Hin. cbn [negb].
  destruct (str_eqb _ (lit ".pdf")); [right; apply only_lib_pdf|].
  destruct (str_eqb _ (lit ".docx")); [right; apply only_lib_docx|].
  destruct (str_eqb _ (lit ".pptx")); [right; apply only_lib_pptx|].
  apply image_failures.
Qed.




(** *** A unit that cannot be decoded *)

Lemma pdf_page_error (n : Z) (page : PdfPage) (e : exn) :
  pdf_page (n, page) = inl e ->
  exists msg, e = LibError msg /\ extract_text page = inl msg.
Proof.
  unfold pdf_page. destruct (extract_text page) as [msg|t]; simpl.
  - intros [= <-]. now exists msg.
  - destruct (truthy (strip t)); discriminate.
Qed.

Lemma docx_paragraph_error (n : Z) (para : DocxParagraph) (e : exn) :
  docx_paragraph (n, para) = inl e ->
  exists msg, e = LibError msg /\ para_text para = inl msg.
Proof.
  unfold docx_paragraph. destruct (para_text para) as [msg|t]; simpl.
  - intros [= <-]. now exists msg.
  - destruct (truthy (strip t)); discriminate.
Qed.

Lemma pptx_shape_error (env : Env) (n : Z) (sh : Shape) (e : exn) :
  pptx_shape env n sh = inl e ->
  exists msg, e = LibError msg /\ shape_text sh = inl msg.
Proof.
  unfold pptx_shape. destruct (shape_text sh) as [msg|[t|]]; simpl.
  - intros [= <-]. now exists msg.
  - destruct (truthy (strip t)); discriminate.
  - discriminate.
Qed.

Lemma pdf_page_ok (n : Z) (page : PdfPage) (els : list DocumentElement) :
  pdf_page (n, page) = inr els -> exists t, extract_text page = inr t.
Proof.
  unfold pdf_page. destruct (extract_text page) as [msg|t]; simpl;
    [discriminate | now exists t].
Qed.

Lemma docx_paragraph_ok (n : Z) (para : DocxParagraph) (els : list DocumentElement) :
  docx_paragraph (n, para) = inr els -> exists t, para_text para = inr t.
Proof.
  unfold docx_paragraph. destruct (para_text para) as [msg|t]; simpl;
    [discriminate | now exists t].
Qed.

Lemma pptx_shape_ok (env : Env) (n : Z) (sh : Shape) (els : list DocumentElement) :
  pptx_shape env n sh = inr els -> exists t, shape_text sh = inr t.
Proof.
  unfold pptx_shape. destruct (shape_text sh) as [msg|t]; simpl;
    [discriminate | now exists t].
Qed.

(** C5 (as amended).  No extractor catches the failure of a single unit.
    When the library raises while a page of a PDF, a paragraph of a DOCX or
    a shape of a PPTX is decoded, the loop is left: [process_document]
    raises the error of the first unit that fails (every unit before it
    decodes) and returns no document, whatever the units behind it do.  A
    document is produced when every unit decodes. *)
Theorem unit_failure_aborts (env : Env) (file_path : str) :
  path_exists env (path_str file_path) = true ->
  (forall pages page msg,
      lower (path_suffix file_path) = lit ".pdf" ->
      PdfReader env (path_str file_path) = inr pages ->
      In page pages -> extract_text page = inl msg ->
      exists before page' after msg',
        pages = before ++ page' :: after
        /\ (forall p, In p before -> exists t, extract_text p = inr t)
        /\ extract_text page' = inl msg'
        /\ process_document env file_path = inl (LibError msg'))
  /\ (forall doc para msg,
      lower (path_suffix file_path) = lit ".docx" ->
      DocxDocument env (path_str file_path) = inr doc ->
      In para (paragraphs doc) -> para_text para = inl msg ->
      exists before para' after msg',
        paragraphs doc = before ++ para' :: after
        /\ (forall p, In p before -> exists t, para_text p = inr t)
        /\ para_text para' = inl msg'
        /\ process_document env file_path = inl (LibError msg'))
  /\ (forall slides slide sh msg,
      lower (path_suffix file_path) = lit ".pptx" ->
      Presentation env (path_str file_path) = inr slides ->
      In slide slides -> In sh (shapes slide) -> shape_text sh = inl msg ->
      exists slides_before slide' slides_after before sh' after msg',
        slides = slides_before ++ slide' :: slides_after
        /\ (forall s x, In s slides_before -> In x (shapes s) ->
                        exists t, shape_text x = inr t)
        /\ shapes slide' = before ++ sh' :: after
        /\ (forall x, In x before -> exists t, shape_text x = inr t)
        /\ shape_text sh' = inl msg'
        /\ process_document env file_path = inl (LibError msg'))
  /\ (forall pages,
      lower (path_suffix file_path) = lit ".pdf" ->
      PdfReader env (path_str file_path) = inr pages ->
      (forall page, In page pages -> exists t, extract_text page = inr t) ->
      exists doc, process_document env file_path = inr doc
                  /\ total_pages doc = len pages)
  /\ (forall docx,
      lower (path_suffix file_path) = lit ".docx" ->
      DocxDocument env (path_str file_path) = inr docx ->
      (forall para, In para (paragraphs docx) -> exists t, para_text para = inr t) ->
      exists doc, process_document env file_path = inr doc
                  /\ total_pages doc = 1)
  /\ (forall slides,
      lower (path_suffix file_path) = lit ".pptx" ->
      Presentation env (path_str file_path) = inr slides ->
      (forall slide sh, In slide slides -> In sh (shapes slide) ->
                        exists t, shape_text sh = inr t) ->
      exists doc, process_document env file_path = inr doc
                  /\ total_pages doc = len slides).
Proof.
  intros Hex. split; [|split; [|split; [|split; [|split]]]].
  - intros pages page msg Hsfx Hread Hin Hmsg.
    rewrite (dispatch_pdf env file_path Hex Hsfx).
    unfold _process_pdf. rewrite Hread. simpl.
    destruct (in_enumerate pages page 1 Hin) as [n Hn].
    assert (Hp : pdf_page (n, page) = inl (LibError msg))
      by (unfold pdf_page; rewrite Hmsg; reflexivity).
    destruct (for_append_first pdf_page _ _ _ Hn Hp)
      as (before & [n' page'] & after & e' & Hsplit & Hbefore & Hb & Hf).
    apply pdf_page_error in Hb as (msg' & -> & Hmsg').
    apply enumerate_split in Hsplit as [Hpages Hmem].
    exists (map snd before), page', (map snd after), msg'. rewrite Hf. simpl.
    split; [exact Hpages|]. split; [|auto].
    intros p Hp'. destruct (Hmem p Hp') as [m Hm].
    destruct (Hbefore _ Hm) as [bs Hbs]. now apply pdf_page_ok in Hbs.
  - intros doc para msg Hsfx Hread Hin Hmsg.
    rewrite (dispatch_docx env file_path Hex Hsfx).
    unfold _process_docx. rewrite Hread. simpl.
    destruct (in_enumerate (paragraphs doc) para 0 Hin) as [n Hn].
    assert (Hp : docx_paragraph (n, para) = inl (LibError msg))
      by (unfold docx_paragraph; rewrite Hmsg; reflexivity).
    destruct (for_append_first docx_paragraph _ _ _ Hn Hp)
      as (before & [n' para'] & after & e' & Hsplit & Hbefore & Hb & Hf).
    apply docx_paragraph_error in Hb as (msg' & -> & Hmsg').
    apply enumerate_split in Hsplit as [Hparas Hmem].
    exists (map snd before), para', (map snd after), msg'. rewrite Hf. simpl.
    split; [exact Hparas|]. split; [|auto].
    intros p Hp'. destruct (Hmem p Hp') as [m Hm].
    destruct (Hbefore _ Hm) as [bs Hbs]. now apply docx_paragraph_ok in Hbs.
  - intros slides slide sh msg Hsfx Hread Hin Hsh Hmsg.
    rewrite (dispatch_pptx env file_path Hex Hsfx).
    unfold _process_pptx. rewrite Hread. simpl.
    destruct (in_enumerate slides slide 1 Hin) as [n Hn].
    assert (Hp : pptx_shape env n sh = inl (LibError msg))
      by (unfold pptx_shape; rewrite Hmsg; reflexivity).
    destruct (for_append_fails (pptx_shape env n) _ _ _ Hsh Hp)
      as (sh1 & e1 & _ & _ & Hslide).
    destruct (for_append_first (pptx_slide env) _ (n, slide) e1 Hn Hslide)
      as (sbefore & [n' slide'] & safter & e' & Hsplit & Hsbefore & Hb & Hf).
    unfold pptx_slide in Hb.
    destruct (for_append_error _ _ _ Hb) as (sh2 & Hsh2 & Hb2).
    destruct (for_append_first (pptx_shape env n') _ _ _ Hsh2 Hb2)
      as (before & sh' & after & e'' & Hshapes & Hbefore & Hb' & Hf').
    rewrite Hf' in Hb. injection Hb as ->.
    apply pptx_shape_error in Hb' as (msg' & -> & Hmsg').
    apply enumerate_split in Hsplit as [Hslides Hmem].
    exists (map snd sbefore), slide', (map snd safter), before, sh', after, msg'.
    rewrite Hf. simpl.
    split; [exact Hslides|]. split; [|split; [exact Hshapes|split; [|auto]]].
    + intros s x Hs Hx. destruct (Hmem s Hs) as [m Hm].
      destruct (Hsbefore _ Hm) as [bs Hbs]. unfold pptx_slide in Hbs.
      destruct (for_append_all_ok _ _ _ Hbs x Hx) as [els Hels].
      now apply pptx_shape_ok in Hels.
    + intros x Hx. destruct (Hbefore x Hx) as [els Hels].
      now apply pptx_shape_ok in Hels.
  - intros pages Hsfx Hread Hall.
    rewrite (dispatch_pdf env file_path Hex Hsfx).
    unfold _process_pdf. rewrite Hread. simpl.
    destruct (for_append_succeeds pdf_page (enumerate 1 pages)) as [els ->].
    + intros [n page] Hin. apply enumerate_in in Hin.
      destruct (Hall page Hin) as [t Ht]. unfold pdf_page. rewrite Ht. simpl.
      destruct (truthy (strip t)); eexists; reflexivity.
    + simpl. eexists. split; reflexivity.
  - intros docx Hsfx Hread Hall.
    rewrite (dispatch_docx env file_path Hex Hsfx).
    unfold _process_docx. rewrite Hread. simpl.
    destruct (for_append_succeeds docx_paragraph (enumerate 0 (paragraphs docx)))
      as [els ->].
    + intros [n para] Hin. apply enumerate_in in Hin.
      destruct (Hall para Hin) as [t Ht]. unfold docx_paragraph. rewrite Ht. simpl.
      destruct (truthy (strip t)); eexists; reflexivity.
    + simpl. eexists. split; reflexivity.
  - intros slides Hsfx Hread Hall.
    rewrite (dispatch_pptx env file_path Hex Hsfx).
    unfold _process_pptx. rewrite Hread. simpl.
    destruct (for_append_succeeds (pptx_slide env) (enumerate 1 slides)) as [els ->].
    + intros [n slide] Hin. apply enumerate_in in Hin. unfold pptx_slide.
      apply for_append_succeeds. intros sh Hsh.
      destruct (Hall slide sh Hin Hsh) as [t Ht]. unfold pptx_shape. rewrite Ht. simpl.
      destruct t as [t|]; [destruct (truthy (strip t))|]; eexists; reflexivity.
    + simpl. eexists. split; reflexivity.
Qed.

(** A PDF whose first page cannot be decoded and whose second page reads
    "hello": the call raises, no document comes out of the second page. *)
Lemma broken_page_aborts_document :
  process_document (Fixtures.env_of Fixtures.fs_broken_page) (lit "report.pdf")
  = inl (LibError (lit "cannot decode page")).
Proof. vm_compute. reflexivity. Qed.

(** The theorem at that PDF. *)
Lemma unit_failure_aborts_witness :
  path_exists (Fixtures.env_of Fixtures.fs_broken_page) (path_str (lit "report.pdf"))
  = true
  /\ exists before page' after msg',
       [ {| extract_text := inl (lit "cannot decode page") |};
         {| extract_text := inr (lit "hello") |} ] = before ++ page' :: after
       /\ (forall p, In p before -> exists t, extract_text p = inr t)
       /\ extract_text page' = inl msg'
       /\ process_document (Fixtures.env_of Fixtures.fs_broken_page) (lit "report.pdf")
          = inl (LibError msg').
Proof.
  split; [reflexivity|].
  refine (proj1 (unit_failure_aborts (Fixtures.env_of Fixtures.fs_broken_page)
                   (lit "report.pdf") eq_refl)
            _ {| extract_text := inl (lit "cannot decode page") |}
            (lit "cannot decode page") eq_refl eq_refl _ eq_refl).
  left. reflexivity.
Defined.

(** *** The confidence of the elements *)

Lemma Qgtb_lt (x y : Q) : Qgtb x y = true -> (y < x)%Q.
Proof.
  unfold Qgtb. intros H. apply negb_true_iff in H.
  apply Qnot_le_lt. intros Hle. apply Qle_bool_iff in Hle. congruence.
Qed.

Lemma pdf_page_elements (P : DocumentElement -> Prop) (np : Z * PdfPage)
  (bs : list DocumentElement) :
  (forall n i p, truthy (strip p) = true -> P (pdf_paragraph n (i, strip p))) ->
  pdf_page np = inr bs -> Forall P bs.
Proof.
  intros HP. destruct np as [n page]. unfold pdf_page.
  destruct (extract_text page) as [msg|t]; simpl; [discriminate|].
  destruct (truthy (strip t)); intros [= <-]; [|constructor].
  apply Forall_forall. intros e He.
  apply in_map_iff in He as ([i q] & <- & Hq).
  apply enumerate_in in Hq. apply in_map_iff in Hq as (p0 & <- & Hp0).
  apply filter_In in Hp0 as [_ Hp0]. now apply HP.
Qed.

Lemma pdf_elements (P : DocumentElement -> Prop) (env : Env) (p : str)
  (doc : ProcessedDocument) :
  (forall n i q, truthy (strip q) = true -> P (pdf_paragraph n (i, strip q))) ->
  _process_pdf env p = inr doc -> Forall P (elements doc).
Proof.
  intros HP. unfold _process_pdf.
  destruct (PdfReader env (path_str p)) as [msg|pages]; simpl; [discriminate|].
  destruct (for_append pdf_page (enumerate 1 pages)) as [e|els] eqn:Hf; simpl;
    [discriminate|].
  intros [= <-]. simpl.
  apply (for_append_Forall pdf_page P _ _ ) with (2 := Hf).
  intros a bs _. now apply pdf_page_elements.
Qed.

Lemma docx_elements (P : DocumentElement -> Prop) (env : Env) (p : str)
  (doc : ProcessedDocument) :
  (forall ip e, In e (match docx_paragraph ip with inr bs => bs | inl _ => [] end)
                -> P e) ->
  (forall it e, In e (docx_table it) -> P e) ->
  _process_docx env p = inr doc -> Forall P (elements doc).
Proof.
  intros Hpara Htab. unfold _process_docx.
  destruct (DocxDocument env (path_str p)) as [msg|d]; simpl; [discriminate|].
  destruct (for_append docx_paragraph _) as [e|els] eqn:Hf; simpl; [discriminate|].
  intros [= <-]. simpl. apply Forall_app. split.
  - apply (for_append_Forall docx_paragraph P _ _) with (2 := Hf).
    intros ip bs _ Hb. apply Forall_forall. intros e He.
    apply (Hpara ip). now rewrite Hb.
  - apply Forall_forall. intros e He.
    apply in_flat_map in He as (it & _ & He). now apply (Htab it).
Qed.

Lemma pptx_elements (P : DocumentElement -> Prop) (env : Env) (p : str)
  (doc : ProcessedDocument) :
  (forall n sh e, In e (match pptx_shape env n sh with inr bs => bs | inl _ => [] end)
                  -> P e) ->
  _process_pptx env p = inr doc -> Forall P (elements doc).
Proof.
  intros Hsh. unfold _process_pptx.
  destruct (Presentation env (path_str p)) as [msg|slides]; simpl; [discriminate|].
  destruct (for_append (pptx_slide env) _) as [e|els] eqn:Hf; simpl; [discriminate|].
  intros [= <-]. simpl.
  apply (for_append_Forall (pptx_slide env) P _ _) with (2 := Hf).
  intros [n slide] bs _ Hb. unfold pptx_slide in Hb.
  apply (for_append_Forall (pptx_shape env n) P _ _) with (2 := Hb).
  intros sh bs' _ Hb'. apply Forall_forall. intros e He.
  apply (Hsh n sh). now rewrite Hb'.
Qed.

Lemma image_elements (env : Env) (p : str) (doc : ProcessedDocument) :
  _process_image env p = inr doc ->
  exists regions,
    readtext env (path_str p) = inr regions
    /\ elements doc = flat_map ocr_element regions.
Proof.
  unfold _process_image. destruct (imread env (path_str p)); simpl; [|discriminate].
  destruct (readtext env (path_str p)) as [msg|regions]; simpl; [discriminate|].
  intros [= <-]. now exists regions.
Qed.

Lemma docx_paragraph_element (ip : Z * DocxParagraph) (e : DocumentElement) :
  In e (match docx_paragraph ip with inr bs => bs | inl _ => [] end) ->
  confidence e = 1%Q /\ truthy (strip (text e)) = true.
Proof.
  destruct ip as [i para]. unfold docx_paragraph.
  destruct (para_text para) as [msg|t]; simpl; [contradiction|].
  destruct (truthy (strip t)) eqn:Ht; simpl; [|contradiction].
  intros [<-|[]]. simpl. auto.
Qed.

Lemma docx_table_element (it : Z * DocxTable) (e : DocumentElement) :
  In e (docx_table it) -> confidence e = 1%Q /\ element_type e = lit "table".
Proof.
  destruct it as [i table]. unfold docx_table.
  destruct (truthy _); simpl; [|contradiction].
  intros [<-|[]]. simpl. auto.
Qed.

Lemma pptx_shape_element (env : Env) (n : Z) (sh : Shape) (e : DocumentElement) :
  In e (match pptx_shape env n sh with inr bs => bs | inl _ => [] end) ->
  confidence e = 1%Q /\ truthy (strip (text e)) = true.
Proof.
  unfold pptx_shape.
  destruct (shape_text sh) as [msg|[t|]]; simpl; [contradiction| |contradiction].
  destruct (truthy (strip t)) eqn:Ht; simpl; [|contradiction].
  intros [<-|[]]. simpl. auto.
Qed.

Lemma ocr_element_inv (r : OcrResult) (e : DocumentElement) :
  In e (ocr_element r) ->
  confidence e = ocr_confidence r /\ (1 # 2 < ocr_confidence r)%Q
  /\ truthy (strip (text e)) = true.
Proof.
  unfold ocr_element.
  destruct (Qgtb (ocr_confidence r) (1 # 2)) eqn:Hc; simpl; [|contradiction].
  destruct (truthy (strip (ocr_text r))) eqn:Ht; simpl; [|contradiction].
  intros [<-|[]]. simpl. auto using Qgtb_lt.
Qed.




(** *** Blank text *)

Lemma lstrip_starts_clean (s : str) : starts_clean (lstrip s).
Proof.
  induction s as [|c s IH]; simpl; [exact I|].
  destruct (isspace c) eqn:E; [exact IH | exact E].
Qed.

Lemma lstrip_clean (s : str) : starts_clean s -> lstrip s = s.
Proof. destruct s as [|c s]; simpl; [reflexivity|]. now intros ->. Qed.

Lemma lstrip_suffix (s : str) : exists pre, s = pre ++ lstrip s.
Proof.
  induction s as [|c s [pre IH]]; simpl.
  - now exists [].
  - destruct (isspace c); [|now exists []].
    exists (c :: pre). simpl. now f_equal.
Qed.

Lemma rstrip_prefix (s : str) : exists post, s = rstrip s ++ post.
Proof.
  unfold rstrip. destruct (lstrip_suffix (rev s)) as [pre H].
  exists (rev pre). rewrite <- rev_app_distr, <- H. now rewrite rev_involutive.
Qed.

Lemma rstrip_rstrip (s : str) : rstrip (rstrip s) = rstrip s.
Proof.
  unfold rstrip. rewrite rev_involutive.
  now rewrite (lstrip_clean _ (lstrip_starts_clean (rev s))).
Qed.

Lemma rstrip_starts_clean (s : str) : starts_clean s -> starts_clean (rstrip s).
Proof.
  intros Hs. destruct (rstrip_prefix s) as [post H].
  destruct (rstrip s) as [|c u]; [exact I|].
  rewrite H in Hs. exact Hs.
Qed.

(** [s.strip().strip() == s.strip()] *)
Lemma strip_strip (s : str) : strip (strip s) = strip s.
Proof.
  unfold strip.
  rewrite (lstrip_clean (rstrip (lstrip s))).
  - apply rstrip_rstrip.
  - apply rstrip_starts_clean, lstrip_starts_clean.
Qed.

(** What the sibling paths guarantee: but for the tables of a DOCX, every
    element of a returned document has text that is not blank. *)
Lemma text_nonblank_but_tables (env : Env) (file_path : str)
  (doc : ProcessedDocument) :
  process_document env file_path = inr doc ->
  Forall (fun e => element_type e = lit "table"
                   \/ truthy (strip (text e)) = true) (elements doc).
Proof.
  intros Hdoc. pose proof (returned_exists _ _ _ Hdoc) as Hex.
  revert Hdoc. unfold process_document. rewrite Hex. cbn [negb].
  destruct (str_in _ supported_formats); cbn [negb]; [|discriminate].
  destruct (str_eqb _ (lit ".pdf")); [|destruct (str_eqb _ (lit ".docx"));
    [|destruct (str_eqb _ (lit ".pptx"))]]; intros Hdoc.
  - apply pdf_elements with (2 := Hdoc). intros n i q Hq. right.
    simpl. now rewrite strip_strip.
  - apply docx_elements with (3 := Hdoc).
    + intros ip e He. right. now apply docx_paragraph_element in He.
    + intros it e He. left. now apply docx_table_element in He.
  - apply pptx_elements with (2 := Hdoc).
    intros n sh e He. right. now apply pptx_shape_element in He.
  - apply image_elements in Hdoc as (regions & _ & ->).
    apply Forall_forall. intros e He.
    apply in_flat_map in He as (r & _ & He).
    right. now apply ocr_element_inv in He.
Qed.

(** C8, the code at the failing input.  A DOCX whose only table has one
    row of one empty cell: the guard [if table_text:] looks at the list of
    rows, not at the text, and the document returned has a table element
    whose text is empty. *)
Theorem docx_table_blank_text :
  exists doc e,
    process_document (Fixtures.env_of Fixtures.fs_empty_cell) (lit "memo.docx") = inr doc
    /\ elements doc = [e]
    /\ element_type e = lit "table"
    /\ text e = []
    /\ truthy (strip (text e)) = false.
Proof.
  eexists. eexists. split; [vm_compute; reflexivity|].
  repeat split.
Qed.

End ProcessorProofs.

(* ================================================================== *)
(** ** Properties of [AIModelManager] *)
(* ================================================================== *)

Module ModelProofs.

Import AIModels.

(** *** The code on small inputs *)

Example re_split_runs :
  re_split (lit "One. Two!? Three") false = [lit "One"; lit " Two"; lit " Three"].
Proof. reflexivity. Qed.

Example re_split_trailing : re_split (lit "One.") false = [lit "One"; []].
Proof. reflexivity. Qed.

Example slice_last_two : slice_last 2 [1; 2; 3] = [2; 3].
Proof. reflexivity. Qed.

(** [l[-0:]] is the whole list. *)
Example slice_last_zero : slice_last 0 [1; 2; 3] = [1; 2; 3].
Proof. reflexivity. Qed.

Example chunks_of_five :
  chunks_of [1; 2; 3; 4; 5] 2 2 = [[1; 2]; [3; 4]; [5]].
Proof. reflexivity. Qed.

Example windows_of_five :
  chunks_of [1; 2; 3; 4; 5] 4 2 = [[1; 2; 3; 4]; [3; 4; 5]; [5]].
Proof. reflexivity. Qed.

(** *** Construction and fallbacks *)

Lemma slice_from_0 {A : Type} (s : list A) (n : nat) : slice s 0 n = firstn n s.
Proof. unfold slice. now rewrite Nat.sub_0_r. Qed.

(** C6.  Constructing the orchestrator raises exactly when the embedding
    model fails to load.  When construction succeeds, a summarizer, QA
    model or classifier that failed to load is only absent (and the
    language detector is always absent).  Every call to an absent
    summarizer or QA model returns, without raising and without calling any
    model, a response with confidence 0.0, [fallback] set to true in the
    metadata and a content built from the first 200 (300) characters of
    the input. *)
Theorem load_models_fallbacks :
  (forall l, (exists e, _load_models l = inl e)
             <-> (exists e, load_embedding l = inl e))
  /\ (forall l self, _load_models l = inr self ->
        (forall e, load_summarizer l = inl e -> summarizer self = None)
        /\ (forall e, load_qa l = inl e -> qa_model self = None)
        /\ (forall e, load_classifier l = inl e -> classifier self = None)
        /\ (forall m, load_summarizer l = inr m -> summarizer self = Some m)
        /\ (forall m, load_qa l = inr m -> qa_model self = Some m)
        /\ (forall m, load_classifier l = inr m -> classifier self = Some m)
        /\ lang_detector self = None)
  /\ (forall self text max_length min_length language,
        summarizer self = None ->
        summarize_text self text max_length min_length language
        = (inr {| content :=
                    lit "Summary unavailable (model not loaded). Text preview: "
                    ++ firstn 200 text ++ lit "...";
                  confidence := 0;
                  metadata := [(lit "fallback", VBool true);
                               (lit "language", VStr language)] |},
           []))
  /\ (forall self question context language,
        qa_model self = None ->
        answer_question self question context language
        = (inr {| content :=
                    lit "Question answering unavailable (model not loaded). Based on the context, here's relevant text: "
                    ++ firstn 300 context ++ lit "...";
                  confidence := 0;
                  metadata := [(lit "fallback", VBool true);
                               (lit "question", VStr question);
                               (lit "language", VStr language)] |},
           [])).
Proof.
  split; [|split; [|split]].
  - intros [[e1|m1] [e2|m2] [e3|m3] [e4|m4]]; cbv; split; intros [e H];
      try discriminate; eexists; reflexivity.
  - intros [[e1|m1] [e2|m2] [e3|m3] [e4|m4]] self; cbv; intros [= <-];
      repeat split; intros ? [= <-]; reflexivity.
  - intros self text max_length min_length language H.
    unfold summarize_text. rewrite H, slice_from_0. reflexivity.
  - intros self question context language H.
    unfold answer_question. rewrite H, slice_from_0. reflexivity.
Qed.

(** The theorem at a manager without summarizer. *)
Lemma load_models_fallbacks_witness :
  summarizer Fixtures.bare_manager = None
  /\ confidence
       (match outcome (summarize_text Fixtures.bare_manager (lit "some text") 150 50 (lit "en")) with
        | inr r => r
        | inl _ => mkResponse [] 1 []
        end) = 0%Q.
Proof.
  split; [reflexivity|].
  rewrite (proj1 (proj2 (proj2 load_models_fallbacks))
             Fixtures.bare_manager (lit "some text") 150 50 (lit "en") eq_refl).
  reflexivity.
Defined.

(** *** Sentiment *)

(** C10.  The sentiment result depends only on the first 500 characters:
    on two texts that agree there, [analyze_sentiment] makes the same call
    to the classifier, on the text cut after 500 characters, and returns
    the same result. *)
Theorem analyze_sentiment_prefix (self : AIModelManager) (text1 text2 : str) :
  firstn 500 text1 = firstn 500 text2 ->
  analyze_sentiment self text1 = analyze_sentiment self text2
  /\ (forall f, classifier self = Some f ->
        trace (analyze_sentiment self text1) = [CallClassifier (firstn 500 text1)]
        /\ trace (analyze_sentiment self text2) = [CallClassifier (firstn 500 text1)]).
Proof.
  intros H. unfold analyze_sentiment. rewrite !slice_from_0, <- H.
  split; [reflexivity|].
  intros f ->. unfold call_classifier, invoke, bind, try_except, item0, trace.
  destruct (f (firstn 500 text1)) as [e|[|r0 rest]]; split; reflexivity.
Qed.

(** The theorem at two texts of 501 characters that differ in the last. *)
Lemma analyze_sentiment_prefix_witness :
  firstn 500 (repeat 97 500 ++ [98]) = firstn 500 (repeat 97 500 ++ [99])
  /\ analyze_sentiment Fixtures.manager (repeat 97 500 ++ [98])
     = analyze_sentiment Fixtures.manager (repeat 97 500 ++ [99]).
Proof.
  assert (H : firstn 500 (repeat 97 500 ++ [98]) = firstn 500 (repeat 97 500 ++ [99]))
    by (vm_compute; reflexivity).
  split; [exact H|].
  exact (proj1 (analyze_sentiment_prefix Fixtures.manager _ _ H)).
Defined.

(** *** Chunks and windows *)

Section Chunks.

Context {A : Type}.

Lemma chunks_concat (size m : nat) (text : list A) :
  (List.length text <= m * size)%nat ->
  List.concat (map (fun i => slice text i (i + size))
              (map (fun k => (k * size)%nat) (seq 0 m))) = text.
Proof.
  revert text. induction m as [|m IH]; intros text Hlen.
  - destruct text; [reflexivity | simpl in Hlen; lia].
  - rewrite <- cons_seq, <- seq_shift, !map_cons, !map_map. simpl List.concat.
    unfold slice at 1. rewrite Nat.sub_0_r. cbn [skipn].
    transitivity (firstn size text ++ skipn size text);
      [|apply firstn_skipn].
    f_equal.
    rewrite <- (IH (skipn size text)) at 1 by (rewrite length_skipn; lia).
    rewrite map_map. f_equal. apply map_ext. intros k. unfold slice.
    rewrite skipn_skipn. f_equal; [lia | f_equal; lia].
Qed.

Lemma range_step_nth (stop step k : nat) :
  (k < List.length (range_step stop step))%nat ->
  nth k (range_step stop step) 0%nat = (k * step)%nat.
Proof.
  unfold range_step. rewrite length_map, length_seq. intros Hk.
  set (f := fun j => (j * step)%nat).
  transitivity (nth k (map f (seq 0 ((stop + step - 1) / step))) (f 0%nat));
    [reflexivity|].
  rewrite map_nth, seq_nth by assumption. reflexivity.
Qed.

(** The [k]-th chunk is [text[k*step : k*step + size]]. *)
Lemma chunks_of_nth (text : list A) (size step k : nat) :
  (k < List.length (chunks_of text size step))%nat ->
  nth k (chunks_of text size step) [] = slice text (k * step) (k * step + size).
Proof.
  unfold chunks_of. rewrite length_map. intros Hk.
  set (g := fun i => slice text i (i + size)).
  rewrite (nth_indep _ [] (g 0%nat)) by (now rewrite length_map).
  rewrite map_nth, range_step_nth by assumption. reflexivity.
Qed.

(** [range(0, n, 1000)] has ceil(n / 1000) members, whatever the size of
    the pieces cut at them. *)
Lemma windows_count (context : list A) :
  List.length (chunks_of context 2000 1000)
  = ((List.length context + 999) / 1000)%nat.
Proof.
  unfold chunks_of, range_step. rewrite !length_map, length_seq.
  f_equal. lia.
Qed.

(** The first halves of the windows are the consecutive pieces of 1000. *)
Lemma windows_heads (context : list A) :
  map (firstn 1000) (chunks_of context 2000 1000) = chunks_of context 1000 1000.
Proof.
  unfold chunks_of. rewrite map_map. apply map_ext. intros i.
  unfold slice. rewrite firstn_firstn. f_equal. lia.
Qed.

End Chunks.

(** *** Traces *)

Lemma for_each_all_ok {A B : Type} (body : A -> M B) (c : A -> call)
  (l : list A) (bs : list B) :
  Forall2 (fun a b => body a = (inr b, [c a])) l bs ->
  for_each body l = (inr bs, map c l).
Proof.
  induction 1 as [|a b l bs Hab _ IH]; simpl; [reflexivity|].
  rewrite Hab. unfold bind at 1. rewrite IH.
  unfold bind, ret. simpl. now rewrite app_nil_r.
Qed.

Lemma for_each_trace_le {A B : Type} (body : A -> M B) (l : list A) :
  (forall a, (List.length (trace (body a)) <= 1)%nat) ->
  (List.length (trace (for_each body l)) <= List.length l)%nat.
Proof.
  intros Hb. unfold trace in *. induction l as [|a l IH]; simpl; [lia|].
  specialize (Hb a). unfold bind at 1.
  destruct (body a) as [[e|b] t]; simpl in *; [lia|].
  unfold bind, ret.
  destruct (for_each body l) as [[e|bs] t']; simpl in *;
    rewrite ?length_app; simpl; lia.
Qed.

Lemma call_summarizer_trace (f : Summarizer) (text : str) (a b : Z) :
  trace (call_summarizer f text a b) = [CallSummarizer text a b].
Proof.
  unfold call_summarizer, invoke, bind, item0.
  destruct (f text a b) as [e|[|s rest]]; reflexivity.
Qed.

Lemma call_summarizer_ok (f : Summarizer) (text : str) (a b : Z) (s : str)
  (rest : list str) :
  f text a b = inr (s :: rest) ->
  call_summarizer f text a b = (inr s, [CallSummarizer text a b]).
Proof. intros H. unfold call_summarizer, invoke, bind, item0. now rewrite H. Qed.

Lemma bind_inr {A B : Type} (a : A) (t : list call) (k : A -> M B) :
  bind (inr a, t) k = (fst (k a), t ++ snd (k a)).
Proof. unfold bind. now destruct (k a). Qed.

Lemma call_summarizer_shape (f : Summarizer) (text : str) (a b : Z) :
  exists r, call_summarizer f text a b = (r, [CallSummarizer text a b]).
Proof.
  unfold call_summarizer, invoke, bind, item0.
  destruct (f text a b) as [e|[|s rest]]; eexists; reflexivity.
Qed.

Lemma ceil_div_covers (n : nat) : (n <= (n + 1000 - 1) / 1000 * 1000)%nat.
Proof.
  pose proof (Nat.div_mod_eq (n + 1000 - 1) 1000).
  pose proof (Nat.mod_upper_bound (n + 1000 - 1) 1000). lia.
Qed.



(** The fields populated on the chunked path and on the direct path. *)
Example summary_response_shape (language text summary : str) :
  shape (summary_response language text summary)
  = [lit "language"; lit "original_length"].
Proof. reflexivity. Qed.

(** A short text: one call on the whole text, the same fields. *)
Example summarize_short_text :
  summarize_text Fixtures.manager (lit "short text") 150 50 (lit "en")
  = (inr (summary_response (lit "en") (lit "short text") (lit "sho")),
     [CallSummarizer (lit "short text") 150 50]).
Proof. vm_compute. reflexivity. Qed.

(** Two chunks, two calls with halved target lengths, no second pass. *)
Example summarize_long_text :
  summarize_text Fixtures.manager Fixtures.long_text 150 50 (lit "en")
  = (inr (summary_response (lit "en") Fixtures.long_text (lit "aaa a")),
     [CallSummarizer (repeat 97 1000) 75 25; CallSummarizer [97] 75 25]).
Proof. vm_compute. reflexivity. Qed.

(** *** Question answering over windows *)

Lemma Qgtb_false (x y : Q) : Qgtb x y = false -> (x <= y)%Q.
Proof.
  unfold Qgtb. intros H. apply negb_false_iff in H. now apply Qle_bool_iff.
Qed.

(** The loop keeps the first result of maximal score among those that beat
    the initial score, or the initial state when none does. *)
Lemma keep_best_fold (results : list QAResult) (b : option QAResult) (s : Q) :
  (fold_left keep_best results (b, s) = (b, s)
   /\ Forall (fun r => (score r <= s)%Q) results)
  \/ (exists j best,
        nth_error results j = Some best
        /\ fold_left keep_best results (b, s) = (Some best, score best)
        /\ (s < score best)%Q
        /\ Forall (fun r => (score r <= score best)%Q) results
        /\ (forall i r, (i < j)%nat -> nth_error results i = Some r ->
                        (score r < score best)%Q)).
Proof.
  revert b s. induction results as [|r0 rest IH]; intros b s; simpl.
  - left. auto.
  - change (keep_best (b, s) r0)
      with (if Qgtb (score r0) s then (Some r0, score r0) else (b, s)).
    destruct (Qgtb (score r0) s) eqn:Hgt.
    + apply ProcessorProofs.Qgtb_lt in Hgt. right.
      destruct (IH (Some r0) (score r0))
        as [[Hfold Hall]|(j & best & Hj & Hfold & Hlt & Hall & Hearly)].
      * exists 0%nat, r0. repeat split; auto.
        -- constructor; [apply Qle_refl | exact Hall].
        -- intros i r Hi. lia.
      * exists (S j), best. repeat split; auto.
        -- now apply Qlt_trans with (score r0).
        -- constructor; [now apply Qlt_le_weak | exact Hall].
        -- intros [|i] r Hi; simpl.
           ++ now intros [= <-].
           ++ apply Hearly. lia.
    + apply Qgtb_false in Hgt.
      destruct (IH b s)
        as [[Hfold Hall]|(j & best & Hj & Hfold & Hlt & Hall & Hearly)].
      * left. split; [exact Hfold | now constructor].
      * right. exists (S j), best. repeat split; auto.
        -- constructor; [|exact Hall].
           apply Qlt_le_weak. now apply Qle_lt_trans with s.
        -- intros [|i] r Hi; simpl.
           ++ intros [= <-]. now apply Qle_lt_trans with s.
           ++ apply Hearly. lia.
Qed.

Lemma qa_loop_all_ok (f : QAModel) (question : str) (windows : list str)
  (results : list QAResult) (best : option QAResult * Q) :
  Forall2 (fun w r => f question w = inr r) windows results ->
  qa_loop f question windows best
  = (inr (fold_left keep_best results best), map (CallQA question) windows).
Proof.
  intros H. revert best. induction H as [|w r windows results Hw _ IH];
    intros best; simpl; [reflexivity|].
  rewrite Hw. unfold keep_best at 2.
  destruct (Qgtb (score r) (snd best)); now rewrite IH.
Qed.

Lemma try_except_returns {A : Type} (m : M A) (h : exn -> A) :
  exists a, outcome (try_except m (fun e => ret (h e))) = inr a.
Proof. destruct m as [[e|a] t]; simpl; eexists; reflexivity. Qed.

(** C3.  With the QA model loaded, a context longer than 2000 characters is
    cut into windows of 2000 characters that start every 1000 characters
    (half a window).  There are ceil(length / 1000) windows, at least
    three; the [k]-th is [context[1000 k : 1000 k + 2000]], so that two
    neighbours share 1000 characters; and the first halves of the windows,
    put end to end, are the context: no character is left out.  The model
    is called on every window, in order; the response carries the answer
    and the score of the window with the greatest score, the earliest one
    among equals; when no window scores above 0 the response is the
    placeholder "No answer found" with confidence 0.0.  The call always
    returns a response, whatever the model does. *)
Theorem answer_question_windows (self : AIModelManager) (f : QAModel)
  (question context language : str) :
  qa_model self = Some f ->
  2000 < len context ->
  let run := answer_question self question context language in
  let windows := chunks_of context 2000 1000 in
  List.length windows = ((List.length context + 999) / 1000)%nat
  /\ (3 <= List.length windows)%nat
  /\ (forall k, (k < List.length windows)%nat ->
                nth k windows [] = slice context (k * 1000) (k * 1000 + 2000))
  /\ (forall k, (S k < List.length windows)%nat ->
                skipn 1000 (nth k windows []) = firstn 1000 (nth (S k) windows []))
  /\ List.concat (map (firstn 1000) windows) = context
  /\ (exists response, outcome run = inr response)
  /\ (forall results,
        Forall2 (fun w r => f question w = inr r) windows results ->
        trace run = map (CallQA question) windows
        /\ List.length (trace run) = ((List.length context + 999) / 1000)%nat
        /\ ((Forall (fun r => (score r <= 0)%Q) results
             /\ outcome run
                = inr (answer_response question language (lit "No answer found") 0))
            \/ (exists j best,
                  nth_error results j = Some best
                  /\ (0 < score best)%Q
                  /\ Forall (fun r => (score r <= score best)%Q) results
                  /\ (forall i r, (i < j)%nat -> nth_error results i = Some r ->
                                  (score r < score best)%Q)
                  /\ outcome run
                     = inr (answer_response question language
                              (answer best) (score best))))).
Proof.
  intros Hloaded Hlong run windows. subst run.
  pose proof (windows_count context) as Hcount. fold windows in Hcount.
  assert (Hthree : (3 <= List.length windows)%nat).
  { rewrite Hcount. unfold len in Hlong.
    apply Nat.div_le_lower_bound; lia. }
  unfold answer_question. rewrite Hloaded.
  split; [exact Hcount|]. split; [exact Hthree|].
  split; [|split; [|split; [|split]]].
  - intros k Hk. now apply chunks_of_nth.
  - intros k Hk. unfold windows.
    rewrite !chunks_of_nth by (fold windows; lia).
    unfold slice. rewrite firstn_firstn, skipn_firstn_comm, !skipn_skipn.
    f_equal; lia.
  - unfold windows. rewrite windows_heads.
    apply chunks_concat, ceil_div_covers.
  - apply (try_except_returns _
             (fun e => {| content := lit "Error answering question: " ++ exn_str e;
                          confidence := 0;
                          metadata := [(lit "error", VStr (exn_str e));
                                       (lit "question", VStr question)] |})).
  - intros results Hall.
    replace (len context >? Z.of_nat 2000) with true by (symmetry; apply Z.gtb_lt; lia).
    change (chunks_of context 2000 (2000 / 2)) with windows.
    rewrite (qa_loop_all_ok f question windows results _ Hall), bind_inr.
    cbv beta.
    destruct (keep_best_fold results None 0%Q)
      as [[-> Hnone]|(j & best & Hj & -> & Hpos & Hmax & Hearly)].
    + split; [unfold trace; simpl; now rewrite !app_nil_r|].
      split; [unfold trace; simpl; now rewrite !app_nil_r, length_map|].
      left. split; [exact Hnone | reflexivity].
    + split; [unfold trace; simpl; now rewrite !app_nil_r|].
      split; [unfold trace; simpl; now rewrite !app_nil_r, length_map|].
      right. exists j, best. repeat split; auto.
Qed.

(** The theorem at a context of 2500 characters: three windows, which
    start at 0, 1000 and 2000; the second and the third score 1/4 each, the
    first 0. *)
Lemma answer_question_windows_witness :
  qa_model Fixtures.manager = Some Fixtures.b_counter
  /\ 2000 < len Fixtures.long_context
  /\ List.length (chunks_of Fixtures.long_context 2000 1000)
     = ((List.length Fixtures.long_context + 999) / 1000)%nat
  /\ exists response,
       outcome (answer_question Fixtures.manager (lit "q") Fixtures.long_context
                  (lit "en")) = inr response.
Proof.
  split; [reflexivity|]. split; [reflexivity|].
  pose proof (answer_question_windows Fixtures.manager Fixtures.b_counter
                (lit "q") Fixtures.long_context (lit "en") eq_refl eq_refl) as H.
  split; [exact (proj1 H)|].
  exact (proj1 (proj2 (proj2 (proj2 (proj2 (proj2 H)))))).
Defined.

(** Of the two windows with the greatest score the earlier one answers. *)
Example answer_long_context :
  answer_question Fixtures.manager (lit "q") Fixtures.long_context (lit "en")
  = (inr (answer_response (lit "q") (lit "en") (lit "a") (500 # 2000)),
     [CallQA (lit "q") (repeat 97 2000);
      CallQA (lit "q") (repeat 97 1000 ++ repeat 98 500);
      CallQA (lit "q") (repeat 98 500)]).
Proof. vm_compute. reflexivity. Qed.

(** *** Key phrases *)

Section StronglySortedFacts.

Context {A : Type} (R : A -> A -> Prop).

Lemma ss_app_inv (l1 l2 : list A) :
  StronglySorted R (l1 ++ l2) ->
  StronglySorted R l2 /\ (forall a b, In a l1 -> In b l2 -> R a b).
Proof.
  induction l1 as [|x l1 IH]; simpl; intros H.
  - split; [exact H | contradiction].
  - apply StronglySorted_inv in H as [Hs Hx]. destruct (IH Hs) as [H2 Hc].
    split; [exact H2|]. intros a b [<-|Ha] Hb.
    + rewrite Forall_forall in Hx. apply Hx, in_or_app. now right.
    + now apply Hc.
Qed.

Lemma ss_snoc (l : list A) (x : A) :
  StronglySorted R l -> Forall (fun a => R a x) l -> StronglySorted R (l ++ [x]).
Proof.
  induction 1 as [|a l Hs IH Ha]; simpl; intros Hx.
  - constructor; constructor.
  - inversion Hx as [|? ? Hax Hlx]; subst. constructor; [now apply IH|].
    apply Forall_app. split; [exact Ha | now constructor].
Qed.

Lemma ss_filter (p : A -> bool) (l : list A) :
  StronglySorted R l -> StronglySorted R (filter p l).
Proof.
  induction 1 as [|a l Hs IH Ha]; simpl; [constructor|].
  destruct (p a); [|exact IH]. constructor; [exact IH|].
  rewrite Forall_forall in *. intros b Hb. apply filter_In in Hb as [Hb _]. auto.
Qed.

End StronglySortedFacts.

Lemma ss_rev {A : Type} (R : A -> A -> Prop) (l : list A) :
  StronglySorted R l -> StronglySorted (fun a b => R b a) (rev l).
Proof.
  induction 1 as [|a l Hs IH Ha]; simpl; [constructor|].
  apply ss_snoc; [exact IH|]. now apply Forall_rev.
Qed.

Lemma mean_axis0_length (m : nat) (matrix : list (list Q)) :
  List.length (mean_axis0 m matrix) = m.
Proof. unfold mean_axis0. now rewrite length_map, length_seq. Qed.

(** With indices in range, the selection raises nothing and keeps the
    names of the indices with a positive score, in the order given. *)
Lemma pick_in_range (names : list str) (scores : list Q) (idx : list nat) :
  List.length scores = List.length names ->
  Forall (fun i => (i < List.length names)%nat) idx ->
  pick names scores idx
  = (inr (map (fun i => nth i names [])
              (filter (fun i => Qgtb (score_at scores i) 0) idx)), []).
Proof.
  intros Hlen. induction 1 as [|i idx Hi _ IH]; simpl; [reflexivity|].
  unfold score_at at 1.
  destruct (nth_error scores i) as [sc|] eqn:Hsc.
  - rewrite (nth_error_nth _ _ 0%Q Hsc).
    destruct (Qgtb sc 0); [|exact IH].
    destruct (nth_error names i) as [name|] eqn:Hname.
    + rewrite IH. simpl. do 3 f_equal. symmetry. now apply nth_error_nth.
    + apply nth_error_None in Hname. lia.
  - apply nth_error_None in Hsc. lia.
Qed.

Lemma slice_last_split {A : Type} (k : Z) (l : list A) :
  1 <= k ->
  exists pre, l = pre ++ slice_last k l
              /\ len (slice_last k l) <= k
              /\ (pre <> [] -> len (slice_last k l) = k).
Proof.
  intros Hk. unfold slice_last.
  replace (- k <? 0) with true by (symmetry; apply Z.ltb_lt; lia).
  set (start := Z.to_nat (Z.max (len l - k) 0)).
  exists (firstn start l). split; [now rewrite firstn_skipn|].
  unfold len in *. rewrite length_skipn. split; [lia|].
  intros Hpre. assert (0 < start)%nat.
  { destruct start; [now destruct l | lia]. }
  lia.
Qed.

(** C9 (as amended).  [extract_key_phrases] never raises; it returns the
    empty sequence when scikit-learn cannot be imported or the vectorizer
    fails.  Otherwise, when the text splits on runs of [.], [!], [?] into
    fewer than two sentences that are not blank, it calls nothing and
    returns the one-element sequence of the first 50 characters of the
    text, or the empty sequence for the empty text.  With two sentences or
    more, a vectorizer that succeeds and [top_k] at least 1, it returns the
    names of at most [top_k] features, all of positive mean score, by
    descending mean score, and no feature left out has a positive mean
    score above that of a feature returned. *)
Theorem extract_key_phrases_result (libs : Libs) (text : str) (top_k : Z) :
  let run := extract_key_phrases libs text top_k in
  let sentences := sentences_of text in
  (exists phrases, outcome run = inr phrases)
  /\ (forall e, import_sklearn libs = inl e -> run = (inr [], []))
  /\ (import_sklearn libs = inr tt -> len sentences < 2 ->
      run = (inr (if truthy text then [firstn 50 text] else []), []))
  /\ (import_sklearn libs = inr tt -> 2 <= len sentences ->
      forall e, fit_transform libs sentences = inl e ->
                run = (inr [], [CallVectorizer sentences]))
  /\ (import_sklearn libs = inr tt -> 2 <= len sentences ->
      forall names matrix,
        fit_transform libs sentences = inr (names, matrix) ->
        let scores := mean_axis0 (List.length names) matrix in
        let order := argsort libs scores in
        1 <= top_k ->
        (forall i, In i order <-> (i < List.length names)%nat) ->
        StronglySorted (ascending scores) order ->
        exists selected,
          run = (inr (map (fun i => nth i names []) selected),
                 [CallVectorizer sentences])
          /\ len selected <= top_k
          /\ Forall (fun i => (0 < score_at scores i)%Q) selected
          /\ StronglySorted (descending scores) selected
          /\ (forall j, (j < List.length names)%nat -> ~ In j selected ->
                        (0 < score_at scores j)%Q ->
                        len selected = top_k
                        /\ Forall (fun i => (score_at scores j <= score_at scores i)%Q)
                                  selected)).
Proof.
  intros run sentences. subst run. unfold extract_key_phrases. fold sentences.
  split; [|split; [|split; [|split]]].
  - apply (try_except_returns _ (fun _ => [])).
  - intros e He. unfold lift. rewrite He. reflexivity.
  - intros Himp Hfew. unfold lift. rewrite Himp, bind_inr. cbv beta.
    replace (len sentences <? 2) with true by (symmetry; apply Z.ltb_lt; lia).
    rewrite slice_from_0. reflexivity.
  - intros Himp Hmany e He. unfold lift. rewrite Himp, bind_inr. cbv beta.
    replace (len sentences <? 2) with false by (symmetry; apply Z.ltb_ge; lia).
    unfold invoke. rewrite He. reflexivity.
  - intros Himp Hmany names matrix Hfit.
    set (scores := mean_axis0 (List.length names) matrix).
    set (order := argsort libs scores).
    intros Hk Hrange Hsorted. unfold lift. rewrite Himp, bind_inr. cbv beta.
    replace (len sentences <? 2) with false by (symmetry; apply Z.ltb_ge; lia).
    unfold invoke. rewrite Hfit, bind_inr. cbv beta iota.
    fold scores. fold order.
    destruct (slice_last_split top_k order Hk) as (pre & Hsplit & Hlen & Hfull).
    set (suf := slice_last top_k order) in *.
    set (positive := fun i => Qgtb (score_at scores i) 0).
    exists (filter positive (rev suf)).
    assert (Hsuf : forall i, In i suf -> In i order)
      by (intros i Hi; rewrite Hsplit; apply in_or_app; now right).
    rewrite pick_in_range.
    2: { unfold scores. apply mean_axis0_length. }
    2: { apply Forall_forall. intros i Hi. rewrite <- in_rev in Hi.
         apply Hrange, Hsuf, Hi. }
    rewrite Hsplit in Hsorted. apply ss_app_inv in Hsorted as [Hss Hcross].
    split; [reflexivity|]. split; [|split; [|split]].
    + unfold len in *. pose proof (filter_length_le positive (rev suf)).
      rewrite length_rev in *. lia.
    + apply Forall_forall. intros i Hi. apply filter_In in Hi as [_ Hi].
      now apply ProcessorProofs.Qgtb_lt.
    + apply ss_filter. apply (ss_rev (ascending scores)). exact Hss.
    + intros j Hj Hout Hpos.
      assert (Hjpre : In j pre).
      { apply Hrange in Hj. rewrite Hsplit in Hj.
        apply in_app_or in Hj as [Hj|Hj]; [exact Hj|].
        exfalso. apply Hout. apply filter_In. split; [now rewrite <- in_rev|].
        unfold positive, Qgtb. apply negb_true_iff.
        destruct (Qle_bool _ _) eqn:E; [|reflexivity].
        apply Qle_bool_iff in E. exfalso. now apply (Qlt_not_le _ _ Hpos). }
      assert (Hall : forall i, In i suf -> positive i = true).
      { intros i Hi. unfold positive, Qgtb. apply negb_true_iff.
        destruct (Qle_bool _ _) eqn:E; [|reflexivity].
        apply Qle_bool_iff in E. exfalso.
        apply (Qlt_not_le _ _ Hpos).
        apply Qle_trans with (score_at scores i); [|exact E].
        now apply (Hcross j i). }
      assert (Hkeep : filter positive (rev suf) = rev suf).
      { apply forallb_filter_id. apply forallb_forall. intros i Hi.
        apply Hall. now rewrite <- in_rev in Hi. }
      rewrite Hkeep. split.
      * unfold len in *. rewrite length_rev. apply Hfull.
        intros ->. contradiction.
      * apply Forall_forall. intros i Hi. apply (Hcross j i Hjpre).
        now rewrite <- in_rev in Hi.
Qed.

(** A text without terminal punctuation is one sentence, and the result
    is not empty. *)
Lemma single_sentence_key_phrase :
  sentences_of (lit "hello") = [lit "hello"]
  /\ extract_key_phrases Fixtures.small_libs (lit "hello") 5
     = (inr [lit "hello"], []).
Proof. split; vm_compute; reflexivity. Qed.

(** The theorem at two sentences and three features with the mean scores
    1/2, 1/8 and 0: the two best are asked for. *)
Lemma extract_key_phrases_result_witness :
  exists selected,
    extract_key_phrases Fixtures.small_libs (lit "Cats purr. Dogs bark.") 2
    = (inr (map (fun i => nth i [lit "cat"; lit "dog"; lit "the"] []) selected),
       [CallVectorizer (sentences_of (lit "Cats purr. Dogs bark."))])
    /\ len selected <= 2.
Proof.
  destruct (proj2 (proj2 (proj2 (proj2
                (extract_key_phrases_result Fixtures.small_libs
                   (lit "Cats purr. Dogs bark.") 2))))
              eq_refl
              ltac:(apply Z.leb_le; vm_compute; reflexivity)
              [lit "cat"; lit "dog"; lit "the"]
              [[1 # 2; 0; 0]; [1 # 2; 1 # 4; 0]]%Q
              eq_refl
              ltac:(lia)
              ltac:(intro i; vm_compute; lia)
              ltac:(repeat constructor; vm_compute; intro H; discriminate H))
    as (selected & Hrun & Hlen & _).
  exists selected. split; assumption.
Defined.

(** The two best features, by descending mean score. *)
Example key_phrases_of_two_sentences :
  extract_key_phrases Fixtures.small_libs (lit "Cats purr. Dogs bark.") 2
  = (inr [lit "cat"; lit "dog"],
     [CallVectorizer [lit "Cats purr"; lit "Dogs bark"]]).
Proof. vm_compute. reflexivity. Qed.

End ModelProofs.

(* ================================================================== *)
(** ** Further properties of [DocumentProcessor] *)
(* ================================================================== *)

Module ProcessorExtras.

Import DocumentProcessor.
Import ProcessorProofs.

(** *** What a returned document is made of *)

Lemma enumerate_range {A : Type} (l : list A) (a : A) (k n : Z) :
  In (n, a) (enumerate k l) -> k <= n < k + len l.
Proof.
  revert k. induction l as [|x l IH]; intros k Hin; [contradiction|].
  unfold len in *. simpl List.length. rewrite Nat2Z.inj_succ.
  destruct Hin as [[= <- _]|Hin]; [lia|].
  apply IH in Hin. lia.
Qed.

Lemma pdf_document (env : Env) (p : str) (doc : ProcessedDocument) :
  _process_pdf env p = inr doc ->
  exists pages,
    PdfReader env (path_str p) = inr pages
    /\ total_pages doc = len pages
    /\ for_append pdf_page (enumerate 1 pages) = inr (elements doc).
Proof.
  unfold _process_pdf.
  destruct (PdfReader env (path_str p)) as [msg|pages]; simpl; [discriminate|].
  destruct (for_append pdf_page (enumerate 1 pages)) as [e|els] eqn:Hf; simpl;
    [discriminate|].
  intros [= <-]. exists pages. auto.
Qed.

Lemma pptx_document (env : Env) (p : str) (doc : ProcessedDocument) :
  _process_pptx env p = inr doc ->
  exists slides,
    Presentation env (path_str p) = inr slides
    /\ total_pages doc = len slides
    /\ for_append (pptx_slide env) (enumerate 1 slides) = inr (elements doc).
Proof.
  unfold _process_pptx.
  destruct (Presentation env (path_str p)) as [msg|slides]; simpl; [discriminate|].
  destruct (for_append (pptx_slide env) (enumerate 1 slides)) as [e|els] eqn:Hf;
    simpl; [discriminate|].
  intros [= <-]. exists slides. auto.
Qed.

Lemma docx_document (env : Env) (p : str) (doc : ProcessedDocument) :
  _process_docx env p = inr doc -> total_pages doc = 1.
Proof.
  unfold _process_docx.
  destruct (DocxDocument env (path_str p)) as [msg|d]; simpl; [discriminate|].
  destruct (for_append docx_paragraph _) as [e|els]; simpl; [discriminate|].
  now intros [= <-].
Qed.

Lemma image_document (env : Env) (p : str) (doc : ProcessedDocument) :
  _process_image env p = inr doc -> total_pages doc = 1.
Proof.
  unfold _process_image. destruct (imread env (path_str p)); simpl; [|discriminate].
  destruct (readtext env (path_str p)) as [msg|regions]; simpl; [discriminate|].
  now intros [= <-].
Qed.

(** The four ways a document is returned. *)
Lemma returned_by (env : Env) (file_path : str) (doc : ProcessedDocument) :
  process_document env file_path = inr doc ->
  _process_pdf env file_path = inr doc
  \/ _process_docx env file_path = inr doc
  \/ _process_pptx env file_path = inr doc
  \/ _process_image env file_path = inr doc.
Proof.
  unfold process_document.
  destruct (path_exists env (path_str file_path)); cbn [negb]; [|discriminate].
  destruct (str_in _ supported_formats); cbn [negb]; [|discriminate].
  destruct (str_eqb _ (lit ".pdf")); [auto|].
  destruct (str_eqb _ (lit ".docx")); [auto|].
  destruct (str_eqb _ (lit ".pptx")); auto.
Qed.

Lemma pdf_page_numbers (n : Z) (page : PdfPage) (bs : list DocumentElement) :
  pdf_page (n, page) = inr bs -> Forall (fun e => page_number e = n) bs.
Proof.
  unfold pdf_page. destruct (extract_text page) as [msg|t]; simpl; [discriminate|].
  destruct (truthy (strip t)); intros [= <-]; [|constructor].
  apply Forall_forall. intros e He.
  apply in_map_iff in He as ([i q] & <- & _). reflexivity.
Qed.

Lemma pptx_slide_numbers (env : Env) (n : Z) (slide : Slide)
  (bs : list DocumentElement) :
  pptx_slide env (n, slide) = inr bs -> Forall (fun e => page_number e = n) bs.
Proof.
  unfold pptx_slide. intros H.
  apply (for_append_Forall (pptx_shape env n) _ _ _) with (2 := H).
  intros sh bs' _. unfold pptx_shape.
  destruct (shape_text sh) as [msg|[t|]]; simpl; [discriminate| |].
  - destruct (truthy (strip t)); intros [= <-]; repeat constructor.
  - intros [= <-]. constructor.
Qed.

(** Elements appended unit by unit, each unit with its own number. *)
Lemma numbered_units {A : Type} (body : Z * A -> result (list DocumentElement))
  (l : list A) (k : Z) (els : list DocumentElement) :
  (forall n a bs, body (n, a) = inr bs -> Forall (fun e => page_number e = n) bs) ->
  for_append body (enumerate k l) = inr els ->
  Forall (fun e => k <= page_number e < k + len l) els
  /\ StronglySorted (fun a b => page_number a <= page_number b) els.
Proof.
  intros Hb. revert k els. induction l as [|x l IH]; intros k els; simpl.
  - intros [= <-]. split; constructor.
  - destruct (body (k, x)) as [e|bs] eqn:Hx; simpl; [discriminate|].
    destruct (for_append body (enumerate (k + 1) l)) as [e|rest] eqn:Hr; simpl;
      [discriminate|].
    intros [= <-]. destruct (IH (k + 1) rest Hr) as [Hrange Hsorted].
    pose proof (Hb k x bs Hx) as Hbs.
    unfold len in *. simpl List.length. rewrite Nat2Z.inj_succ.
    split.
    + apply Forall_app. split.
      * eapply Forall_impl; [|exact Hbs]. simpl. intros e ->. lia.
      * eapply Forall_impl; [|exact Hrange]. simpl. intros e He. lia.
    + clear IH Hx Hr. induction bs as [|b bs IHbs]; simpl; [exact Hsorted|].
      inversion Hbs as [|? ? Hb0 Hbs']; subst.
      constructor; [now apply IHbs|].
      apply Forall_app. split.
      * eapply Forall_impl; [|exact Hbs']. simpl. intros e ->. lia.
      * eapply Forall_impl; [|exact Hrange]. simpl. intros e He. lia.
Qed.

Lemma constant_page_sorted (els : list DocumentElement) :
  Forall (fun e => page_number e = 1) els ->
  StronglySorted (fun a b => page_number a <= page_number b) els.
Proof.
  induction 1 as [|e els He Hels IH]; constructor; [exact IH|].
  eapply Forall_impl; [|exact Hels]. simpl. intros e' He'. lia.
Qed.

Lemma docx_page_numbers (env : Env) (p : str) (doc : ProcessedDocument) :
  _process_docx env p = inr doc -> Forall (fun e => page_number e = 1) (elements doc).
Proof.
  intros H. apply docx_elements with (3 := H).
  - intros [i para] e. unfold docx_paragraph.
    destruct (para_text para) as [msg|t]; simpl; [contradiction|].
    destruct (truthy (strip t)); simpl; [|contradiction]. now intros [<-|[]].
  - intros [i table] e. unfold docx_table.
    destruct (truthy _); simpl; [|contradiction]. now intros [<-|[]].
Qed.

Lemma image_page_numbers (env : Env) (p : str) (doc : ProcessedDocument) :
  _process_image env p = inr doc -> Forall (fun e => page_number e = 1) (elements doc).
Proof.
  intros H. apply image_elements in H as (regions & _ & ->).
  apply Forall_forall. intros e He. apply in_flat_map in He as (r & _ & He).
  unfold ocr_element in He.
  destruct (Qgtb _ _ && truthy _); simpl in He; [|contradiction].
  now destruct He as [<-|[]].
Qed.

(** X1.  In every document [process_document] returns, the page number of
    every element lies between 1 and [total_pages], and the elements stand
    in the order of their pages. *)
Theorem pages_in_range_and_order (env : Env) (file_path : str)
  (doc : ProcessedDocument) :
  process_document env file_path = inr doc ->
  Forall (fun e => 1 <= page_number e <= total_pages doc) (elements doc)
  /\ StronglySorted (fun a b => page_number a <= page_number b) (elements doc).
Proof.
  intros Hdoc. apply returned_by in Hdoc as [H|[H|[H|H]]].
  - destruct (pdf_document _ _ _ H) as (pages & _ & Htotal & Hfor).
    destruct (numbered_units pdf_page pages 1 _ pdf_page_numbers Hfor)
      as [Hrange Hsorted].
    split; [|exact Hsorted]. rewrite Htotal.
    eapply Forall_impl; [|exact Hrange]. cbv beta. intros e He. lia.
  - pose proof (docx_page_numbers _ _ _ H) as Hone.
    rewrite (docx_document _ _ _ H).
    split; [|now apply constant_page_sorted].
    eapply Forall_impl; [|exact Hone]. simpl. intros e ->. lia.
  - destruct (pptx_document _ _ _ H) as (slides & _ & Htotal & Hfor).
    destruct (numbered_units (pptx_slide env) slides 1 _
                (pptx_slide_numbers env) Hfor) as [Hrange Hsorted].
    split; [|exact Hsorted]. rewrite Htotal.
    eapply Forall_impl; [|exact Hrange]. cbv beta. intros e He. lia.
  - pose proof (image_page_numbers _ _ _ H) as Hone.
    rewrite (image_document _ _ _ H).
    split; [|now apply constant_page_sorted].
    eapply Forall_impl; [|exact Hone]. simpl. intros e ->. lia.
Qed.

(** The theorem at a DOCX with a heading, a paragraph and a table. *)
Lemma pages_in_range_and_order_witness :
  exists doc,
    process_document (Fixtures.env_of Fixtures.fs_table) (lit "Table.DOCX") = inr doc
    /\ Forall (fun e => 1 <= page_number e <= total_pages doc) (elements doc).
Proof.
  eexists. split; [vm_compute; reflexivity|].
  refine (proj1 (pages_in_range_and_order (Fixtures.env_of Fixtures.fs_table)
                   (lit "Table.DOCX") _ _)).
  vm_compute. reflexivity.
Defined.

(** *** The language classifier and the tags of the elements *)

Lemma count_if_app (p : char -> bool) (s t : str) :
  count_if p (s ++ t) = count_if p s + count_if p t.
Proof. induction s as [|c s IH]; simpl; [reflexivity|]. rewrite IH. lia. Qed.

Lemma count_if_filter (p q : char -> bool) (s : str) :
  (forall c, p c = true -> q c = true) ->
  count_if p (filter q s) = count_if p s.
Proof.
  intros Hpq. induction s as [|c s IH]; simpl; [reflexivity|].
  destruct (q c) eqn:Hq; simpl; rewrite IH; [reflexivity|].
  destruct (p c) eqn:Hp; [|reflexivity]. apply Hpq in Hp. congruence.
Qed.

Lemma count_if_perm (p : char -> bool) (s t : str) :
  Permutation s t -> count_if p s = count_if p t.
Proof. induction 1; simpl; lia. Qed.

Lemma detect_by_counts (s t : str) :
  count_if is_latin s = count_if is_latin t ->
  count_if is_arabic s = count_if is_arabic t ->
  count_if is_hindi s = count_if is_hindi t ->
  count_if is_chinese s = count_if is_chinese t ->
  _detect_language s = _detect_language t.
Proof.
  intros H1 H2 H3 H4. rewrite !detect_language_counts. cbv zeta.
  now rewrite H1, H2, H3, H4.
Qed.

Lemma counted_class (p : char -> bool) :
  p = is_latin \/ p = is_arabic \/ p = is_hindi \/ p = is_chinese ->
  forall c, p c = true -> counted c = true.
Proof.
  unfold counted. intros [-> | [-> | [-> | ->]]] c Hc; rewrite Hc;
    rewrite ?orb_true_r; reflexivity.
Qed.

(** X2.  The language classifier looks at nothing but the counted
    characters and not at their order: two texts whose counted characters
    (ASCII letters, Arabic, Devanagari, CJK) are the same up to order get
    the same code.  Digits, punctuation, blanks and the characters of any
    other script never change the answer. *)
Theorem classifier_counts_only (text text' : str) :
  Permutation (filter counted text) (filter counted text') ->
  _detect_language text = _detect_language text'.
Proof.
  intros Hperm.
  assert (H : forall p, p = is_latin \/ p = is_arabic \/ p = is_hindi
                        \/ p = is_chinese ->
                        count_if p text = count_if p text').
  { intros p Hp.
    rewrite <- (count_if_filter p counted text) by (now apply counted_class).
    rewrite <- (count_if_filter p counted text') by (now apply counted_class).
    now apply count_if_perm. }
  apply detect_by_counts; apply H; auto.
Qed.

(** The theorem at two texts with the letters [a], [b] and an Arabic
    letter, in different orders and between different other characters. *)
Lemma classifier_counts_only_witness :
  Permutation (filter counted (lit "a1 b" ++ [1575]))
              (filter counted (1575 :: lit "b, a!"))
  /\ _detect_language (lit "a1 b" ++ [1575]) = _detect_language (1575 :: lit "b, a!").
Proof.
  assert (H : Permutation (filter counted (lit "a1 b" ++ [1575]))
                          (filter counted (1575 :: lit "b, a!"))).
  { change (Permutation [97; 98; 1575] [1575; 98; 97]).
    apply perm_trans with [1575; 97; 98].
    - apply Permutation_sym. apply (Permutation_cons_app [97; 98] [] 1575).
      apply Permutation_refl.
    - apply perm_skip. apply perm_swap. }
  split; [exact H | exact (classifier_counts_only _ _ H)].
Defined.

Lemma detect_language_codes (text : str) :
  In (_detect_language text) language_codes.
Proof.
  rewrite detect_language_counts. cbv zeta. unfold language_codes.
  destruct (_ =? 0); [simpl; auto|].
  destruct (_ <? _); [simpl; auto|].
  destruct (_ <? _); [simpl; auto|].
  destruct (_ <? _); simpl; auto 6.
Qed.

Lemma count_if_join (p : char -> bool) (sep : str) (l : list str) :
  count_if p sep = 0 ->
  count_if p (join sep l) = count_if p (List.concat l).
Proof.
  intros Hsep. induction l as [|x l IH]; [reflexivity|].
  destruct l as [|y l].
  - simpl. now rewrite app_nil_r.
  - change (join sep (x :: y :: l)) with (x ++ sep ++ join sep (y :: l)).
    change (List.concat (x :: y :: l)) with (x ++ List.concat (y :: l)).
    rewrite !count_if_app, Hsep, IH. lia.
Qed.

Lemma detect_join_separator (l : list str) :
  _detect_language (join (lit " ") l) = _detect_language (join newline l).
Proof.
  apply detect_by_counts;
    rewrite !count_if_join by reflexivity; reflexivity.
Qed.

Lemma language_tags (env : Env) (file_path : str)
  (doc : ProcessedDocument) :
  process_document env file_path = inr doc ->
  Forall (fun e => language e = Some (_detect_language (text e))
                   /\ In (_detect_language (text e)) language_codes)
         (elements doc).
Proof.
  intros Hdoc.
  apply Forall_impl with (P := fun e => language e = Some (_detect_language (text e))).
  { intros e He. split; [exact He | apply detect_language_codes]. }
  apply returned_by in Hdoc as [H|[H|[H|H]]].
  - apply pdf_elements with (2 := H). reflexivity.
  - apply docx_elements with (3 := H).
    + intros [i para] e. unfold docx_paragraph.
      destruct (para_text para) as [msg|t]; simpl; [contradiction|].
      destruct (truthy (strip t)); simpl; [|contradiction]. now intros [<-|[]].
    + intros [i table] e. unfold docx_table.
      destruct (truthy _); simpl; [|contradiction]. intros [<-|[]]. simpl.
      f_equal. apply detect_join_separator.
  - apply pptx_elements with (2 := H).
    intros n sh e. unfold pptx_shape.
    destruct (shape_text sh) as [msg|[t|]]; simpl; [contradiction| |contradiction].
    destruct (truthy (strip t)); simpl; [|contradiction]. now intros [<-|[]].
  - apply image_elements in H as (regions & _ & ->).
    apply Forall_forall. intros e He. apply in_flat_map in He as (r & _ & He).
    unfold ocr_element in He.
    destruct (Qgtb _ _ && truthy _); simpl in He; [|contradiction].
    now destruct He as [<-|[]].
Qed.

(** X3.  In every document [process_document] returns, every element has a
    language tag; the tag is the answer of the language classifier on the
    text of the element (also for the tables of a DOCX, whose tag is
    computed on the rows joined by blanks) and is one of "unknown", "ar",
    "hi", "zh", "en". *)
Theorem elements_language_tag (env : Env) (file_path : str)
  (doc : ProcessedDocument) :
  process_document env file_path = inr doc ->
  Forall (fun e => language e = Some (_detect_language (text e))
                   /\ In (_detect_language (text e)) language_codes)
         (elements doc).
Proof. exact (language_tags env file_path doc). Qed.

(** The theorem at the DOCX with a table. *)
Lemma elements_language_tag_witness :
  exists doc,
    process_document (Fixtures.env_of Fixtures.fs_table) (lit "Table.DOCX") = inr doc
    /\ Forall (fun e => language e = Some (_detect_language (text e))
                        /\ In (_detect_language (text e)) language_codes)
              (elements doc).
Proof.
  eexists. split; [vm_compute; reflexivity|].
  refine (elements_language_tag (Fixtures.env_of Fixtures.fs_table)
            (lit "Table.DOCX") _ _).
  vm_compute. reflexivity.
Defined.

(** *** Kinds, text and boxes of the elements *)

(** X4.  The kinds of the elements follow the format: a PDF gives only
    paragraphs, whose text carries no blank at either end; a DOCX gives
    headings, paragraphs and tables; a PPTX headings and paragraphs; an
    image gives "handwriting" for a region read with a confidence below
    0.8 and "text" for the others. *)
Theorem element_kinds (env : Env) (file_path : str) (doc : ProcessedDocument) :
  process_document env file_path = inr doc ->
  (lower (path_suffix file_path) = lit ".pdf" ->
   Forall (fun e => element_type e = lit "paragraph" /\ strip (text e) = text e)
          (elements doc))
  /\ (lower (path_suffix file_path) = lit ".docx" ->
      Forall (fun e => In (element_type e)
                          [lit "heading"; lit "paragraph"; lit "table"])
             (elements doc))
  /\ (lower (path_suffix file_path) = lit ".pptx" ->
      Forall (fun e => In (element_type e) [lit "heading"; lit "paragraph"])
             (elements doc))
  /\ (lower (path_suffix file_path) <> lit ".pdf" ->
      lower (path_suffix file_path) <> lit ".docx" ->
      lower (path_suffix file_path) <> lit ".pptx" ->
      Forall (fun e => (element_type e = lit "handwriting"
                        /\ (confidence e < 8 # 10)%Q)
                       \/ (element_type e = lit "text"
                           /\ (8 # 10 <= confidence e)%Q))
             (elements doc)).
Proof.
  intros Hdoc. pose proof (returned_exists _ _ _ Hdoc) as Hex.
  split; [|split; [|split]].
  - intros Hsfx. rewrite (dispatch_pdf env file_path Hex Hsfx) in Hdoc.
    apply pdf_elements with (2 := Hdoc). intros n i q _. simpl.
    split; [reflexivity | apply strip_strip].
  - intros Hsfx. rewrite (dispatch_docx env file_path Hex Hsfx) in Hdoc.
    apply docx_elements with (3 := Hdoc).
    + intros [i para] e. unfold docx_paragraph.
      destruct (para_text para) as [msg|t]; simpl; [contradiction|].
      destruct (truthy (strip t)); simpl; [|contradiction].
      intros [<-|[]]. simpl. destruct (startswith _ _); auto.
    + intros it e He. apply docx_table_element in He as [_ ->]. simpl. auto.
  - intros Hsfx. rewrite (dispatch_pptx env file_path Hex Hsfx) in Hdoc.
    apply pptx_elements with (2 := Hdoc).
    intros n sh e. unfold pptx_shape.
    destruct (shape_text sh) as [msg|[t|]]; simpl; [contradiction| |contradiction].
    destruct (truthy (strip t)); simpl; [|contradiction].
    intros [<-|[]]. simpl. destruct (_ || _); auto.
  - intros H1 H2 H3.
    pose proof (dispatch_other env file_path Hex doc Hdoc H1 H2 H3) as Himg.
    apply image_elements in Himg as (regions & _ & ->).
    apply Forall_forall. intros e He. apply in_flat_map in He as (r & _ & He).
    unfold ocr_element in He.
    destruct (Qgtb _ _ && truthy _); simpl in He; [|contradiction].
    destruct He as [<-|[]]. simpl.
    unfold Qltb. destruct (Qle_bool (8 # 10) (ocr_confidence r)) eqn:E; simpl.
    + right. split; [reflexivity | now apply Qle_bool_iff].
    + left. split; [reflexivity|]. apply Qnot_le_lt. intros Hle.
      apply Qle_bool_iff in Hle. congruence.
Qed.

(** The theorem at an image with regions read with 0.9, 0.6 and 0.4. *)
Lemma element_kinds_witness :
  exists doc,
    process_document (Fixtures.env_of Fixtures.fs_scan) (lit "scan.png") = inr doc
    /\ Forall (fun e => (element_type e = lit "handwriting"
                         /\ (confidence e < 8 # 10)%Q)
                        \/ (element_type e = lit "text"
                            /\ (8 # 10 <= confidence e)%Q))
              (elements doc).
Proof.
  eexists. split; [vm_compute; reflexivity|].
  refine (proj2 (proj2 (proj2 (element_kinds (Fixtures.env_of Fixtures.fs_scan)
                                 (lit "scan.png") _ _))) _ _ _);
    [vm_compute; reflexivity | | | ]; vm_compute; intro H; discriminate H.
Defined.

Lemma Qltb_cases (y m : Q) :
  (Qltb y m = true /\ (y < m)%Q) \/ (Qltb y m = false /\ (m <= y)%Q).
Proof.
  unfold Qltb. destruct (Qle_bool m y) eqn:E; simpl.
  - right. split; [reflexivity | now apply Qle_bool_iff].
  - left. split; [reflexivity|]. apply Qnot_le_lt. intros Hle.
    apply Qle_bool_iff in Hle. congruence.
Qed.

Lemma Qgtb_cases (y m : Q) :
  (Qgtb y m = true /\ (m < y)%Q) \/ (Qgtb y m = false /\ (y <= m)%Q).
Proof.
  unfold Qgtb. destruct (Qle_bool y m) eqn:E; simpl.
  - right. split; [reflexivity | now apply Qle_bool_iff].
  - left. split; [reflexivity|]. apply Qnot_le_lt. intros Hle.
    apply Qle_bool_iff in Hle. congruence.
Qed.

(** [min] of a list is one of its members and below all of them. *)
Lemma Qmin_list_least (x : Q) (l : list Q) :
  In (Qmin_list x l) (x :: l)
  /\ Forall (fun y => (Qmin_list x l <= y)%Q) (x :: l).
Proof.
  unfold Qmin_list. revert x. induction l as [|y l IH]; intros x; simpl.
  - split; [auto | repeat constructor; apply Qle_refl].
  - set (m := if Qltb y x then y else x).
    destruct (IH m) as [Hin Hall].
    assert (Hm : (m <= x)%Q /\ (m <= y)%Q /\ (m = x \/ m = y)).
    { unfold m. destruct (Qltb_cases y x) as [[-> H]|[-> H]].
      - repeat split; auto using Qle_refl, Qlt_le_weak.
      - repeat split; auto using Qle_refl. }
    destruct Hm as (Hx & Hy & Hm).
    inversion Hall as [|? ? H0 Hl]; subst.
    split.
    + simpl in Hin. destruct Hin as [Hin|Hin]; [|auto].
      rewrite <- Hin. destruct Hm as [->| ->]; auto.
    + constructor; [now apply Qle_trans with m|].
      constructor; [now apply Qle_trans with m | exact Hl].
Qed.

(** [max] of a list is one of its members and above all of them. *)
Lemma Qmax_list_greatest (x : Q) (l : list Q) :
  In (Qmax_list x l) (x :: l)
  /\ Forall (fun y => (y <= Qmax_list x l)%Q) (x :: l).
Proof.
  unfold Qmax_list. revert x. induction l as [|y l IH]; intros x; simpl.
  - split; [auto | repeat constructor; apply Qle_refl].
  - set (m := if Qgtb y x then y else x).
    destruct (IH m) as [Hin Hall].
    assert (Hm : (x <= m)%Q /\ (y <= m)%Q /\ (m = x \/ m = y)).
    { unfold m. destruct (Qgtb_cases y x) as [[-> H]|[-> H]].
      - repeat split; auto using Qle_refl, Qlt_le_weak.
      - repeat split; auto using Qle_refl. }
    destruct Hm as (Hx & Hy & Hm).
    inversion Hall as [|? ? H0 Hl]; subst.
    split.
    + simpl in Hin. destruct Hin as [Hin|Hin]; [|auto].
      rewrite <- Hin. destruct Hm as [->| ->]; auto.
    + constructor; [now apply Qle_trans with m|].
      constructor; [now apply Qle_trans with m | exact Hl].
Qed.

(** X5.  The box of an element read from an image is the envelope of the
    corners of its region: every corner lies within the box, and each side
    of the box passes through a corner. *)
Theorem ocr_box_is_envelope (env : Env) (file_path : str) (doc : ProcessedDocument) :
  _process_image env file_path = inr doc ->
  exists regions,
    readtext env (path_str file_path) = inr regions
    /\ Forall (fun e =>
                 exists r, In r regions
                   /\ text e = ocr_text r
                   /\ let all := first_corner r :: other_corners r in
                      let '(x1, y1, x2, y2) := bbox e in
                      Forall (fun c => (x1 <= fst c <= x2)%Q
                                       /\ (y1 <= snd c <= y2)%Q) all
                      /\ In x1 (map fst all) /\ In x2 (map fst all)
                      /\ In y1 (map snd all) /\ In y2 (map snd all))
              (elements doc).
Proof.
  intros H. apply image_elements in H as (regions & Hread & ->).
  exists regions. split; [exact Hread|].
  apply Forall_forall. intros e He. apply in_flat_map in He as (r & Hr & He).
  exists r. split; [exact Hr|].
  unfold ocr_element in He.
  destruct (Qgtb _ _ && truthy _); simpl in He; [|contradiction].
  destruct He as [<-|[]]. cbn [text bbox]. split; [reflexivity|].
  destruct (Qmin_list_least (fst (first_corner r)) (map fst (other_corners r)))
    as [Hx1 Hx1le].
  destruct (Qmax_list_greatest (fst (first_corner r)) (map fst (other_corners r)))
    as [Hx2 Hx2ge].
  destruct (Qmin_list_least (snd (first_corner r)) (map snd (other_corners r)))
    as [Hy1 Hy1le].
  destruct (Qmax_list_greatest (snd (first_corner r)) (map snd (other_corners r)))
    as [Hy2 Hy2ge].
  cbv zeta. cbn [map]. repeat split; try assumption.
  rewrite Forall_forall in *. intros c Hc.
  assert (Hfst : In (fst c) (fst (first_corner r) :: map fst (other_corners r)))
    by (destruct Hc as [<-|Hc]; [now left | right; now apply in_map]).
  assert (Hsnd : In (snd c) (snd (first_corner r) :: map snd (other_corners r)))
    by (destruct Hc as [<-|Hc]; [now left | right; now apply in_map]).
  auto.
Qed.

(** The theorem at the image with three regions. *)
Lemma ocr_box_is_envelope_witness :
  exists doc regions,
    _process_image (Fixtures.env_of Fixtures.fs_scan) (lit "scan.png") = inr doc
    /\ readtext (Fixtures.env_of Fixtures.fs_scan) (path_str (lit "scan.png"))
       = inr regions.
Proof.
  eexists.
  destruct (ocr_box_is_envelope (Fixtures.env_of Fixtures.fs_scan) (lit "scan.png")
              _ ltac:(vm_compute; reflexivity)) as (regions & Hread & _).
  exists regions. split; [vm_compute; reflexivity | exact Hread].
Defined.

(** *** Statistics *)

Section Counters.

Import AIModels.

Lemma str_eqb_sym (a b : str) : str_eqb a b = str_eqb b a.
Proof.
  revert b. induction a as [|x a IH]; intros [|y b]; simpl; try reflexivity.
  now rewrite Z.eqb_sym, IH.
Qed.

Lemma str_eqb_trans_false (a b c : str) :
  str_eqb a b = true -> str_eqb b c = false -> str_eqb a c = false.
Proof. intros H. apply str_eqb_eq in H. now subst. Qed.

Lemma dict_total_incr (d : list (str * Z)) (k : str) :
  dict_total (Stats.dict_incr d k) = dict_total d + 1.
Proof.
  unfold Stats.dict_incr. induction d as [|[k' v'] d IH]; simpl; [lia|].
  destruct (str_eqb k' k); simpl; [lia|].
  rewrite IH. lia.
Qed.

(** After [d[k] = d.get(k, 0) + 1], the counter of [k] is one more and the
    counter of any other key is as before. *)
Lemma dict_get_incr (d : list (str * Z)) (k q : str) :
  dict_get (Stats.dict_incr d k) q 0
  = dict_get d q 0 + (if str_eqb k q then 1 else 0).
Proof.
  unfold Stats.dict_incr. induction d as [|[k' v'] d IH]; simpl.
  - destruct (str_eqb k q); lia.
  - destruct (str_eqb k' k) eqn:Ek; simpl.
    + apply str_eqb_eq in Ek. subst k'.
      destruct (str_eqb k q); lia.
    + destruct (str_eqb k' q) eqn:Eq.
      * apply str_eqb_eq in Eq. subst k'.
        rewrite (str_eqb_sym k q), Ek. lia.
      * exact IH.
Qed.

End Counters.

Lemma len_filter_cons {A : Type} (p : A -> bool) (a : A) (l : list A) :
  count_where p (a :: l) = (if p a then 1 else 0) + count_where p l.
Proof.
  unfold count_where, len. simpl. destruct (p a); simpl List.length; lia.
Qed.

(** What the loop of [get_document_stats] has counted after a list of
    elements. *)
Lemma stats_loop (els : list DocumentElement) (st : Stats.DocumentStats) :
  let st' := fold_left Stats.stats_step els st in
  Stats.total_elements st' = Stats.total_elements st
  /\ Stats.total_pages st' = Stats.total_pages st
  /\ dict_total (Stats.element_types st')
     = dict_total (Stats.element_types st) + len els
  /\ (forall k, AIModels.dict_get (Stats.element_types st') k 0
                = AIModels.dict_get (Stats.element_types st) k 0
                  + count_where (has_kind k) els)
  /\ (forall k, truthy k = true ->
                AIModels.dict_get (Stats.languages st') k 0
                = AIModels.dict_get (Stats.languages st) k 0
                  + count_where (has_language k) els)
  /\ dict_total (Stats.languages st')
     = dict_total (Stats.languages st)
       + count_where (fun e => match language e with
                               | Some l => truthy l
                               | None => false
                               end) els
  /\ Stats.total_text_length st'
     = Stats.total_text_length st
       + fold_right (fun e acc => len (text e) + acc) 0 els.
Proof.
  revert st. induction els as [|e els IH]; intros st.
  - cbn [fold_left fold_right]. unfold count_where, len. simpl.
    repeat split; intros; lia.
  - cbn [fold_left fold_right]. cbv zeta.
    destruct (IH (Stats.stats_step st e)) as (H1 & H2 & H3 & H4 & H5 & H6 & H7).
    rewrite H1, H2, H3, H6, H7. cbn [Stats.stats_step Stats.total_elements
      Stats.total_pages Stats.element_types Stats.languages
      Stats.total_text_length].
    rewrite dict_total_incr. rewrite !len_filter_cons.
    repeat split.
    + unfold len. simpl List.length. lia.
    + intros k. rewrite H4. cbn [Stats.stats_step Stats.element_types].
      rewrite dict_get_incr, len_filter_cons. unfold has_kind at 2. lia.
    + intros k Hk. rewrite (H5 k Hk). cbn [Stats.stats_step Stats.languages].
      rewrite len_filter_cons. unfold has_language at 2.
      destruct (language e) as [l|]; [|lia].
      destruct (truthy l) eqn:Hl.
      * rewrite dict_get_incr. lia.
      * destruct l; [|discriminate]. destruct k; [discriminate|]. simpl. lia.
    + destruct (language e) as [l|]; [|lia].
      destruct (truthy l); [rewrite dict_total_incr|]; lia.
    + lia.
Qed.

(** X6.  The statistics of any document: [total_elements] is the number of
    elements; the counter of each kind is the number of elements of that
    kind, and the counters of the kinds add up to [total_elements]; the
    counter of each non-empty language code is the number of elements
    tagged with it; [total_text_length] is the sum of the lengths of the
    texts. *)
Theorem document_stats_counts (doc : ProcessedDocument) :
  let stats := Stats.get_document_stats doc in
  Stats.total_elements stats = len (elements doc)
  /\ Stats.total_pages stats = total_pages doc
  /\ (forall k, AIModels.dict_get (Stats.element_types stats) k 0
                = count_where (has_kind k) (elements doc))
  /\ dict_total (Stats.element_types stats) = Stats.total_elements stats
  /\ (forall k, truthy k = true ->
                AIModels.dict_get (Stats.languages stats) k 0
                = count_where (has_language k) (elements doc))
  /\ Stats.total_text_length stats
     = fold_right (fun e acc => len (text e) + acc) 0 (elements doc).
Proof.
  cbv zeta. unfold Stats.get_document_stats.
  match goal with
  | |- context [fold_left Stats.stats_step ?l ?s0] =>
      destruct (stats_loop l s0) as (H1 & H2 & H3 & H4 & H5 & _ & H7)
  end.
  cbn [Stats.initial_stats Stats.total_elements Stats.total_pages
       Stats.element_types Stats.languages Stats.total_text_length
       AIModels.dict_get dict_total fold_right] in *.
  destruct (truthy (elements doc));
    cbn [Stats.total_elements Stats.total_pages Stats.element_types
         Stats.languages Stats.total_text_length];
    (repeat split;
     [ exact H1 | exact H2 | intros k; rewrite H4; lia | rewrite H3, H1; lia
     | intros k Hk; rewrite (H5 k Hk); lia | rewrite H7; lia ]).
Qed.

(** The theorem on the language counters, for the code "en" and the
    document of the DOCX with a table. *)
Lemma document_stats_counts_witness :
  truthy (lit "en") = true
  /\ AIModels.dict_get
       (Stats.languages
          (Stats.get_document_stats (Fixtures.document_of Fixtures.fs_table "Table.DOCX")))
       (lit "en") 0
     = count_where (has_language (lit "en"))
         (elements (Fixtures.document_of Fixtures.fs_table "Table.DOCX")).
Proof.
  split; [reflexivity|].
  exact (proj1 (proj2 (proj2 (proj2 (proj2
           (document_stats_counts
              (Fixtures.document_of Fixtures.fs_table "Table.DOCX"))))))
           (lit "en") eq_refl).
Defined.

(** Three elements of the DOCX with a table, all counted under "en". *)
Example stats_of_table_document :
  let stats := Stats.get_document_stats
                 (Fixtures.document_of Fixtures.fs_table "Table.DOCX") in
  (Stats.total_elements stats, Stats.element_types stats, Stats.languages stats,
   Stats.total_text_length stats)
  = (3, [(lit "heading", 1); (lit "paragraph", 1); (lit "table", 1)],
     [(lit "en", 3)], 20).
Proof. vm_compute. reflexivity. Qed.

Lemma language_total (els : list DocumentElement) :
  Forall (fun e => language e = Some (_detect_language (text e))
                   /\ In (_detect_language (text e)) language_codes) els ->
  count_where (fun e => match language e with
                        | Some l => truthy l
                        | None => false
                        end) els = len els
  /\ forall k, ~ In k language_codes -> count_where (has_language k) els = 0.
Proof.
  induction 1 as [|e els [He Hcode] _ [IH1 IH2]].
  - split; [reflexivity | intros; reflexivity].
  - split.
    + rewrite len_filter_cons, IH1, He.
      replace (truthy (_detect_language (text e))) with true.
      * unfold len. simpl List.length. lia.
      * unfold language_codes in Hcode. simpl in Hcode.
        destruct Hcode as [<-|[<-|[<-|[<-|[<-|[]]]]]]; reflexivity.
    + intros k Hk. rewrite len_filter_cons, (IH2 k Hk).
      unfold has_language. rewrite He.
      destruct (str_eqb _ k) eqn:E; [|reflexivity].
      apply str_eqb_eq in E. subst k. contradiction.
Qed.

(** X7.  In the statistics of a document [process_document] returns, every
    element is counted under exactly one language: the counters of the
    languages add up to [total_elements], and no code other than
    "unknown", "ar", "hi", "zh", "en" has a counter. *)
Theorem document_stats_languages (env : Env) (file_path : str)
  (doc : ProcessedDocument) :
  process_document env file_path = inr doc ->
  let stats := Stats.get_document_stats doc in
  dict_total (Stats.languages stats) = Stats.total_elements stats
  /\ (forall k, truthy k = true -> ~ In k language_codes ->
                AIModels.dict_get (Stats.languages stats) k 0 = 0).
Proof.
  intros Hdoc. cbv zeta.
  destruct (language_total _ (language_tags env file_path doc Hdoc)) as [Htot Hnone].
  unfold Stats.get_document_stats.
  match goal with
  | |- context [fold_left Stats.stats_step ?l ?s0] =>
      destruct (stats_loop l s0) as (H1 & _ & _ & _ & H5 & H6 & _)
  end.
  cbn [Stats.initial_stats Stats.total_elements Stats.languages
       AIModels.dict_get dict_total fold_right] in *.
  destruct (truthy (elements doc));
    cbn [Stats.total_elements Stats.languages];
    (split; [rewrite H6, H1, Htot; lia
            | intros k Hk Hout; rewrite (H5 k Hk), (Hnone k Hout); lia]).
Qed.

(** The theorem at the DOCX with a table. *)
Lemma document_stats_languages_witness :
  dict_total (Stats.languages
                (Stats.get_document_stats
                   (Fixtures.document_of Fixtures.fs_table "Table.DOCX")))
  = Stats.total_elements
      (Stats.get_document_stats (Fixtures.document_of Fixtures.fs_table "Table.DOCX")).
Proof.
  refine (proj1 (document_stats_languages (Fixtures.env_of Fixtures.fs_table)
                   (lit "Table.DOCX") _ _)).
  vm_compute. reflexivity.
Defined.

Lemma stats_loop_confidence (els : list DocumentElement) (st : Stats.DocumentStats) :
  Forall (fun e => confidence e = 1%Q) els ->
  (Stats.avg_confidence (fold_left Stats.stats_step els st)
   == Stats.avg_confidence st + inject_Z (len els))%Q.
Proof.
  intros H. revert st. induction H as [|e els He _ IH]; intros st.
  - simpl. unfold len. simpl. ring.
  - cbn [fold_left]. rewrite IH. cbn [Stats.stats_step Stats.avg_confidence].
    rewrite He. unfold len. simpl List.length. rewrite Nat2Z.inj_succ.
    unfold Z.succ. rewrite inject_Z_plus. ring.
Qed.

(** X8.  The mean confidence of the statistics: for a document without
    elements it is 0, and nothing is divided; for a document whose elements
    all have confidence 1.0, as those of a DOCX or a PPTX, it is 1.0. *)
Theorem document_stats_mean (doc : ProcessedDocument) :
  (elements doc = [] ->
   Stats.avg_confidence (Stats.get_document_stats doc) = 0%Q
   /\ Stats.total_elements (Stats.get_document_stats doc) = 0)
  /\ (elements doc <> [] ->
      Forall (fun e => confidence e = 1%Q) (elements doc) ->
      (Stats.avg_confidence (Stats.get_document_stats doc) == 1)%Q).
Proof.
  unfold Stats.get_document_stats. split.
  - intros H. unfold Stats.initial_stats. rewrite H. split; reflexivity.
  - intros Hne Hall. destruct (elements doc) as [|e els] eqn:Hels; [contradiction|].
    cbn [truthy Stats.avg_confidence]. rewrite <- Hels in *.
    rewrite stats_loop_confidence by assumption.
    cbn [Stats.initial_stats Stats.avg_confidence]. rewrite Qplus_0_l.
    apply Qmult_inv_r. rewrite Hels. unfold len. simpl List.length.
    unfold Qeq. simpl. lia.
Qed.

(** The theorem at the DOCX with a table. *)
Lemma document_stats_mean_witness :
  elements (Fixtures.document_of Fixtures.fs_table "Table.DOCX") <> []
  /\ (Stats.avg_confidence
        (Stats.get_document_stats (Fixtures.document_of Fixtures.fs_table "Table.DOCX"))
      == 1)%Q.
Proof.
  assert (Hne : elements (Fixtures.document_of Fixtures.fs_table "Table.DOCX") <> [])
    by (vm_compute; intro H; discriminate H).
  split; [exact Hne|].
  apply (proj2 (document_stats_mean
                  (Fixtures.document_of Fixtures.fs_table "Table.DOCX")) Hne).
  vm_compute. repeat constructor.
Defined.

(** *** The time estimate *)

Lemma base_time_range (ext : str) :
  1 <= AIModels.dict_get Stats.time_estimates ext 8 <= 12.
Proof.
  unfold Stats.time_estimates. cbn [AIModels.dict_get].
  repeat match goal with
         | |- context [if ?b then _ else _] => destruct b; [lia|]
         end.
  lia.
Qed.

(** The seconds, computed in integers. *)
Lemma estimated_seconds_formula (rounding : Stats.Rounding) (size : Z)
  (file_path : str) :
  0 <= size ->
  Stats.estimated_seconds
    (Stats.estimate_processing_time rounding (inr size) file_path)
  = Z.max 5 (size * AIModels.dict_get Stats.time_estimates
                      (lower (path_suffix file_path)) 8 / 1048576).
Proof.
  intros Hsize. cbn [Stats.estimate_processing_time Stats.estimated_seconds].
  f_equal. unfold Stats.Qtrunc, true_div.
  set (base := AIModels.dict_get _ _ _).
  pose proof (base_time_range (lower (path_suffix file_path))) as Hb. fold base in Hb.
  change (inject_Z (1024 * 1024)) with (1048576 # 1).
  cbn [Qdiv Qmult Qinv Qnum Qden inject_Z Z.mul Pos.mul].
  rewrite Z.quot_div_nonneg by nia.
  f_equal; lia.
Qed.

(** X9.  The time estimate is never below 5 seconds; its complexity is
    "High" above 60 seconds, "Medium" above 20 and "Low" otherwise; a file
    of less than 512 KiB is estimated at 5 seconds whatever its type; a
    file that cannot be examined is estimated at 30 seconds, complexity
    "Unknown". *)
Theorem estimate_bounds (rounding : Stats.Rounding) (file_path : str) :
  (forall msg,
      let e := Stats.estimate_processing_time rounding (inl msg) file_path in
      Stats.estimated_seconds e = 30 /\ Stats.complexity e = lit "Unknown")
  /\ (forall size, 0 <= size ->
      let e := Stats.estimate_processing_time rounding (inr size) file_path in
      5 <= Stats.estimated_seconds e
      /\ (60 < Stats.estimated_seconds e -> Stats.complexity e = lit "High")
      /\ (20 < Stats.estimated_seconds e <= 60 -> Stats.complexity e = lit "Medium")
      /\ (Stats.estimated_seconds e <= 20 -> Stats.complexity e = lit "Low")
      /\ (size < 524288 -> Stats.estimated_seconds e = 5)).
Proof.
  split; [intros msg; split; reflexivity|].
  intros size Hsize e.
  pose proof (estimated_seconds_formula rounding size file_path Hsize) as Hs.
  fold e in Hs.
  assert (Hc : Stats.complexity e
               = if Stats.estimated_seconds e >? 60 then lit "High"
                 else if Stats.estimated_seconds e >? 20 then lit "Medium"
                 else lit "Low") by reflexivity.
  pose proof (base_time_range (lower (path_suffix file_path))) as Hb.
  repeat split.
  - rewrite Hs. lia.
  - intros H. rewrite Hc.
    replace (Stats.estimated_seconds e >? 60) with true
      by (symmetry; apply Z.gtb_lt; lia). reflexivity.
  - intros H. rewrite Hc.
    replace (Stats.estimated_seconds e >? 60) with false
      by (symmetry; rewrite Z.gtb_ltb; apply Z.ltb_ge; lia).
    replace (Stats.estimated_seconds e >? 20) with true
      by (symmetry; apply Z.gtb_lt; lia). reflexivity.
  - intros H. rewrite Hc.
    replace (Stats.estimated_seconds e >? 60) with false
      by (symmetry; rewrite Z.gtb_ltb; apply Z.ltb_ge; lia).
    replace (Stats.estimated_seconds e >? 20) with false
      by (symmetry; rewrite Z.gtb_ltb; apply Z.ltb_ge; lia). reflexivity.
  - intros Hsmall. rewrite Hs.
    assert (size * AIModels.dict_get Stats.time_estimates
                     (lower (path_suffix file_path)) 8 / 1048576 <= 5).
    { apply Z.lt_succ_r. apply Z.div_lt_upper_bound; nia. }
    lia.
Qed.

(** The theorem at a PDF of 100 MiB: 300 seconds, complexity "High". *)
Lemma estimate_bounds_witness :
  0 <= 104857600
  /\ 60 < Stats.estimated_seconds
            (Stats.estimate_processing_time Fixtures.no_rounding (inr 104857600)
               (lit "big.pdf"))
  /\ Stats.complexity
       (Stats.estimate_processing_time Fixtures.no_rounding (inr 104857600)
          (lit "big.pdf")) = lit "High".
Proof.
  assert (H0 : 0 <= 104857600) by lia.
  assert (H : 60 < Stats.estimated_seconds
                     (Stats.estimate_processing_time Fixtures.no_rounding
                        (inr 104857600) (lit "big.pdf")))
    by (vm_compute; reflexivity).
  split; [exact H0|]. split; [exact H|].
  exact (proj1 (proj2 (proj2 (estimate_bounds Fixtures.no_rounding (lit "big.pdf"))
                         104857600 H0)) H).
Defined.

(** X10.  For files of less than 2^49 bytes (512 TiB) the product of the
    size and the base time stays below 2^53, so that the size in megabytes
    and its product with the base time are exact in binary64 and the source
    computes what is computed here.  For such files the estimated seconds
    do not decrease when the file grows, and they are at most 12 seconds
    per MiB above the minimum of 5. *)
Theorem estimate_monotone (rounding : Stats.Rounding) (file_path : str)
  (size1 size2 : Z) :
  0 <= size1 <= size2 ->
  size2 < 2 ^ 49 ->
  size2 * AIModels.dict_get Stats.time_estimates (lower (path_suffix file_path)) 8
  < 2 ^ 53
  /\ Stats.estimated_seconds
       (Stats.estimate_processing_time rounding (inr size1) file_path)
     <= Stats.estimated_seconds
          (Stats.estimate_processing_time rounding (inr size2) file_path)
  /\ Stats.estimated_seconds
       (Stats.estimate_processing_time rounding (inr size2) file_path)
     <= Z.max 5 (12 * size2 / 1048576).
Proof.
  intros [H1 H2] Hbound. rewrite !estimated_seconds_formula by lia.
  pose proof (base_time_range (lower (path_suffix file_path))) as Hb.
  set (base := AIModels.dict_get _ _ _) in *.
  change (2 ^ 49) with 562949953421312 in Hbound.
  change (2 ^ 53) with 9007199254740992.
  assert (size1 * base / 1048576 <= size2 * base / 1048576)
    by (apply Z.div_le_mono; nia).
  assert (size2 * base / 1048576 <= 12 * size2 / 1048576)
    by (apply Z.div_le_mono; nia).
  split; [nia | lia].
Qed.

(** The theorem at an image of 1 MiB and one of 3 MiB. *)
Lemma estimate_monotone_witness :
  0 <= 1048576 <= 3145728
  /\ 3145728 < 2 ^ 49
  /\ Stats.estimated_seconds
       (Stats.estimate_processing_time Fixtures.no_rounding (inr 1048576) (lit "a.PNG"))
     <= Stats.estimated_seconds
          (Stats.estimate_processing_time Fixtures.no_rounding (inr 3145728) (lit "a.PNG")).
Proof.
  assert (H : 0 <= 1048576 <= 3145728) by lia.
  assert (Hb : 3145728 < 2 ^ 49) by reflexivity.
  split; [exact H|]. split; [exact Hb|].
  exact (proj1 (proj2 (estimate_monotone Fixtures.no_rounding (lit "a.PNG")
                         1048576 3145728 H Hb))).
Defined.

Example estimate_image_3mib :
  Stats.estimated_seconds
    (Stats.estimate_processing_time Fixtures.no_rounding (inr 3145728) (lit "a.PNG"))
  = 24.
Proof. reflexivity. Qed.

(** A suffix that is not in the table counts 8 seconds per MiB. *)
Example estimate_unknown_suffix :
  Stats.estimated_seconds
    (Stats.estimate_processing_time Fixtures.no_rounding (inr 3145728) (lit "a.xyz"))
  = 24.
Proof. reflexivity. Qed.

End ProcessorExtras.

(* ================================================================== *)
(** ** Further properties of [AIModelManager] and [DocumentAnalyzer] *)
(* ================================================================== *)

Module ModelExtras.

Import AIModels.
Import Analyzer.
Import ModelProofs.

(** *** Construction *)

(** X11.  After a construction that succeeds, the flags of
    [models_loaded] tell which models are there: the flag of the embedding
    model is set and the model is the one that was loaded, so that
    [generate_embeddings] runs it; the flags of the summarizer, the QA
    model and the classifier are set exactly when the model is not [None];
    the flag of the language detector is never set. *)
Theorem models_loaded_flags (l : Loaders) (self : AIModelManager) :
  _load_models l = inr self ->
  loaded_flag self "embedding" = true
  /\ (exists m, load_embedding l = inr m /\ embedding_model self = Some m
                /\ forall texts, generate_embeddings self texts = m texts)
  /\ loaded_flag self "summarizer" = present (summarizer self)
  /\ loaded_flag self "qa" = present (qa_model self)
  /\ loaded_flag self "classifier" = present (classifier self)
  /\ loaded_flag self "lang_detector" = false
  /\ lang_detector self = None
  /\ map fst (models_loaded self)
     = [lit "embedding"; lit "summarizer"; lit "qa"; lit "classifier";
        lit "lang_detector"].
Proof.
  destruct l as [[e1|m1] [e2|m2] [e3|m3] [e4|m4]]; cbv; intros [= <-];
    repeat split; eexists; repeat split.
Qed.

(** The theorem at loaders of which the summarizer and the classifier
    fail. *)
Lemma models_loaded_flags_witness :
  exists self,
    _load_models Fixtures.loaders_without_summarizer = inr self
    /\ loaded_flag self "summarizer" = present (summarizer self).
Proof.
  eexists. split; [reflexivity|].
  exact (proj1 (proj2 (proj2 (models_loaded_flags
                                Fixtures.loaders_without_summarizer _ eq_refl)))).
Defined.

(** *** [detect_language] *)

(** Splits on the branches of [lower_char_u], then on every comparison. *)
Ltac lower_cases :=
  unfold lower_char_u;
  repeat match goal with
         | |- context [if ?b then _ else _] =>
             let E := fresh "E" in destruct b eqn:E; revert E
         end;
  unfold between; cbn [existsb];
  ProcessorProofs.split_ranges.

Lemma class_ru_lower (c : char) : class_ru (lower_char_u c) = is_cyrillic c.
Proof. unfold class_ru, is_cyrillic. lower_cases. Qed.

Lemma class_es_lower (c : char) : class_es (lower_char_u c) = is_spanish_accent c.
Proof. unfold class_es, is_spanish_accent. lower_cases. Qed.

Lemma class_fr_lower (c : char) : class_fr (lower_char_u c) = is_french_accent c.
Proof. unfold class_fr, is_french_accent. lower_cases. Qed.

Lemma existsb_lower (class orig : char -> bool) (s : str) :
  (forall c, class (lower_char_u c) = orig c) ->
  re_search class (lower_u s) = existsb orig s.
Proof.
  intros H. unfold re_search, lower_u. induction s as [|c s IH]; simpl;
    [reflexivity|]. now rewrite H, IH.
Qed.

Lemma ascii_in_no_class (c : char) :
  isascii c = true ->
  is_cyrillic c = false /\ class_zh c = false /\ is_spanish_accent c = false
  /\ is_french_accent c = false.
Proof.
  unfold isascii, is_cyrillic, class_zh, is_spanish_accent, is_french_accent,
    between. cbn [existsb].
  intros H. repeat split; revert H; ProcessorProofs.split_ranges.
Qed.

Lemma existsb_none {A : Type} (p q : A -> bool) (l : list A) :
  (forall a, q a = true -> p a = false) ->
  forallb q l = true -> existsb p l = false.
Proof.
  intros H. induction l as [|a l IH]; simpl; [reflexivity|].
  intros Hq. apply andb_prop in Hq as [Ha Hl]. now rewrite (H a Ha), IH.
Qed.

Lemma constructed_without_detector (l : Loaders) (self : AIModelManager) :
  _load_models l = inr self -> lang_detector self = None.
Proof.
  destruct l as [[e1|m1] [e2|m2] [e3|m3] [e4|m4]]; cbv; intros [= <-]; reflexivity.
Qed.

(** X12.  On a manager that construction has produced, [detect_language]
    consults no model.  A blank text gives "unknown".  Any other text
    gives "ru" when it holds a Cyrillic letter of the Russian alphabet
    (capital or small); else "zh" when it holds one of the four characters
    U+4E2D, U+6587, U+6C49, U+8BED; else "es" when it holds one of the
    seven accented letters of the Spanish class (capital or small); else
    "fr" when it holds another accented letter of the French class; else
    "en".  In particular every text of ASCII characters that is not blank
    gives "en", and "unknown" is never the answer for a text that is not
    blank. *)
Theorem detect_language_heuristic (l : Loaders) (self : AIModelManager) (text : str) :
  _load_models l = inr self ->
  (truthy (strip text) = false -> detect_language self text = lit "unknown")
  /\ (truthy (strip text) = true ->
      detect_language self text
      = (if existsb is_cyrillic text then lit "ru"
         else if existsb class_zh text then lit "zh"
         else if existsb is_spanish_accent text then lit "es"
         else if existsb is_french_accent text then lit "fr"
         else lit "en")
      /\ detect_language self text <> lit "unknown"
      /\ (forallb isascii text = true -> detect_language self text = lit "en")).
Proof.
  intros Hself. apply constructed_without_detector in Hself.
  unfold detect_language. rewrite Hself. split.
  - intros ->. reflexivity.
  - intros ->. cbn [negb].
    rewrite (existsb_lower class_ru is_cyrillic text class_ru_lower).
    rewrite (existsb_lower class_es is_spanish_accent text class_es_lower).
    rewrite (existsb_lower class_fr is_french_accent text class_fr_lower).
    unfold re_search.
    split; [reflexivity|]. split.
    + destruct (existsb is_cyrillic text); [discriminate|].
      destruct (existsb class_zh text); [discriminate|].
      destruct (existsb is_spanish_accent text); [discriminate|].
      destruct (existsb is_french_accent text); discriminate.
    + intros Hascii.
      rewrite (existsb_none is_cyrillic isascii text),
              (existsb_none class_zh isascii text),
              (existsb_none is_spanish_accent isascii text),
              (existsb_none is_french_accent isascii text);
        try assumption; try reflexivity;
        intros c Hc; now apply ascii_in_no_class in Hc.
Qed.

(** The theorem at a text that holds a capital and a small Cyrillic
    letter and an accented letter. *)
Lemma detect_language_heuristic_witness :
  truthy (strip ([1055; 1088] ++ lit " caf" ++ [233])) = true
  /\ exists self,
       _load_models Fixtures.loaders_without_summarizer = inr self
       /\ detect_language self ([1055; 1088] ++ lit " caf" ++ [233]) = lit "ru".
Proof.
  split; [reflexivity|]. eexists. split; [reflexivity|].
  exact (proj1 (proj2 (detect_language_heuristic Fixtures.loaders_without_summarizer
                         _ ([1055; 1088] ++ lit " caf" ++ [233]) eq_refl)
                 eq_refl)).
Defined.

(** The accented [e] of both classes counts as Spanish; a grave accent as
    French; Devanagari as English. *)
Example detect_cafe :
  detect_language Fixtures.bare_manager (lit "caf" ++ [233]) = lit "es".
Proof. reflexivity. Qed.

Example detect_grave :
  detect_language Fixtures.bare_manager (lit "tr" ++ [200] ++ lit "s") = lit "fr".
Proof. reflexivity. Qed.

Example detect_devanagari :
  detect_language Fixtures.bare_manager [2351; 2361] = lit "en".
Proof. reflexivity. Qed.

(** *** Sentiment and summaries: what comes back when inference fails *)

(** X13.  [analyze_sentiment] never raises.  When the classifier is not
    there, raises, or returns no result, the answer is the dictionary with
    sentiment "neutral", confidence 0.0, analysis "error" and the message
    of the error; otherwise it carries the label and the score of the first
    result. *)
Theorem analyze_sentiment_failures (self : AIModelManager) (text : str) :
  let run := analyze_sentiment self text in
  (exists d, outcome run = inr d)
  /\ (classifier self = None ->
      run = (inr (sentiment_error (lit "'NoneType' object is not callable")), []))
  /\ (forall f, classifier self = Some f ->
      trace run = [CallClassifier (firstn 500 text)]
      /\ (forall e, f (firstn 500 text) = inl e ->
                    outcome run = inr (sentiment_error (exn_str e)))
      /\ (f (firstn 500 text) = inr [] ->
          exists msg, outcome run = inr (sentiment_error msg))
      /\ (forall r rest, f (firstn 500 text) = inr (r :: rest) ->
            outcome run
            = inr [(lit "sentiment", VStr (label r));
                   (lit "confidence", VFloat (label_score r));
                   (lit "analysis", VStr (lit "multilingual_sentiment"))])).
Proof.
  cbv zeta. unfold analyze_sentiment. rewrite slice_from_0.
  split; [|split].
  - apply (try_except_returns _ (fun e => sentiment_error (exn_str e))).
  - intros ->. reflexivity.
  - intros f ->. unfold call_classifier, invoke.
    destruct (f (firstn 500 text)) as [e|[|r rest]]; repeat split;
      try discriminate; try (intros ? [= <-]; reflexivity);
      try (intros ? ? [= <- <-]; reflexivity).
    intros _. eexists. reflexivity.
Qed.

(** The theorem at the manager without classifier. *)
Lemma analyze_sentiment_failures_witness :
  classifier Fixtures.bare_manager = None
  /\ analyze_sentiment Fixtures.bare_manager (lit "fine")
     = (inr (sentiment_error (lit "'NoneType' object is not callable")), []).
Proof.
  split; [reflexivity|].
  exact (proj1 (proj2 (analyze_sentiment_failures Fixtures.bare_manager (lit "fine")))
           eq_refl).
Defined.


(** A summarizer that raises on the second chunk: the error response. *)
Example summarize_failing_chunk :
  summarize_text
    {| embedding_model := None;
       summarizer := Some (fun t _ _ => if len t <? 1000
                                        then raise (LibError (lit "index out of range"))
                                        else ok [firstn 3 t]);
       qa_model := None; classifier := None; lang_detector := None;
       models_loaded := [] |}
    Fixtures.long_text 150 50 (lit "en")
  = (inr {| content := lit "Error generating summary: index out of range";
            confidence := 0;
            metadata := [(lit "error", VStr (lit "index out of range"))] |},
     [CallSummarizer (repeat 97 1000) 75 25; CallSummarizer [97] 75 25]).
Proof. vm_compute. reflexivity. Qed.

(** *** Chunks of a summary *)

Lemma chunks_of_count {A : Type} (text : list A) :
  len (chunks_of text 1000 1000) = (len text + 999) / 1000.
Proof.
  unfold chunks_of, range_step, len. rewrite !length_map, length_seq.
  replace (List.length text + 1000 - 1)%nat with (List.length text + 999)%nat by lia.
  rewrite Nat2Z.inj_div, Nat2Z.inj_add. reflexivity.
Qed.

(** The calls of a loop stop with the first one that raises. *)
Lemma for_each_trace_prefix {A B : Type} (body : A -> M B) (c : A -> call)
  (l : list A) :
  (forall a, trace (body a) = [c a]) ->
  exists k, (k <= List.length l)%nat
    /\ (l <> [] -> (1 <= k)%nat)
    /\ trace (for_each body l) = firstn k (map c l)
    /\ (forall bs, outcome (for_each body l) = inr bs -> k = List.length l).
Proof.
  intros Hbody. induction l as [|a l IH].
  - exists 0%nat. repeat split; auto. intros H. now contradiction H.
  - destruct IH as (k & Hk & _ & Htr & Hok).
    specialize (Hbody a). unfold trace, outcome in *. cbn [for_each].
    destruct (body a) as [[e|b] t]; cbn [snd] in Hbody; subst t.
    + exists 1%nat. cbn [bind fst snd firstn map List.length].
      repeat split; auto; [lia | discriminate].
    + rewrite bind_inr. cbv beta.
      destruct (for_each body l) as [[e|bs] t']; cbn [fst snd] in *.
      * exists (S k). cbn [bind fst snd firstn map List.length app].
        rewrite Htr. repeat split; auto; [lia | lia | discriminate].
      * exists (S k). cbn [bind ret fst snd firstn map List.length app].
        rewrite app_nil_r, Htr. repeat split; auto; [lia | lia |].
        intros bs' _. f_equal. now apply (Hok bs).
Qed.



(** A negative target length is handed on, floor-divided. *)
Example summarize_negative_target :
  trace (summarize_text Fixtures.manager Fixtures.long_text (-1) 0 (lit "en"))
  = [CallSummarizer (repeat 97 1000) (-1) 0; CallSummarizer [97] (-1) 0;
     CallSummarizer (lit "aaa a") (-1) 0].
Proof. vm_compute. reflexivity. Qed.

(** *** Windows of a context *)

Lemma slice_slice {A : Type} (l : list A) (s e i j : nat) :
  (s + j <= e)%nat ->
  slice (slice l s e) i j = slice l (s + i) (s + j).
Proof.
  intros H. unfold slice.
  rewrite skipn_firstn_comm, firstn_firstn, skipn_skipn.
  f_equal; [lia | f_equal; lia].
Qed.

(** X16.  The windows of [answer_question] leave no span of the context
    uncovered: there are ceil(length / 1000) of them, and every stretch of
    up to 1000 characters of the context, wherever it starts, lies as a
    whole inside one window (the window that starts at the last multiple
    of 1000 before it). *)
Theorem windows_cover_spans {A : Type} (context : list A) (a b : nat) :
  (a <= b)%nat -> (b - a <= 1000)%nat -> (a < List.length context)%nat ->
  let windows := chunks_of context 2000 1000 in
  let k := (a / 1000)%nat in
  List.length windows = ((List.length context + 999) / 1000)%nat
  /\ (k < List.length windows)%nat
  /\ slice (nth k windows []) (a - k * 1000) (b - k * 1000) = slice context a b.
Proof.
  intros Hab Hspan Ha windows k. subst windows.
  pose proof (windows_count context) as Hcount.
  pose proof (Nat.div_mod_eq a 1000) as Hk. fold k in Hk.
  pose proof (Nat.mod_upper_bound a 1000 ltac:(lia)) as Hr.
  pose proof (Nat.div_mod_eq (List.length context + 999) 1000) as Hn.
  pose proof (Nat.mod_upper_bound (List.length context + 999) 1000 ltac:(lia)) as Hnr.
  assert (Hklt : (k < List.length (chunks_of context 2000 1000))%nat).
  { rewrite Hcount. nia. }
  split; [exact Hcount|]. split; [exact Hklt|].
  rewrite chunks_of_nth by exact Hklt.
  rewrite slice_slice by lia.
  f_equal; lia.
Qed.

(** The theorem at the context of 2500 characters and the stretch from
    1500 to 2400, which crosses the end of the first window. *)
Lemma windows_cover_spans_witness :
  slice (nth 1 (chunks_of Fixtures.long_context 2000 1000) []) 500 1400
  = slice Fixtures.long_context 1500 2400.
Proof.
  exact (proj2 (proj2 (windows_cover_spans Fixtures.long_context 1500 2400
                         ltac:(lia) ltac:(simpl; lia)
                         ltac:(vm_compute; lia)))).
Defined.

Lemma qa_loop_score (f : QAModel) (question : str) (chunks : list str)
  (b b' : option QAResult) (s s' : Q) :
  outcome (qa_loop f question chunks (b, s)) = inr (b', s') -> (s <= s')%Q.
Proof.
  revert b s. induction chunks as [|chunk chunks IH]; intros b s.
  - simpl. intros [= _ <-]. apply Qle_refl.
  - cbn [qa_loop]. unfold call_qa, invoke.
    destruct (f question chunk) as [e|result]; [discriminate|].
    rewrite bind_inr. cbn [outcome fst snd].
    destruct (Qgtb (score result) s) eqn:Hgt; intros H.
    + apply ProcessorProofs.Qgtb_lt in Hgt. apply IH in H.
      apply Qlt_le_weak. now apply Qlt_le_trans with (score result).
    + now apply IH in H.
Qed.

(** X17.  [answer_question] never raises.  On a context longer than 2000
    characters the confidence of the response is never negative (a window
    must score above 0 to be kept, and every failure gives 0).  On a
    shorter context the model is called once on the whole context, and its
    answer and score are passed on as they are. *)
Theorem answer_question_confidence (self : AIModelManager)
  (question context language : str) :
  let run := answer_question self question context language in
  exists r,
    outcome run = inr r
    /\ (2000 < len context -> (0 <= confidence r)%Q)
    /\ (len context <= 2000 ->
        forall f, qa_model self = Some f ->
          trace run = [CallQA question context]
          /\ forall res, f question context = inr res ->
               r = answer_response question language (answer res) (score res)).
Proof.
  cbv zeta. unfold answer_question. destruct (qa_model self) as [f|].
  - destruct (Z.ltb_spec 2000 (len context)) as [Hlong|Hshort].
    + replace (len context >? Z.of_nat 2000) with true
        by (symmetry; apply Z.gtb_lt; lia).
      destruct (qa_loop f question (chunks_of context 2000 (2000 / 2)) (None, 0%Q))
        as [[e|[b s]] t] eqn:Hloop.
      * eexists. split; [reflexivity|]. split; [|intros; lia].
        intros _. apply Qle_refl.
      * assert (Hs : (0 <= s)%Q).
        { apply (qa_loop_score f question (chunks_of context 2000 (2000 / 2))
                   None b 0%Q s). now rewrite Hloop. }
        eexists. split; [reflexivity|]. split; [|intros; lia].
        intros _. destruct b; simpl; [exact Hs | apply Qle_refl].
    + replace (len context >? Z.of_nat 2000) with false
        by (symmetry; rewrite Z.gtb_ltb; apply Z.ltb_ge; lia).
      unfold call_qa, invoke.
      destruct (f question context) as [e|res] eqn:Hf; eexists;
        (split; [reflexivity|]); (split; [intros; lia|]);
        intros _ f' [= <-]; (split; [reflexivity|]); intros res'; rewrite Hf.
      * discriminate.
      * intros [= <-]. reflexivity.
  - eexists. split; [reflexivity|]. split; [intros _; apply Qle_refl|].
    intros _ f [=].
Qed.

(** A model that scores below zero: on a short context its score is passed
    on, on a long context the placeholder answers. *)
Example negative_score_short :
  outcome (answer_question
             {| embedding_model := None; summarizer := None;
                qa_model := Some (fun _ c => ok {| answer := firstn 1 c;
                                                   score := - (1 # 2) |});
                classifier := None; lang_detector := None; models_loaded := [] |}
             (lit "q") (lit "context") (lit "en"))
  = inr (answer_response (lit "q") (lit "en") (lit "c") (- (1 # 2))).
Proof. reflexivity. Qed.

Example negative_score_long :
  outcome (answer_question
             {| embedding_model := None; summarizer := None;
                qa_model := Some (fun _ c => ok {| answer := firstn 1 c;
                                                   score := - (1 # 2) |});
                classifier := None; lang_detector := None; models_loaded := [] |}
             (lit "q") Fixtures.long_context (lit "en"))
  = inr (answer_response (lit "q") (lit "en") (lit "No answer found") 0).
Proof. vm_compute. reflexivity. Qed.

(** *** Key phrases: what the vectorizer is given, and [top_k] = 0 *)

Lemma re_split_pieces (s : str) (in_sep : bool) :
  Forall (fun piece => forallb (fun c => negb (is_terminal c)) piece = true)
         (re_split s in_sep).
Proof.
  revert in_sep. induction s as [|c s IH]; intros in_sep; simpl.
  - repeat constructor.
  - destruct (is_terminal c) eqn:Hc.
    + destruct in_sep; [apply IH | constructor; [reflexivity | apply IH]].
    + specialize (IH false). destruct (re_split s false) as [|h t]; simpl.
      * constructor; [simpl; now rewrite Hc | constructor].
      * inversion IH; subst. constructor; [simpl; now rewrite Hc|assumption].
Qed.

Lemma in_strip (c : char) (s : str) : In c (strip s) -> In c s.
Proof.
  unfold strip. intros H.
  destruct (ProcessorProofs.rstrip_prefix (lstrip s)) as [post Hpost].
  destruct (ProcessorProofs.lstrip_suffix s) as [pre Hpre].
  rewrite Hpre. apply in_or_app. right. rewrite Hpost. apply in_or_app. now left.
Qed.

Lemma sentences_plain (text : str) : Forall plain (sentences_of text).
Proof.
  unfold sentences_of. apply Forall_forall. intros s Hs.
  apply in_map_iff in Hs as (piece & <- & Hpiece).
  apply filter_In in Hpiece as [Hin Hnb].
  pose proof (re_split_pieces text false) as Hall.
  rewrite Forall_forall in Hall. specialize (Hall piece Hin).
  repeat split.
  - exact Hnb.
  - apply ProcessorProofs.strip_strip.
  - apply forallb_forall. intros c Hc. apply in_strip in Hc.
    rewrite forallb_forall in Hall. now apply Hall.
Qed.

Lemma pick_trace (names : list str) (scores : list Q) (idx : list nat) :
  trace (pick names scores idx) = [].
Proof.
  unfold trace. induction idx as [|i idx IH]; simpl; [reflexivity|].
  destruct (nth_error scores i) as [sc|]; [|reflexivity].
  destruct (Qgtb sc 0); [|exact IH].
  destruct (nth_error names i) as [name|]; [|reflexivity].
  unfold bind. destruct (pick names scores idx) as [[e|ns] t]; simpl in *;
    now rewrite IH.
Qed.

Lemma key_phrases_trace (libs : Libs) (text : str) (top_k : Z) :
  trace (extract_key_phrases libs text top_k) = []
  \/ (trace (extract_key_phrases libs text top_k)
      = [CallVectorizer (sentences_of text)]
      /\ 2 <= len (sentences_of text)).
Proof.
  unfold extract_key_phrases, lift.
  destruct (import_sklearn libs) as [e|[]]; [left; reflexivity|].
  rewrite bind_inr. cbv beta.
  destruct (Z.ltb_spec (len (sentences_of text)) 2) as [Hfew|Hmany];
    [left; reflexivity|].
  right. split; [|exact Hmany]. unfold invoke.
  destruct (fit_transform libs (sentences_of text)) as [e|[names matrix]];
    [reflexivity|].
  rewrite bind_inr. cbv beta iota.
  match goal with
  | |- context [pick ?a ?b ?c] =>
      pose proof (pick_trace a b c) as Hp; destruct (pick a b c) as [[e|ns] t]
  end; unfold trace in *; simpl in *; now rewrite Hp.
Qed.

(** X18.  Whenever [extract_key_phrases] calls the vectorizer, it gives it
    the sentences of the text: at least two, none of them blank, each
    without blanks at its ends and without any of the characters [.], [!],
    [?].  It calls the vectorizer at most once. *)
Theorem vectorizer_input (libs : Libs) (text : str) (top_k : Z)
  (sentences : list str) :
  In (CallVectorizer sentences) (trace (extract_key_phrases libs text top_k)) ->
  trace (extract_key_phrases libs text top_k) = [CallVectorizer sentences]
  /\ 2 <= len sentences
  /\ Forall plain sentences.
Proof.
  intros Hin.
  destruct (key_phrases_trace libs text top_k) as [Hnone|[Hone Hmany]].
  - rewrite Hnone in Hin. contradiction.
  - rewrite Hone in Hin. destruct Hin as [[= <-]|[]].
    split; [exact Hone|]. split; [exact Hmany | apply sentences_plain].
Qed.

(** The theorem at a text of two sentences. *)
Lemma vectorizer_input_witness :
  In (CallVectorizer [lit "Cats purr"; lit "Dogs bark"])
     (trace (extract_key_phrases Fixtures.small_libs (lit "Cats purr. Dogs bark.") 2))
  /\ Forall plain [lit "Cats purr"; lit "Dogs bark"].
Proof.
  assert (H : In (CallVectorizer [lit "Cats purr"; lit "Dogs bark"])
                (trace (extract_key_phrases Fixtures.small_libs
                          (lit "Cats purr. Dogs bark.") 2)))
    by (vm_compute; left; reflexivity).
  split; [exact H|].
  exact (proj2 (proj2 (vectorizer_input _ _ _ _ H))).
Defined.

(** X19.  With [top_k] = 0 nothing is cut off ([order[-0:]] is the whole
    list): [extract_key_phrases] returns the names of all the features
    with a positive mean score, so that a request for zero phrases gives
    the longest answer. *)
Theorem top_k_zero_returns_all (libs : Libs) (text : str)
  (names : list str) (matrix : list (list Q)) :
  import_sklearn libs = inr tt ->
  2 <= len (sentences_of text) ->
  fit_transform libs (sentences_of text) = inr (names, matrix) ->
  let scores := mean_axis0 (List.length names) matrix in
  let order := argsort libs scores in
  (forall i, In i order <-> (i < List.length names)%nat) ->
  outcome (extract_key_phrases libs text 0)
  = inr (map (fun i => nth i names [])
             (filter (fun i => Qgtb (score_at scores i) 0) (rev order)))
  /\ (forall j phrases,
        outcome (extract_key_phrases libs text 0) = inr phrases ->
        (j < List.length names)%nat -> (0 < score_at scores j)%Q ->
        In (nth j names []) phrases).
Proof.
  intros Himp Hmany Hfit scores order Hrange.
  assert (Hrun : outcome (extract_key_phrases libs text 0)
                 = inr (map (fun i => nth i names [])
                            (filter (fun i => Qgtb (score_at scores i) 0)
                                    (rev order)))).
  { unfold extract_key_phrases, lift. rewrite Himp, bind_inr. cbv beta.
    replace (len (sentences_of text) <? 2) with false
      by (symmetry; apply Z.ltb_ge; lia).
    unfold invoke. rewrite Hfit, bind_inr. cbv beta iota.
    fold scores. fold order.
    replace (slice_last 0 order) with order
      by (unfold slice_last; simpl; destruct (len order); reflexivity).
    rewrite pick_in_range; [reflexivity | apply mean_axis0_length |].
    apply Forall_forall. intros i Hi. rewrite <- in_rev in Hi. now apply Hrange. }
  split; [exact Hrun|].
  intros j phrases Hp Hj Hpos. rewrite Hrun in Hp. injection Hp as <-.
  apply (in_map (fun i => nth i names [])). apply filter_In. split.
  - rewrite <- in_rev. now apply Hrange.
  - unfold Qgtb. apply negb_true_iff. destruct (Qle_bool _ _) eqn:E; [|reflexivity].
    apply Qle_bool_iff in E. exfalso. now apply (Qlt_not_le _ _ Hpos).
Qed.

(** The theorem at two sentences and three features, two of them with a
    positive mean score. *)
Lemma top_k_zero_returns_all_witness :
  outcome (extract_key_phrases Fixtures.small_libs (lit "Cats purr. Dogs bark.") 0)
  = inr [lit "cat"; lit "dog"].
Proof.
  exact (proj1 (top_k_zero_returns_all Fixtures.small_libs
                  (lit "Cats purr. Dogs bark.")
                  [lit "cat"; lit "dog"; lit "the"]
                  [[1 # 2; 0; 0]; [1 # 2; 1 # 4; 0]]%Q
                  eq_refl
                  ltac:(apply Z.leb_le; vm_compute; reflexivity)
                  eq_refl
                  ltac:(intro i; vm_compute; lia))).
Defined.

(** *** [generate_document_summary] *)

Lemma page_get_append (d : list (Z * list str)) (k p : Z) (t : str) :
  page_get (page_append d k t) p
  = if k =? p then page_get d p ++ [t] else page_get d p.
Proof.
  induction d as [|[k' ts] d IH]; simpl.
  - destruct (k =? p); reflexivity.
  - destruct (Z.eqb_spec k' k) as [->|Hk]; simpl.
    + destruct (k =? p); reflexivity.
    + destruct (Z.eqb_spec k' p) as [->|Hp]; [|exact IH].
      destruct (Z.eqb_spec k p); [lia | reflexivity].
Qed.

Lemma page_append_keys (d : list (Z * list str)) (k : Z) (t : str) :
  (forall p, In p (map fst (page_append d k t)) <-> p = k \/ In p (map fst d))
  /\ (NoDup (map fst d) -> NoDup (map fst (page_append d k t))).
Proof.
  induction d as [|[k' ts] d [IHin IHnd]]; simpl.
  - split; [intros p; intuition | intros _; repeat constructor; auto].
  - destruct (Z.eqb_spec k' k) as [->|Hk]; simpl.
    + split; [intros p; intuition | auto].
    + split.
      * intros p. rewrite IHin. intuition.
      * intros Hnd. inversion Hnd as [|? ? Hnotin Hnd']; subst.
        constructor; [|auto]. rewrite IHin. intros [Heq|Hin]; [lia | auto].
Qed.

(** The state of the loop of [generate_document_summary] after a list of
    elements. *)
Lemma collect_loop (els : list DocumentProcessor.DocumentElement)
  (all_text : list str) (page_info : list (Z * list str)) :
  exists page_info',
    fold_left collect_step els (all_text, page_info)
    = (all_text ++ texts_of els, page_info')
    /\ (forall p, page_get page_info' p = page_get page_info p ++ page_texts els p)
    /\ (forall p, In p (map fst page_info')
                  <-> In p (map fst page_info)
                      \/ exists e, In e els /\ nonblank e = true
                                   /\ DocumentProcessor.page_number e = p)
    /\ (NoDup (map fst page_info) -> NoDup (map fst page_info')).
Proof.
  revert all_text page_info. induction els as [|e els IH]; intros all_text page_info.
  - exists page_info. unfold texts_of, page_texts. simpl.
    rewrite !app_nil_r. repeat split; auto.
    + intros p. now rewrite app_nil_r.
    + intros [H|(e & [] & _)]. exact H.
  - cbn [fold_left]. unfold collect_step at 2.
    unfold texts_of, page_texts. cbn [filter]. fold (nonblank e).
    destruct (nonblank e) eqn:He.
    + destruct (IH (all_text ++ [DocumentProcessor.text e])
                  (page_append page_info (DocumentProcessor.page_number e)
                               (DocumentProcessor.text e)))
        as (pi' & Hfold & Hget & Hkeys & Hnd).
      exists pi'. rewrite Hfold. cbn [map]. rewrite <- app_assoc.
      split; [reflexivity|]. split; [|split].
      * intros p. rewrite Hget, page_get_append. cbn [andb].
        unfold page_texts.
        destruct (DocumentProcessor.page_number e =? p); cbn [map];
          [now rewrite <- app_assoc | reflexivity].
      * intros p. rewrite Hkeys.
        rewrite (proj1 (page_append_keys page_info _ _) p).
        split.
        -- intros [[->|H]|(e' & Hin & Hnb & Hp)].
           ++ right. exists e. simpl. auto.
           ++ now left.
           ++ right. exists e'. simpl. auto.
        -- intros [H|(e' & [<-|Hin] & Hnb & Hp)].
           ++ left. now right.
           ++ left. left. now symmetry.
           ++ right. exists e'. auto.
      * intros H. apply Hnd. now apply page_append_keys.
    + destruct (IH all_text page_info) as (pi' & Hfold & Hget & Hkeys & Hnd).
      exists pi'. rewrite Hfold. split; [reflexivity|]. split; [|split].
      * intros p. rewrite Hget. reflexivity.
      * intros p. rewrite Hkeys. split.
        -- intros [H|(e' & Hin & Hnb & Hp)]; [auto|].
           right. exists e'. auto with datatypes.
        -- intros [H|(e' & [<-|Hin] & Hnb & Hp)]; [auto | congruence | eauto].
      * exact Hnd.
Qed.

Lemma insert_key_in (k x : Z) (l : list Z) :
  In x (insert_key k l) <-> x = k \/ In x l.
Proof.
  induction l as [|y l IH]; simpl; [intuition|].
  destruct (k <=? y); simpl; [intuition|]. rewrite IH. intuition.
Qed.

Lemma insert_key_sorted (k : Z) (l : list Z) :
  StronglySorted Z.lt l -> ~ In k l -> StronglySorted Z.lt (insert_key k l).
Proof.
  induction 1 as [|y l Hs IH Hy]; intros Hk; simpl.
  - repeat constructor.
  - destruct (Z.leb_spec k y) as [Hle|Hgt].
    + assert (k < y) by (assert (k <> y) by (intros ->; apply Hk; now left); lia).
      constructor; [now constructor|].
      constructor; [assumption|].
      eapply Forall_impl; [|exact Hy]. simpl. intros z Hz. lia.
    + constructor.
      * apply IH. intros Hin. apply Hk. now right.
      * apply Forall_forall. intros z Hz. apply insert_key_in in Hz as [->|Hz];
          [lia|]. rewrite Forall_forall in Hy. now apply Hy.
Qed.

Lemma insert_key_length (k : Z) (l : list Z) :
  List.length (insert_key k l) = S (List.length l).
Proof.
  induction l as [|y l IH]; simpl; [reflexivity|].
  destruct (k <=? y); simpl; [reflexivity | now rewrite IH].
Qed.

(** [sorted] of keys without repetition: the same keys, ascending. *)
Lemma sorted_keys (keys : list Z) :
  NoDup keys ->
  StronglySorted Z.lt (sorted keys)
  /\ (forall p, In p (sorted keys) <-> In p keys)
  /\ List.length (sorted keys) = List.length keys.
Proof.
  unfold sorted. induction 1 as [|k keys Hk _ (IHs & IHin & IHlen)]; simpl.
  - split; [constructor|]. split; [intuition | reflexivity].
  - split; [|split].
    + apply insert_key_sorted; [exact IHs | now rewrite IHin].
    + intros p. rewrite insert_key_in, IHin. intuition.
    + now rewrite insert_key_length, IHlen.
Qed.

Lemma summarize_text_returns (self : AIModelManager) (text : str)
  (max_length min_length : Z) (language : str) :
  exists r, outcome (summarize_text self text max_length min_length language) = inr r.
Proof.
  unfold summarize_text. destruct (summarizer self) as [f|].
  - apply (try_except_returns _
             (fun e => {| content := lit "Error generating summary: " ++ exn_str e;
                          confidence := 0;
                          metadata := [(lit "error", VStr (exn_str e))] |})).
  - eexists. reflexivity.
Qed.

(** X20.  When no element has text that is not blank (in particular for no
    elements at all), [generate_document_summary] returns "No text content
    found in document." and calls no model.  A [summary_length] other than
    "short", "medium" and "long" is treated as "medium". *)
Theorem summary_without_text (self : AIModelManager)
  (elements : list DocumentProcessor.DocumentElement) (summary_length : str) :
  (forallb (fun e => negb (nonblank e)) elements = true ->
   generate_document_summary self elements summary_length
   = (inr (lit "No text content found in document."), []))
  /\ (~ In summary_length [lit "short"; lit "medium"; lit "long"] ->
      generate_document_summary self elements summary_length
      = generate_document_summary self elements (lit "medium")).
Proof.
  split.
  - intros Hblank. unfold generate_document_summary.
    destruct (collect_loop elements [] []) as (pi' & -> & _).
    assert (Hnone : texts_of elements = []).
    { unfold texts_of. clear pi'. induction elements as [|e els IH]; [reflexivity|].
      simpl in *. apply andb_prop in Hblank as [He Hels].
      destruct (nonblank e); [discriminate | now apply IH]. }
    rewrite Hnone. reflexivity.
  - intros Hout. unfold generate_document_summary, length_config.
    destruct (str_eqb summary_length (lit "short")) eqn:E1;
      [apply ProcessorProofs.str_eqb_eq in E1; exfalso; apply Hout; simpl; auto|].
    destruct (str_eqb summary_length (lit "medium")) eqn:E2;
      [apply ProcessorProofs.str_eqb_eq in E2; exfalso; apply Hout; simpl; auto|].
    destruct (str_eqb summary_length (lit "long")) eqn:E3;
      [apply ProcessorProofs.str_eqb_eq in E3; exfalso; apply Hout; simpl; auto|].
    reflexivity.
Qed.

(** The theorem at a document whose only element is blank. *)
Lemma summary_without_text_witness :
  generate_document_summary Fixtures.manager
    [DocumentProcessor.mkElement (lit "  ") 1 (lit "paragraph") (0, 0, 0, 0)%Q 1
       None None]
    (lit "medium")
  = (inr (lit "No text content found in document."), []).
Proof.
  apply (proj1 (summary_without_text Fixtures.manager _ (lit "medium"))).
  reflexivity.
Defined.

(** X21.  When some element has text that is not blank,
    [generate_document_summary] summarizes the texts that are not blank,
    joined by blanks in the order of the elements, with the target lengths
    of the chosen configuration (one of 100/30, 200/50, 400/100); it makes
    the calls of that one [summarize_text] and no other.  Its result is
    the content of the response, an empty line, the number of pages with
    content, and one line for each such page, by ascending page number and
    each page once, with the first 100 characters of the texts of the page.
    It never raises. *)
Theorem document_summary_text (self : AIModelManager)
  (elements : list DocumentProcessor.DocumentElement) (summary_length : str) :
  texts_of elements <> [] ->
  let config := length_config summary_length in
  let inner := summarize_text self (join (lit " ") (texts_of elements))
                 (fst config) (snd config) (lit "en") in
  exists r pages,
    outcome inner = inr r
    /\ generate_document_summary self elements summary_length
       = (inr (content r ++ newline ++ newline
               ++ lit "Document contains " ++ str_of_Z (len pages)
               ++ lit " page(s) with content distributed across:" ++ newline
               ++ List.concat (map (page_preview elements) pages)),
          trace inner)
    /\ StronglySorted Z.lt pages
    /\ (forall p, In p pages
                  <-> exists e, In e elements /\ nonblank e = true
                                /\ DocumentProcessor.page_number e = p)
    /\ In config [(100, 30); (200, 50); (400, 100)].
Proof.
  intros Hsome. cbv zeta.
  assert (Hconfig : In (length_config summary_length)
                       [(100, 30); (200, 50); (400, 100)]).
  { unfold length_config.
    destruct (str_eqb _ _); [simpl; auto|].
    destruct (str_eqb _ _); [simpl; auto|].
    destruct (str_eqb _ _); simpl; auto. }
  destruct (length_config summary_length) as [mx mn] eqn:Hc. cbn [fst snd].
  destruct (summarize_text_returns self (join (lit " ") (texts_of elements))
              mx mn (lit "en")) as [r Hr].
  destruct (collect_loop elements [] []) as (pi' & Hfold & Hget & Hkeys & Hnd).
  specialize (Hnd (NoDup_nil Z)).
  destruct (sorted_keys (map fst pi') Hnd) as (Hsorted & Hin & Hlen).
  exists r, (sorted (map fst pi')).
  split; [exact Hr|]. split; [|split; [|split]].
  - unfold generate_document_summary. rewrite Hfold. cbn [app].
    destruct (texts_of elements) as [|t ts] eqn:Ht; [contradiction|].
    cbn [truthy negb]. rewrite <- Ht in *. rewrite Hc.
    destruct (summarize_text self (join (lit " ") (texts_of elements)) mx mn
                (lit "en")) as [[e|r'] tr]; [discriminate|].
    cbn [outcome fst] in Hr. injection Hr as ->.
    rewrite bind_inr. cbv beta. cbn [trace snd fst ret try_except].
    rewrite app_nil_r. f_equal. f_equal.
    replace (len pi') with (len (sorted (map fst pi')))
      by (unfold len; now rewrite Hlen, length_map).
    rewrite <- !app_assoc.
    repeat match goal with |- _ ++ _ = _ ++ _ => f_equal end.
    f_equal. apply map_ext. intros p. unfold page_line, page_preview.
    now rewrite Hget, slice_from_0, <- !app_assoc.
  - exact Hsorted.
  - intros p. rewrite Hin, Hkeys. simpl. intuition.
  - exact Hconfig.
Qed.

(** The theorem at the elements of the DOCX with a table. *)
Lemma document_summary_text_witness :
  texts_of (DocumentProcessor.elements
              (Fixtures.document_of Fixtures.fs_table "Table.DOCX")) <> []
  /\ exists r,
       outcome (summarize_text Fixtures.manager
                  (join (lit " ")
                     (texts_of (DocumentProcessor.elements
                                  (Fixtures.document_of Fixtures.fs_table "Table.DOCX"))))
                  200 50 (lit "en")) = inr r.
Proof.
  assert (H : texts_of (DocumentProcessor.elements
                          (Fixtures.document_of Fixtures.fs_table "Table.DOCX")) <> [])
    by (vm_compute; intro H; discriminate H).
  split; [exact H|].
  destruct (document_summary_text Fixtures.manager _ (lit "medium") H)
    as (r & pages & Hr & _).
  exists r. exact Hr.
Defined.

(** The summary of the DOCX with a table, with the summarizer that keeps
    three characters. *)
Example summary_of_table_document :
  outcome (generate_document_summary Fixtures.manager
             (DocumentProcessor.elements
                (Fixtures.document_of Fixtures.fs_table "Table.DOCX"))
             (lit "short"))
  = inr (lit "Tit" ++ newline ++ newline
         ++ lit "Document contains 1 page(s) with content distributed across:"
         ++ newline
         ++ lit "Page 1: Title Body A | B" ++ newline ++ lit "C | D..." ++ newline).
Proof. vm_compute. reflexivity. Qed.

(** *** [analyze_document_structure] *)

Lemma scan_loop (self : AIModelManager)
  (els : list DocumentProcessor.DocumentElement)
  (types langs : list (str * Z)) (all_text : list str) :
  exists types' langs',
    fold_left (scan_step self) els (types, langs, all_text)
    = (types', langs', all_text ++ texts_of els)
    /\ (forall k, dict_get types' k 0
                  = dict_get types k 0 + count_where (has_kind k) els)
    /\ dict_total types' = dict_total types + len els
    /\ dict_total langs' = dict_total langs + count_where nonblank els.
Proof.
  revert types langs all_text.
  induction els as [|e els IH]; intros types langs all_text.
  - exists types, langs. unfold texts_of, count_where, len. simpl.
    rewrite app_nil_r. repeat split; intros; lia.
  - cbn [fold_left]. unfold scan_step at 2. fold (nonblank e).
    unfold texts_of. cbn [filter].
    destruct (nonblank e) eqn:He.
    + destruct (IH (Stats.dict_incr types (DocumentProcessor.element_type e))
                  (Stats.dict_incr langs
                     (detect_language self (DocumentProcessor.text e)))
                  (all_text ++ [DocumentProcessor.text e]))
        as (types' & langs' & Hfold & Hk & Ht & Hl).
      exists types', langs'. rewrite Hfold. cbn [map]. rewrite <- app_assoc.
      split; [reflexivity|]. split; [|split].
      * intros k. rewrite Hk, ProcessorExtras.dict_get_incr,
          ProcessorExtras.len_filter_cons. 
        change (has_kind k e) with (str_eqb (DocumentProcessor.element_type e) k).
        lia.
      * rewrite Ht, ProcessorExtras.dict_total_incr. unfold len.
        simpl List.length. lia.
      * rewrite Hl, ProcessorExtras.dict_total_incr,
          ProcessorExtras.len_filter_cons, He. lia.
    + destruct (IH (Stats.dict_incr types (DocumentProcessor.element_type e))
                  langs all_text)
        as (types' & langs' & Hfold & Hk & Ht & Hl).
      exists types', langs'. rewrite Hfold.
      split; [reflexivity|]. split; [|split].
      * intros k. rewrite Hk, ProcessorExtras.dict_get_incr,
          ProcessorExtras.len_filter_cons. 
        change (has_kind k e) with (str_eqb (DocumentProcessor.element_type e) k).
        lia.
      * rewrite Ht, ProcessorExtras.dict_total_incr. unfold len.
        simpl List.length. lia.
      * rewrite Hl, ProcessorExtras.len_filter_cons, He. lia.
Qed.

Lemma readability_range (text : str) : (0 <= readability text <= 100)%Q.
Proof.
  unfold readability. destruct (truthy (split1 46 text)).
  - set (x := (100 - _)%Q). unfold Qmax, Qmin.
    destruct (ProcessorExtras.Qltb_cases x 100) as [[-> Hx]|[-> Hx]].
    + destruct (ProcessorExtras.Qgtb_cases x 0) as [[-> H0]|[-> H0]].
      * split; [now apply Qlt_le_weak | now apply Qlt_le_weak].
      * split; [apply Qle_refl | unfold Qle; simpl; lia].
    + destruct (ProcessorExtras.Qgtb_cases 100 0) as [[-> H0]|[-> H0]].
      * split; [unfold Qle; simpl; lia | apply Qle_refl].
      * split; [apply Qle_refl | unfold Qle; simpl; lia].
  - split; unfold Qle; simpl; lia.
Qed.

Lemma key_phrases_return (libs : Libs) (text : str) (top_k : Z) :
  exists phrases, outcome (extract_key_phrases libs text top_k) = inr phrases.
Proof. apply (try_except_returns _ (fun _ => [])). Qed.

Lemma sentiment_returns (self : AIModelManager) (text : str) :
  exists d, outcome (analyze_sentiment self text) = inr d.
Proof.
  apply (try_except_returns _
           (fun e => [(lit "sentiment", VStr (lit "neutral"));
                      (lit "confidence", VFloat 0);
                      (lit "analysis", VStr (lit "error"));
                      (lit "error", VStr (exn_str e))])).
Qed.


(** The analysis of the DOCX with a table: three kinds, one language, the
    sentiment of the joined text. *)
Example analysis_of_table_document :
  option_map (fun a => (total_elements a, element_types a, languages_detected a,
                        sentiment_analysis a))
    (match outcome (analyze_document_structure Fixtures.manager Fixtures.small_libs
                      (DocumentProcessor.elements
                         (Fixtures.document_of Fixtures.fs_table "Table.DOCX"))) with
     | inr (inl a) => Some a
     | _ => None
     end)
  = Some (3, [(lit "heading", 1); (lit "paragraph", 1); (lit "table", 1)],
          [(lit "en", 3)],
          [(lit "sentiment", VStr (lit "T")); (lit "confidence", VFloat (1 # 2));
           (lit "analysis", VStr (lit "multilingual_sentiment"))]).
Proof. vm_compute. reflexivity. Qed.

Lemma kinds_counted_alike (self : AIModelManager)
  (els : list DocumentProcessor.DocumentElement) (st : Stats.DocumentStats)
  (langs : list (str * Z)) (all_text : list str) :
  fst (fst (fold_left (scan_step self) els (Stats.element_types st, langs, all_text)))
  = Stats.element_types (fold_left Stats.stats_step els st).
Proof.
  revert st langs all_text. induction els as [|e els IH]; intros st langs all_text;
    [reflexivity|].
  cbn [fold_left]. unfold scan_step at 2.
  destruct (truthy (strip (DocumentProcessor.text e)));
    apply (IH (Stats.stats_step st e)).
Qed.

(** X23.  The two reports on a document agree: the counters of the kinds
    in the analysis of [analyze_document_structure] are, key by key and in
    the same order, those of [get_document_stats], and so is the number of
    elements. *)
Theorem analysis_agrees_with_stats (self : AIModelManager) (libs : Libs)
  (doc : DocumentProcessor.ProcessedDocument) (a : Analysis) :
  outcome (analyze_document_structure self libs (DocumentProcessor.elements doc))
  = inr (inl a) ->
  element_types a = Stats.element_types (Stats.get_document_stats doc)
  /\ total_elements a = Stats.total_elements (Stats.get_document_stats doc).
Proof.
  unfold analyze_document_structure.
  pose proof (kinds_counted_alike self (DocumentProcessor.elements doc)
                (Stats.initial_stats doc) [] []) as Hkinds.
  destruct (ProcessorExtras.stats_loop (DocumentProcessor.elements doc)
              (Stats.initial_stats doc)) as (Htotal & _).
  assert (Hstats :
            Stats.element_types (Stats.get_document_stats doc)
            = Stats.element_types
                (fold_left Stats.stats_step (DocumentProcessor.elements doc)
                           (Stats.initial_stats doc))
            /\ Stats.total_elements (Stats.get_document_stats doc)
               = len (DocumentProcessor.elements doc)).
  { unfold Stats.get_document_stats.
    destruct (truthy (DocumentProcessor.elements doc));
      cbn [Stats.element_types Stats.total_elements]; rewrite Htotal; auto. }
  destruct Hstats as [-> ->]. rewrite <- Hkinds.
  cbn [Stats.initial_stats Stats.element_types].
  destruct (fold_left (scan_step self) _ _) as [[types langs] all_text].
  cbn [fst]. destruct (truthy all_text).
  - destruct (extract_key_phrases libs _ 10) as [[e|topics] t1]; [discriminate|].
    destruct (analyze_sentiment self _) as [[e|sentiment] t2]; [discriminate|].
    cbn [outcome fst bind ret try_except]. intros [= <-]. split; reflexivity.
  - cbn [outcome fst ret try_except]. intros [= <-]. split; reflexivity.
Qed.

(** The theorem at the DOCX with a table. *)
Lemma analysis_agrees_with_stats_witness :
  exists a,
    outcome (analyze_document_structure Fixtures.manager Fixtures.small_libs
               (DocumentProcessor.elements
                  (Fixtures.document_of Fixtures.fs_table "Table.DOCX")))
    = inr (inl a)
    /\ element_types a
       = Stats.element_types
           (Stats.get_document_stats
              (Fixtures.document_of Fixtures.fs_table "Table.DOCX")).
Proof.
  eexists. split; [vm_compute; reflexivity|].
  refine (proj1 (analysis_agrees_with_stats Fixtures.manager Fixtures.small_libs
                   (Fixtures.document_of Fixtures.fs_table "Table.DOCX") _ _)).
  vm_compute. reflexivity.
Defined.

End ModelExtras.
